(** * Everything search plugin: virtual file system over cached search results

    A shallow embedding of [everything/__init__.py]: the two search
    backends and their one-way fallback, the result cache kept in the class
    attributes of [EverythingFS], the path decoding done by [iterdir],
    [resolve], [is_dir] and the column classes, and the open listener.

    Conventions of the embedding.
    - A Python [str] is a [string]; every [ascii] stands for the character
      with that code point, so [String.length] is Python's [len] and the
      strings of the embedding are those of code points below 256.  Among
      them [str.isdigit] holds of the ten decimal digits and of the
      superscripts two, three and one (178, 179, 185), which [int] rejects.
    - The class attributes of [EverythingFS] and the attribute [file_path] of
      the listener are fields of one record [State] that every method
      threads; an exception is the left summand of the result.
    - Everything outside the module (the DLL, the HTTP server, [urllib],
      [os.path], the [fman] host) is a field of the record [World].  A
      backend may answer differently every time it is asked, so its answer
      depends on the number of backend calls made before. *)

From Stdlib Require Import ZArith Ascii String List Lia.
From stdpp Require Import base option strings list gmap pretty.

Open Scope string_scope.
Open Scope Z_scope.

(** ** Python string operations *)

Module PyStr.

(** The decimal digits [0] to [9]: the characters [int] reads as digits and
    [\d] matches. *)
Definition is_decimal (c : ascii) : bool :=
  (("0" <=? c) && (c <=? "9"))%char.

(** The characters of which [str.isdigit] holds: the decimal digits and the
    superscripts two, three and one. *)
Definition is_digit (c : ascii) : bool :=
  let n := nat_of_ascii c in
  is_decimal c || (n =? 178)%nat || (n =? 179)%nat || (n =? 185)%nat.

Definition digit_value (c : ascii) : Z :=
  Z.of_nat (nat_of_ascii c) - 48.

(** The characters [int] skips as white space around a literal: the ASCII
    ones, the next-line control (133) and the no-break space (160). *)
Definition is_space (c : ascii) : bool :=
  let n := nat_of_ascii c in
  (((9 <=? n) && (n <=? 13)) || (n =? 32) || (n =? 133) || (n =? 160))%nat.

Fixpoint all_chars (p : ascii -> bool) (s : string) : bool :=
  match s with
  | EmptyString => true
  | String a s' => p a && all_chars p s'
  end.

(** [s.isdigit()] *)
Definition isdigit (s : string) : bool :=
  match s with
  | EmptyString => false
  | _ => all_chars is_digit s
  end.

(** [s.isdecimal()]: not empty, decimal digits only *)
Definition isdecimal (s : string) : bool :=
  match s with
  | EmptyString => false
  | _ => all_chars is_decimal s
  end.

(** [s.count(c)] for a one-character [c] *)
Fixpoint count (c : ascii) (s : string) : nat :=
  match s with
  | EmptyString => 0%nat
  | String a s' => ((if Ascii.eqb a c then 1 else 0) + count c s')%nat
  end.

(** [c in s] for a one-character [c] *)
Definition contains (c : ascii) (s : string) : bool :=
  (0 <? count c s)%nat.

(** [s.split(c)]: never empty *)
Fixpoint split (c : ascii) (s : string) : list string :=
  match s with
  | EmptyString => [EmptyString]
  | String a s' =>
      if Ascii.eqb a c then EmptyString :: split c s'
      else match split c s' with
           | h :: t => String a h :: t
           | [] => [String a EmptyString]
           end
  end.

(** [s.split(c, 1)] when [c in s]: the text before and after the first [c] *)
Fixpoint split1 (c : ascii) (s : string) : option (string * string) :=
  match s with
  | EmptyString => None
  | String a s' =>
      if Ascii.eqb a c then Some (EmptyString, s')
      else match split1 c s' with
           | Some (h, t) => Some (String a h, t)
           | None => None
           end
  end.

(** [s.rsplit(c, 1)] when [c in s]: the text before and after the last [c] *)
Fixpoint rsplit1 (c : ascii) (s : string) : option (string * string) :=
  match s with
  | EmptyString => None
  | String a s' =>
      match rsplit1 c s' with
      | Some (h, t) => Some (String a h, t)
      | None => if Ascii.eqb a c then Some (EmptyString, s') else None
      end
  end.

(** [s.replace(c, '')] *)
Fixpoint remove (c : ascii) (s : string) : string :=
  match s with
  | EmptyString => EmptyString
  | String a s' => if Ascii.eqb a c then remove c s' else String a (remove c s')
  end.

(** [s.startswith(p)] *)
Fixpoint startswith (p s : string) : bool :=
  match p, s with
  | EmptyString, _ => true
  | String a p', String b s' => Ascii.eqb a b && startswith p' s'
  | String _ _, EmptyString => false
  end.

(** [s.endswith(p)] *)
Fixpoint endswith (p s : string) : bool :=
  String.eqb s p ||
  match s with
  | EmptyString => false
  | String _ s' => endswith p s'
  end.

(** [s[1:]] *)
Definition tail (s : string) : string :=
  match s with
  | EmptyString => EmptyString
  | String _ s' => s'
  end.

(** [s[-1]], an [IndexError] on the empty string *)
Fixpoint last_char (s : string) : option ascii :=
  match s with
  | EmptyString => None
  | String a EmptyString => Some a
  | String _ s' => last_char s'
  end.

(** The white space [int] skips before and after a literal. *)
Fixpoint lstrip (s : string) : string :=
  match s with
  | EmptyString => EmptyString
  | String a s' => if is_space a then lstrip s' else s
  end.

Fixpoint rstrip (s : string) : string :=
  match s with
  | EmptyString => EmptyString
  | String a s' =>
      let r := rstrip s' in
      if String.eqb r EmptyString && is_space a then EmptyString else String a r
  end.

Definition strip (s : string) : string := rstrip (lstrip s).

(** The digits of a decimal literal, single underscores allowed between
    digits; [after_digit] tells whether the previous character was a digit. *)
Fixpoint literal_value (acc : Z) (after_digit : bool) (s : string) : option Z :=
  match s with
  | EmptyString => if after_digit then Some acc else None
  | String a s' =>
      if is_decimal a then literal_value (10 * acc + digit_value a) true s'
      else if Ascii.eqb a "_" && after_digit then literal_value acc false s'
      else None
  end.

(** [int(s)], [None] for [ValueError].  The number of digits is not limited;
    an interpreter that limits it, to 4300 unless told otherwise, differs on
    longer literals only. *)
Definition int (s : string) : option Z :=
  match strip s with
  | String "-" r => Z.opp <$> literal_value 0 false r
  | String "+" r => literal_value 0 false r
  | t => literal_value 0 false t
  end.

(** [next((p for p in reversed(parts) if p), None)] *)
Definition last_nonempty (parts : list string) : option string :=
  List.find (fun p => negb (String.eqb p EmptyString)) (rev parts).

(** [str(n)] and the [{n}] of an f-string, for an integer *)
Definition str (n : Z) : string := pretty n.

End PyStr.

(** ** Exceptions, results and the outside world *)

Inductive exn : Type :=
  | Exception (text : string)
  | ValueError (text : string)
  | IndexError (text : string)
  | KeyError (text : string)
  | TypeError (text : string).

(** [str(e)] *)
Definition str_exn (e : exn) : string :=
  match e with
  | Exception t | ValueError t | IndexError t | KeyError t | TypeError t => t
  end.

(** One entry of a result list: a dictionary with the keys [filename],
    [path], [size] and [date_modified].  [None] is an absent key; the value
    of [date_modified] may itself be Python's [None]. *)
Record Item : Type := mkItem {
  filename : option string;
  path : option string;
  size : option Z;
  date_modified : option (option string)
}.

(** What the DLL answers once the search string and the request flags are
    set and [Everything_QueryW(True)] has run. *)
Record DllAnswer : Type := mkDllAnswer {
  Everything_QueryW : bool;
  Everything_GetLastError : Z;
  Everything_GetNumResults : Z;
  (** returned length and the text left in the buffer *)
  Everything_GetResultFullPathNameW : Z -> Z * string;
  (** [None] when the call returns false *)
  Everything_GetResultSize : Z -> option Z;
  Everything_GetResultDateModified : Z -> option Z
}.

Inductive DllReply : Type :=
  | DllAnswers (a : DllAnswer)
  (** a [ctypes] call raises; the text is [str(e)] *)
  | DllRaises (text : string).

(** What [urlopen], [read] and [json.loads] give for one request. *)
Inductive HttpReply : Type :=
  (** a JSON object; [None] is an absent key *)
  | HttpJson (count : option Z) (results : option (list Item))
  | HTTPError (code : Z) (reason : string)
  | URLError (text : string)
  | JSONDecodeError (text : string)
  | OtherError (text : string).

Record World : Type := mkWorld {
  (** [SETTINGS['mode']] and [SETTINGS['api_endpoint']] after start-up *)
  mode : string;
  api_endpoint : string;
  (** the global [everything_dll]; [None] when it was not loaded.  The
      arguments are the number of earlier backend calls, the search string
      and the request flags. *)
  everything_dll : option (nat -> string -> Z -> DllReply);
  (** the HTTP server, asked with the number of earlier backend calls and
      the URL *)
  urlopen : nat -> string -> HttpReply;
  (** [urllib.parse.quote] and [urllib.parse.unquote] *)
  quote : string -> string;
  unquote : string -> string;
  (** [os.path.basename], [os.path.dirname], [os.path.isdir] *)
  os_path_basename : string -> string;
  os_path_dirname : string -> string;
  os_path_isdir : string -> bool;
  (** [datetime.fromtimestamp(t / 10000000).isoformat()] for the tick
      difference [t]; [None] when it raises *)
  fromtimestamp_isoformat : Z -> option string;
  (** [fman.url.as_url] and [fman.url.splitscheme] *)
  as_url : string -> string;
  splitscheme : string -> exn + (string * string);
  (** the text an f-string gives for a list of strings *)
  repr_list : list string -> string
}.

Inductive BackendCall : Type :=
  | CallDll (query : string) (flags : Z)
  | CallApi (query : string) (url : string).

(** What the listener asks of the pane and of the host. *)
Inductive HostAction : Type :=
  | SetPath (url : string)
  | SetPathWithCallback (url : string)
  | RunCommand (name : string) (url : string)
  | PlaceCursorAt (url : string)
  | ShowAlert (text : string).

Record State : Type := mkState {
  (** class attributes of [EverythingFS] *)
  _current_search_term : string;
  _results_cache : gmap string (Z * list Item);
  _last_selected_file : option string;
  _last_selected_index : Z;
  (** [self.file_path] of the listener *)
  file_path : option string;
  (** the backend calls and the host requests made so far, oldest first *)
  backend_calls : list BackendCall;
  host_actions : list HostAction
}.

Definition set_current_search_term (t : string) (s : State) : State :=
  mkState t (_results_cache s) (_last_selected_file s) (_last_selected_index s)
          (file_path s) (backend_calls s) (host_actions s).

Definition set_results_cache (c : gmap string (Z * list Item)) (s : State) : State :=
  mkState (_current_search_term s) c (_last_selected_file s) (_last_selected_index s)
          (file_path s) (backend_calls s) (host_actions s).

Definition set_last_selected (f : string) (i : Z) (s : State) : State :=
  mkState (_current_search_term s) (_results_cache s) (Some f) i
          (file_path s) (backend_calls s) (host_actions s).

Definition set_file_path (f : string) (s : State) : State :=
  mkState (_current_search_term s) (_results_cache s) (_last_selected_file s)
          (_last_selected_index s) (Some f) (backend_calls s) (host_actions s).

Definition log_call (c : BackendCall) (s : State) : State :=
  mkState (_current_search_term s) (_results_cache s) (_last_selected_file s)
          (_last_selected_index s) (file_path s) (backend_calls s ++ [c]) (host_actions s).

Definition log_host (a : HostAction) (s : State) : State :=
  mkState (_current_search_term s) (_results_cache s) (_last_selected_file s)
          (_last_selected_index s) (file_path s) (backend_calls s) (host_actions s ++ [a]).

(** A method: it reads and writes the state and returns or raises. *)
Definition M (A : Type) : Type := State -> (exn + A) * State.

Definition ret {A} (x : A) : M A := fun s => (inr x, s).

Definition raise {A} (e : exn) : M A := fun s => (inl e, s).

Definition bind {A B} (k : A -> M B) (c : M A) : M B :=
  fun s => match c s with
           | (inr x, s') => k x s'
           | (inl e, s') => (inl e, s')
           end.

#[global] Instance M_ret : MRet M := @ret.
#[global] Instance M_bind : MBind M := @bind.

(** [try: c except <handles> as e: h e]; an exception that [handles]
    rejects goes through. *)
Definition try_except {A} (c : M A) (handles : exn -> bool) (h : exn -> M A) : M A :=
  fun s => match c s with
           | (inl e, s') => if handles e then h e s' else (inl e, s')
           | r => r
           end.

Definition get : M State := fun s => (inr s, s).

Definition modify (f : State -> State) : M unit := fun s => (inr tt, f s).

Definition lift_sum {A} (r : exn + A) : M A := fun s => (r, s).

Definition lift_option {A} (e : exn) (o : option A) : M A :=
  match o with
  | Some x => ret x
  | None => raise e
  end.

(** [except Exception] handles every exception of the model. *)
Definition any_exception (e : exn) : bool := true.

(** [except (ValueError, IndexError, KeyError)] *)
Definition value_index_key (e : exn) : bool :=
  match e with
  | ValueError _ | IndexError _ | KeyError _ => true
  | _ => false
  end.

(** [except (ValueError, IndexError)] *)
Definition value_index (e : exn) : bool :=
  match e with
  | ValueError _ | IndexError _ => true
  | _ => false
  end.

(** [l[i]] on a list: a negative index counts from the end, an index out of
    range raises [IndexError]. *)
Definition py_getitem {A} (l : list A) (i : Z) : M A :=
  let n := Z.of_nat (length l) in
  let j := if i <? 0 then i + n else i in
  if (0 <=? j) && (j <? n)
  then lift_option (IndexError "list index out of range") (l !! Z.to_nat j)
  else raise (IndexError "list index out of range").

(** [d[key]] on a dictionary, [v] being the value of [key] when present *)
Definition dict_getitem {A} (key : string) (v : option A) : M A :=
  lift_option (KeyError key) v.

(** ** The search backends *)

Module Request.
Definition FullPathAndFileName : Z := 0x00000004.
Definition Size : Z := 0x00000010.
Definition DateModified : Z := 0x00000040.
End Request.

Module Error.
Definition Ok : Z := 0.
Definition Memory : Z := 1.
Definition IPC : Z := 2.
Definition RegisterClassEx : Z := 3.
Definition CreateWindow : Z := 4.
Definition CreateThread : Z := 5.
Definition InvalidIndex : Z := 6.
Definition InvalidCall : Z := 7.

Definition get_error_message (code : Z) : string :=
  if code =? Ok then "The operation completed successfully."
  else if code =? Memory then "Failed to allocate memory for the search query."
  else if code =? IPC then "IPC is not available."
  else if code =? RegisterClassEx then "Failed to register the search query window class."
  else if code =? CreateWindow then "Failed to create the search query window."
  else if code =? CreateThread then "Failed to create the search query thread."
  else if code =? InvalidIndex then
    "Invalid index. The index must be greater or equal to 0 and less than the number of visible results."
  else if code =? InvalidCall then "Invalid call."
  else "Unknown error code: " +:+ PyStr.str code.
End Error.

Definition newline : string := String (ascii_of_nat 10) EmptyString.

Definition search_everything_api (w : World) (query : string) : M (Z * list Item) :=
  let encoded_query := quote w query in
  let url := api_endpoint w +:+ "?q=" +:+ encoded_query in
  s ← get;
  modify (log_call (CallApi query url));;
  match urlopen w (length (backend_calls s)) url with
  | HttpJson count results => ret (default 0 count, default [] results)
  | HTTPError code reason =>
      if code =? 400 then
        raise (Exception ("Bad request to Everything API: The query '" +:+ query
                          +:+ "' is invalid"))
      else if code =? 404 then
        raise (Exception "Everything API endpoint not found. Check the API URL")
      else
        raise (Exception ("HTTP Error " +:+ PyStr.str code
                          +:+ " from Everything API: " +:+ reason))
  | URLError text =>
      raise (Exception ("Error connecting to Everything API: " +:+ text +:+ newline
                        +:+ "Make sure the API server is running"))
  | JSONDecodeError _ =>
      raise (Exception
               "Error parsing response from Everything API. The response is not valid JSON")
  | OtherError text =>
      raise (Exception ("Error searching Everything API: " +:+ text))
  end.

(** The body of the loop of [search_everything_dll] for the index [i]:
    the dictionary appended, [None] when the entry is skipped. *)
Definition dll_result (w : World) (a : DllAnswer) (i : Z) : option Item :=
  let '(written, buffer) := Everything_GetResultFullPathNameW a i in
  if written =? 0 then None
  else
    let filename := buffer in
    let size := default 0 (Everything_GetResultSize a i) in
    let date_modified :=
      match Everything_GetResultDateModified a i with
      | Some winticks =>
          if 0 <? winticks
          then fromtimestamp_isoformat w (winticks - 116444736000000000)
          else None
      | None => None
      end in
    if String.eqb filename EmptyString then None
    else Some (mkItem (Some (os_path_basename w filename)) (Some filename)
                      (Some size) (Some date_modified)).

(** [range(n)] *)
Definition range (n : Z) : list Z := Z.of_nat <$> seq 0 (Z.to_nat n).

Definition search_everything_dll (w : World) (query : string) : M (Z * list Item) :=
  try_except
    (match everything_dll w with
     | None => raise (Exception "Everything DLL not loaded")
     | Some dll =>
         let flags := Z.lor (Z.lor Request.FullPathAndFileName Request.DateModified)
                            Request.Size in
         s ← get;
         modify (log_call (CallDll query flags));;
         match dll (length (backend_calls s)) query flags with
         | DllRaises text => raise (Exception text)
         | DllAnswers a =>
             if negb (Everything_QueryW a) then
               let error_code := Everything_GetLastError a in
               raise (Exception ("Everything DLL search error: "
                                 +:+ Error.get_error_message error_code))
             else
               let count := Everything_GetNumResults a in
               let results := omap (dll_result w a) (range (Z.min count 100)) in
               ret (count, results)
         end
     end)
    any_exception
    (fun e => raise (Exception ("Error searching Everything DLL: " +:+ str_exn e))).

Definition search_everything (w : World) (query : string) : M (Z * list Item) :=
  if String.eqb (mode w) "dll" then
    try_except (search_everything_dll w query) any_exception
               (fun _ => search_everything_api w query)
  else search_everything_api w query.

(** ** EverythingFS *)

Definition scheme : string := "everything://".

Definition cache_store (search_term : string) (v : Z * list Item) : M unit :=
  modify (fun s => set_results_cache (<[search_term := v]> (_results_cache s)) s).

Definition cache_contains (search_term : string) (s : State) : bool :=
  bool_decide (is_Some (_results_cache s !! search_term)).

Definition update_search (w : World) (search_term : string) : M unit :=
  modify (set_current_search_term search_term);;
  if (3 <=? String.length search_term)%nat then
    s ← get;
    if cache_contains search_term s then ret tt
    else
      try_except
        ('(count, results) ← search_everything w search_term;
         cache_store search_term (count, results);;
         if (100 <? length results)%nat
         then cache_store search_term (count, take 100 results)
         else ret tt)
        any_exception
        (fun _ =>
           s' ← get;
           if cache_contains search_term s'
           then modify (fun s => set_results_cache (delete search_term (_results_cache s)) s)
           else ret tt)
  else ret tt.

(** The entries [iterdir] yields, in order. *)
Definition iterdir (w : World) (path : string) : M (list string) :=
  (if PyStr.contains "?" path then
     '(base_path, search_term) ←
        lift_option (ValueError "not enough values to unpack") (PyStr.split1 "?" path);
     let search_term := unquote w search_term in
     update_search w search_term
   else if (1 <=? PyStr.count "/" path)%nat then
     if PyStr.startswith "/" path then
       if PyStr.isdigit (PyStr.tail path) then ret tt
       else
         let encoded_search_term := PyStr.tail path in
         let search_term := unquote w encoded_search_term in
         update_search w search_term
     else
       let encoded_search_term := path in
       let search_term := unquote w encoded_search_term in
       update_search w search_term
   else update_search w "");;
  s ← get;
  if (String.length (_current_search_term s) <? 3)%nat then ret ["placeholder"]
  else
    let search_term := _current_search_term s in
    match _results_cache s !! search_term with
    | Some (count, results) =>
        ret ((fun i : nat => "/" +:+ PyStr.str (Z.of_nat i)) <$> seq 0 (length results))
    | None => ret ["placeholder"]
    end.

(** The part of [resolve] and [is_dir] under [if '/' in path:]: the entry
    the final segment of the path selects, [None] when control leaves the
    [try] without a [return]. *)
Definition indexed_entry_path (url_path : string) : M (option string) :=
  '(base_path, index) ←
     lift_option (ValueError "not enough values to unpack") (PyStr.rsplit1 "/" url_path);
  try_except
    (index ← lift_option (ValueError "invalid literal for int() with base 10")
                         (PyStr.int index);
     s ← get;
     let search_term := _current_search_term s in
     match _results_cache s !! search_term with
     | Some (count, results) =>
         if (0 <=? index) && (index <? Z.of_nat (length results)) then
           item ← py_getitem results index;
           file_path ← dict_getitem "path" (path item);
           ret (Some file_path)
         else ret None
     | None => ret None
     end)
    value_index_key
    (fun _ => ret None).

Definition resolve (w : World) (path : string) : M string :=
  if String.eqb path "placeholder" then ret (scheme +:+ path)
  else
    found ← (if PyStr.contains "/" path then indexed_entry_path path else ret None);
    match found with
    | Some file_path => ret (as_url w file_path)
    | None => ret (scheme +:+ path)
    end.

(** The function the decorator [cached] of the host wraps. *)
Definition is_dir (w : World) (path : string) : M bool :=
  if String.eqb path "placeholder" then ret false
  else
    found ← (if PyStr.contains "/" path then indexed_entry_path path else ret None);
    match found with
    | Some file_path => ret (os_path_isdir w file_path)
    | None => ret false
    end.

Definition get_item_at_index (index : Z) : M (option Item) :=
  try_except
    (s ← get;
     let search_term := _current_search_term s in
     if (String.length search_term <? 3)%nat then ret None
     else
       match _results_cache s !! search_term with
       | Some (count, results) =>
           if (0 <=? index) && (index <? Z.of_nat (length results)) then
             item ← py_getitem results index;
             ret (Some item)
           else ret None
       | None => ret None
       end)
    value_index
    (fun _ => ret None).

(** ** The column DateModified *)

(** [datetime.strptime(s, '%Y-%m-%dT%H:%M:%S')] and
    [date.strftime("%Y-%m-%d %H:%M:%S")].  [strptime] turns the format into
    a regular expression, one group of alternatives per directive, compiles
    it ignoring case, takes the first match in backtracking order and
    rejects a match that leaves text over. *)
Module Datetime.

Definition cls : Type := ascii -> bool.

Definition one (c : ascii) : cls := Ascii.eqb c.

Definition between (lo hi : ascii) : cls :=
  fun c => ((lo <=? c) && (c <=? hi))%char.

Definition digit : cls := PyStr.is_decimal.

(** one character per class *)
Fixpoint match_seq (cs : list cls) (s : string) : option (string * string) :=
  match cs with
  | [] => Some (EmptyString, s)
  | c :: cs' =>
      match s with
      | String a s' =>
          if c a then
            match match_seq cs' s' with
            | Some (m, r) => Some (String a m, r)
            | None => None
            end
          else None
      | EmptyString => None
      end
  end.

Definition group : Type := list (list cls).

(** the matches of a group at the start of [s], first alternative first *)
Definition alternatives (g : group) (s : string) : list (string * string) :=
  omap (fun cs => match_seq cs s) g.

(** the matches of a sequence of groups, in backtracking order *)
Fixpoint match_groups (gs : list group) (s : string) : list (list string * string) :=
  match gs with
  | [] => [([], s)]
  | g :: gs' =>
      '(m, r) ← alternatives g s;
      '(ms, r') ← match_groups gs' r;
      [(m :: ms, r')]
  end.

(** [\d\d\d\d] *)
Definition re_Y : group := [[digit; digit; digit; digit]].
(** [1[0-2]|0[1-9]|[1-9]] *)
Definition re_m : group :=
  [[one "1"; between "0" "2"]; [one "0"; between "1" "9"]; [between "1" "9"]].
(** [3[0-1]|[1-2]\d|0[1-9]|[1-9]| [1-9]] *)
Definition re_d : group :=
  [[one "3"; between "0" "1"]; [between "1" "2"; digit]; [one "0"; between "1" "9"];
   [between "1" "9"]; [one " "; between "1" "9"]].
(** [2[0-3]|[0-1]\d|\d] *)
Definition re_H : group := [[one "2"; between "0" "3"]; [between "0" "1"; digit]; [digit]].
(** [[0-5]\d|\d] *)
Definition re_M : group := [[between "0" "5"; digit]; [digit]].
(** [6[0-1]|[0-5]\d|\d] *)
Definition re_S : group := [[one "6"; between "0" "1"]; [between "0" "5"; digit]; [digit]].
(** a literal character of the format *)
Definition lit (c : ascii) : group := [[one c]].
(** the literal [T], matched ignoring case *)
Definition lit_T : group := [[fun a => Ascii.eqb a "T" || Ascii.eqb a "t"]].

Record datetime : Type := mkdatetime {
  year : Z; month : Z; day : Z; hour : Z; minute : Z; second : Z
}.

Definition is_leap (y : Z) : bool :=
  ((y mod 4 =? 0) && negb (y mod 100 =? 0)) || (y mod 400 =? 0).

Definition days_in_month (y m : Z) : Z :=
  if m =? 2 then (if is_leap y then 29 else 28)
  else if (m =? 4) || (m =? 6) || (m =? 9) || (m =? 11) then 30
  else 31.

(** the constructor [datetime(...)]: [None] for its [ValueError] *)
Definition make (y m d hh mm ss : Z) : option datetime :=
  if (1 <=? y) && (y <=? 9999) && (1 <=? m) && (m <=? 12)
     && (1 <=? d) && (d <=? days_in_month y m)
     && (0 <=? hh) && (hh <=? 23) && (0 <=? mm) && (mm <=? 59) && (0 <=? ss) && (ss <=? 59)
  then Some (mkdatetime y m d hh mm ss)
  else None.

Definition strptime (data_string : string) : option datetime :=
  match match_groups [re_Y; lit "-"; re_m; lit "-"; re_d; lit_T;
                      re_H; lit ":"; re_M; lit ":"; re_S] data_string with
  | ([gY; _; gm; _; gd; _; gH; _; gM; _; gS], rest) :: _ =>
      if String.eqb rest EmptyString then
        year ← PyStr.int gY; month ← PyStr.int gm; day ← PyStr.int gd;
        hour ← PyStr.int gH; minute ← PyStr.int gM; second ← PyStr.int gS;
        make year month day hour minute second
      else None
  | _ => None
  end.

Definition pad (width : nat) (n : Z) : string :=
  let t := PyStr.str n in
  String.concat EmptyString (replicate (width - String.length t) "0") +:+ t.

(** On Windows, the platform of the plugin, [%Y] has four digits. *)
Definition strftime (t : datetime) : string :=
  pad 4 (year t) +:+ "-" +:+ pad 2 (month t) +:+ "-" +:+ pad 2 (day t) +:+ " "
  +:+ pad 2 (hour t) +:+ ":" +:+ pad 2 (minute t) +:+ ":" +:+ pad 2 (second t).

End Datetime.

(** The index a column or the listener reads off a path whose last
    non-empty segment is all digits; [None] when the method returns early. *)
Definition general_index (url_path : string) : M (option Z) :=
  if PyStr.contains "/" url_path then
    let parts := PyStr.split "/" url_path in
    let index_str := PyStr.last_nonempty parts in
    match index_str with
    | Some index_str =>
        if PyStr.isdigit index_str then
          index ← lift_option (ValueError "invalid literal for int() with base 10")
                               (PyStr.int index_str);
          ret (Some index)
        else ret None
    | None => ret None
    end
  else ret None.

(** The same with the shortcut for a path ending in [/0], [/1] or [/2]. *)
Definition shortcut_index (url_path : string) : M (option Z) :=
  if PyStr.endswith "/0" url_path || PyStr.endswith "/1" url_path
     || PyStr.endswith "/2" url_path then
    c ← lift_option (IndexError "string index out of range") (PyStr.last_char url_path);
    index ← lift_option (ValueError "invalid literal for int() with base 10")
                         (PyStr.int (String c EmptyString));
    ret (Some index)
  else general_index url_path.

(** The time-zone suffix removed before parsing. *)
Definition strip_zone (date_str : string) : string :=
  if PyStr.contains "Z" date_str then PyStr.remove "Z" date_str
  else if PyStr.contains "+" date_str then
    match PyStr.split1 "+" date_str with
    | Some (h, _) => h
    | None => date_str
    end
  else if PyStr.contains "-" date_str && (2 <? PyStr.count "-" date_str)%nat then
    match PyStr.rsplit1 "-" date_str with
    | Some (h, _) => h
    | None => date_str
    end
  else date_str.

(** The inner [try] of [DateModified.get_str] on the value of
    [item['date_modified']]; [None] is Python's [None]. *)
Definition format_date_modified (raw : option string) : M (option string) :=
  try_except
    (date_str ← lift_option (TypeError "argument of type 'NoneType' is not iterable") raw;
     let date_str := strip_zone date_str in
     date ← lift_option (ValueError "time data does not match format")
                        (Datetime.strptime date_str);
     let result := Datetime.strftime date in
     ret (Some result))
    any_exception
    (fun _ => ret raw).

Definition DateModified_get_str (w : World) (url : string) : M (option string) :=
  '(scheme', url_path) ← lift_sum (splitscheme w url);
  if String.eqb scheme' "everything://" then
    if String.eqb url_path "placeholder" then ret (Some EmptyString)
    else
      index ← shortcut_index url_path;
      match index with
      | None => ret (Some EmptyString)
      | Some index =>
          returned ←
            try_except
              (item ← get_item_at_index index;
               match item with
               | Some item =>
                   match date_modified item with
                   | Some raw => r ← format_date_modified raw; ret (Some r)
                   | None => ret None
                   end
               | None => ret None
               end)
              value_index_key
              (fun _ => ret None);
          match returned with
          | Some r => ret r
          | None => ret (Some EmptyString)
          end
      end
  else ret (Some EmptyString).

(** ** The open listener *)

(** What [on_command] returns: [None], a boolean, or a command with its
    argument. *)
Inductive CommandResult : Type :=
  | ReturnNone
  | ReturnBool (b : bool)
  | ReturnCommand (name : string) (url : string).

Definition show_alert (text : string) : M unit := modify (log_host (ShowAlert text)).

(** [None] is Python's [None], returned where the method falls off its end. *)
Definition on_doubleclicked (w : World) (file_url : string) : M (option bool) :=
  '(scheme', url_path) ← lift_sum (splitscheme w file_url);
  if negb (String.eqb scheme' "everything://") then ret None
  else if String.eqb url_path "placeholder" then ret None
  else
    index ← shortcut_index url_path;
    match index with
    | None => ret None
    | Some index =>
        returned ←
          try_except
            (item ← get_item_at_index index;
             match item with
             | Some item =>
                 match path item with
                 | Some file_path =>
                     if os_path_isdir w file_path then
                       modify (log_host (SetPath (as_url w file_path)));;
                       ret None
                     else
                       modify (log_host (RunCommand "open" (as_url w file_path)));;
                       ret (Some true)
                 | None => ret None
                 end
             | None => ret None
             end)
            value_index_key
            (fun _ => ret None);
        match returned with
        | Some r => ret (Some r)
        | None =>
            if String.eqb scheme' "everything://" then ret (Some true) else ret None
        end
    end.

(** The [try] of [on_command] once the index is known. *)
Definition open_file_at (w : World) (index : Z) : M CommandResult :=
  returned ←
    try_except
      (item ← get_item_at_index index;
       match item with
       | Some item =>
           match path item with
           | Some file_path =>
               if os_path_isdir w file_path then
                 show_alert ("Opening directory: " +:+ file_path);;
                 modify (log_host (SetPath (as_url w file_path)));;
                 ret (Some (ReturnBool true))
               else
                 modify (set_file_path file_path);;
                 modify (set_last_selected file_path index);;
                 let parent_dir := os_path_dirname w file_path in
                 modify (log_host (SetPathWithCallback (as_url w parent_dir)));;
                 show_alert ("Opening parent directory: " +:+ parent_dir);;
                 ret (Some (ReturnCommand "open_directory" (as_url w parent_dir)))
           | None => ret None
           end
       | None => ret None
       end)
      value_index_key
      (fun e => show_alert ("Error handling open_file: " +:+ str_exn e);; ret None);
  ret (default ReturnNone returned).

(** [args_url] is [args['url']], [None] when the key is absent. *)
Definition on_command (w : World) (command_name : string) (args_url : option string)
  : M CommandResult :=
  if String.eqb command_name "open_file" then
    match args_url with
    | Some url =>
        '(scheme', url_path) ← lift_sum (splitscheme w url);
        if String.eqb scheme' "everything://" then
          if String.eqb url_path "placeholder" || String.eqb url_path "/placeholder"
          then ret (ReturnBool false)
          else if PyStr.contains "/" url_path then
            let parts := PyStr.split "/" url_path in
            show_alert ("parts: " +:+ repr_list w parts);;
            match PyStr.last_nonempty parts with
            | Some index_str =>
                if PyStr.isdigit index_str then
                  show_alert ("Extracted index: '" +:+ index_str +:+ "'");;
                  index ← lift_option (ValueError "invalid literal for int() with base 10")
                                       (PyStr.int index_str);
                  open_file_at w index
                else ret ReturnNone
            | None => ret ReturnNone
            end
          else ret ReturnNone
        else ret ReturnNone
    | None => ret ReturnNone
    end
  else ret ReturnNone.

(** ** Reading aids for the statements *)

(** The entries a listing yields for a stored result list. *)
Definition entries (results : list Item) : list string :=
  (fun i : nat => "/" +:+ PyStr.str (Z.of_nat i)) <$> seq 0 (length results).

(** What [iterdir] yields once the search term of the path is dealt with:
    its second half, which only reads the state. *)
Definition current_listing (s : State) : list string :=
  if (String.length (_current_search_term s) <? 3)%nat then ["placeholder"]
  else match _results_cache s !! _current_search_term s with
       | Some (count, results) => entries results
       | None => ["placeholder"]
       end.

(** The search term [iterdir] hands to [update_search] for a path, [None]
    for a result item path, which leaves the current search term alone. *)
Definition decoded_query (w : World) (url_path : string) : option string :=
  if PyStr.contains "?" url_path then
    match PyStr.split1 "?" url_path with
    | Some (_, search_term) => Some (unquote w search_term)
    | None => None
    end
  else if (1 <=? PyStr.count "/" url_path)%nat then
    if PyStr.startswith "/" url_path then
      if PyStr.isdigit (PyStr.tail url_path) then None
      else Some (unquote w (PyStr.tail url_path))
    else Some (unquote w url_path)
  else Some EmptyString.

(** The state with further backend calls logged. *)
Definition log_calls (cs : list BackendCall) (s : State) : State :=
  mkState (_current_search_term s) (_results_cache s) (_last_selected_file s)
          (_last_selected_index s) (file_path s) (backend_calls s ++ cs) (host_actions s).

Definition call_query (c : BackendCall) : string :=
  match c with
  | CallDll q _ => q
  | CallApi q _ => q
  end.

(** The URL the remote backend requests for a query. *)
Definition api_url (w : World) (query : string) : string :=
  api_endpoint w +:+ "?q=" +:+ quote w query.

(** The state of a fresh session. *)
Definition initial_state : State :=
  mkState EmptyString ∅ None 0 None [] [].

(** ** A sample world *)

Module Sample.

Definition hex_value (c : ascii) : option nat :=
  let n := nat_of_ascii c in
  if ((48 <=? n) && (n <=? 57))%nat then Some (n - 48)%nat
  else if ((65 <=? n) && (n <=? 70))%nat then Some (n - 55)%nat
  else if ((97 <=? n) && (n <=? 102))%nat then Some (n - 87)%nat
  else None.

(** percent-decoding of ASCII text *)
Fixpoint unquote (s : string) : string :=
  match s with
  | EmptyString => EmptyString
  | String c rest =>
      if Ascii.eqb c "%" then
        match rest with
        | String a (String b rest') =>
            match hex_value a, hex_value b with
            | Some x, Some y => String (ascii_of_nat (16 * x + y)) (unquote rest')
            | _, _ => String c (unquote rest)
            end
        | _ => String c (unquote rest)
        end
      else String c (unquote rest)
  end.

Definition hex_digit (n : nat) : ascii :=
  if (n <? 10)%nat then ascii_of_nat (48 + n) else ascii_of_nat (55 + n).

Definition is_safe (c : ascii) : bool :=
  let n := nat_of_ascii c in
  (((48 <=? n) && (n <=? 57)) || ((65 <=? n) && (n <=? 90)) || ((97 <=? n) && (n <=? 122)))%nat
  || Ascii.eqb c "_" || Ascii.eqb c "." || Ascii.eqb c "-" || Ascii.eqb c "~"
  || Ascii.eqb c "/".

(** percent-encoding of ASCII text, [/] kept *)
Fixpoint quote (s : string) : string :=
  match s with
  | EmptyString => EmptyString
  | String c rest =>
      if is_safe c then String c (quote rest)
      else
        let n := nat_of_ascii c in
        String "%" (String (hex_digit (n / 16)) (String (hex_digit (n mod 16)) (quote rest)))
  end.

(** the text up to and including the first [://], and the rest *)
Fixpoint splitscheme (url : string) : exn + (string * string) :=
  match url with
  | EmptyString => inl (ValueError "Not a valid URL")
  | String c rest =>
      if PyStr.startswith "://" url then inr ("://", PyStr.tail (PyStr.tail rest))
      else match splitscheme rest with
           | inr (h, t) => inr (String c h, t)
           | inl e => inl e
           end
  end.

Definition dirname (p : string) : string :=
  match PyStr.rsplit1 "/" p with
  | Some (h, _) => h
  | None => EmptyString
  end.

Definition basename (p : string) : string :=
  match PyStr.rsplit1 "/" p with
  | Some (_, t) => t
  | None => p
  end.

Definition item (p : string) (date : option string) : Item :=
  mkItem (Some (basename p)) (Some p) (Some 512) (Some date).

(** A world with the given mode, DLL and server; the only directory is
    [C:/docs]. *)
Definition world (m : string) (dll : option (nat -> string -> Z -> DllReply))
    (server : nat -> string -> HttpReply) : World :=
  mkWorld m "http://localhost:5000/everything-search-api/search" dll server
          quote unquote basename dirname (String.eqb "C:/docs")
          (fun _ => None) (fun p => "file://" +:+ p) splitscheme
          (String.concat ", ").

(** a server that is down *)
Definition server_down : nat -> string -> HttpReply :=
  fun _ _ => URLError "<urlopen error [WinError 10061]>".

(** a server that reports [count] matches and returns [results] *)
Definition server_with (count : Z) (results : list Item) : nat -> string -> HttpReply :=
  fun _ _ => HttpJson (Some count) (Some results).

(** a DLL whose query fails with the error code [IPC] *)
Definition dll_without_ipc : nat -> string -> Z -> DllReply :=
  fun _ _ _ => DllAnswers (mkDllAnswer false Error.IPC 0 (fun _ => (0, EmptyString))
                                       (fun _ => None) (fun _ => None)).

(** a DLL that reports two results and cannot read the path of the second *)
Definition dll_with_unreadable : nat -> string -> Z -> DllReply :=
  fun _ _ _ =>
    DllAnswers (mkDllAnswer true 0 2
                  (fun i => if i =? 0 then (10, "C:/a/b.txt") else (0, EmptyString))
                  (fun _ => Some 512) (fun _ => None)).

Definition five_results : list Item :=
  [item "C:/docs" None; item "C:/docs/a.txt" (Some "2024-03-05T12:30:00Z");
   item "C:/docs/b.txt" (Some "yesterday"); item "C:/docs/c.txt" None;
   item "C:/docs/d.txt" None].

(** the state after the query [abc] was answered with [five_results] *)
Definition state_abc : State :=
  mkState "abc" {[ "abc" := (5, five_results) ]} None 0 None [] [].

End Sample.

(** ** Statements of the specification about listings and the cache *)

(** A path with a separator whose last non-empty segment is all digits is
    listed without changing the current search term. *)
Definition digit_segment_keeps_query (w : World) (url_path : string) (s : State) : Prop :=
  PyStr.contains "/" url_path = true ->
  (exists seg, PyStr.last_nonempty (PyStr.split "/" url_path) = Some seg /\
               PyStr.isdigit seg = true) ->
  _current_search_term (iterdir w url_path s).2 = _current_search_term s.

(** The first listing of an uncached query of three characters or more
    makes exactly one backend call and stores the result; the second makes
    none and lists the stored result. *)
Definition one_call_then_cached (w : World) (url_path q : string) (s : State) : Prop :=
  decoded_query w url_path = Some q ->
  (3 <= String.length q)%nat ->
  _results_cache s !! q = None ->
  let s1 := (iterdir w url_path s).2 in
  let s2 := (iterdir w url_path s1).2 in
  length (backend_calls s1) = S (length (backend_calls s)) /\
  backend_calls s2 = backend_calls s1 /\
  exists count results,
    _results_cache s1 !! q = Some (count, results) /\
    (iterdir w url_path s1).1 = inr (entries results).

(** Every cached result list has [min(count, 100)] entries. *)
Definition entries_match_count (s : State) : Prop :=
  forall q count results,
    _results_cache s !! q = Some (count, results) ->
    Z.of_nat (length results) = Z.min count 100.

(** Every cached result list has at most a hundred entries. *)
Definition cache_capped (s : State) : Prop :=
  forall q count results,
    _results_cache s !! q = Some (count, results) -> (length results <= 100)%nat.

(** A listing returns and has the placeholder among its entries. *)
Definition yields_placeholder (w : World) (url_path : string) (s : State) : Prop :=
  exists l, (iterdir w url_path s).1 = inr l /\ "placeholder" ∈ l.

(** After the handler, the host was asked to open the file and the
    selection holds its path and index. *)
Definition opened_and_recorded (w : World) (file_path : string) (index : Z)
    (s' : State) : Prop :=
  RunCommand "open" (as_url w file_path) ∈ host_actions s' /\
  _last_selected_file s' = Some file_path /\
  _last_selected_index s' = index.

(** ** The rest of the module: settings, the command and the other columns *)

(** The functions of [fman.url] the columns fall back on. *)
Record Host : Type := mkHost {
  (** [fman.url.basename] and [fman.url.dirname] *)
  basename : string -> string;
  dirname : string -> string
}.

(** *** Settings and start-up *)

Definition DEFAULT_API_ENDPOINT : string :=
  "http://localhost:5000/everything-search-api/search".
Definition DEFAULT_SEARCH_MODE : string := "dll".
Definition DEFAULT_DLL_PATH : string := "Everything32.dll".

(** The dictionary [settings] of [read_settings], later [SETTINGS]. *)
Record Settings : Type := mkSettings {
  settings_mode : string;
  settings_api_endpoint : string;
  settings_dll_path : string
}.

(** One key of the section [search] of a settings file: absent, or present
    with a value whose reading may raise (the interpolation of
    [configparser] does, on a stray [%]). *)
Inductive ConfigKey : Type :=
  | KeyAbsent
  | KeyValue (v : string)
  | KeyRaises (text : string).

Record SearchSection : Type := mkSearchSection {
  config_mode : ConfigKey;
  config_api_endpoint : ConfigKey;
  config_dll_path : ConfigKey
}.

(** What reading a settings file that exists gives: the section [search],
    [None] when the file has none, or an exception. *)
Inductive ConfigFile : Type :=
  | ConfigRead (search : option SearchSection)
  | ConfigRaises (text : string).

(** [settings[key] = config['search'][key]] for a key that is present;
    [None] when reading the value raises. *)
Definition read_key (k : ConfigKey) (current : string) : option string :=
  match k with
  | KeyAbsent => Some current
  | KeyValue v => Some v
  | KeyRaises _ => None
  end.

(** The three [if key in config['search']] of one file, in order, on the
    dictionary built so far.  An exception ends them and leaves the keys
    already set. *)
Definition apply_section (sec : SearchSection) (settings : Settings) : Settings :=
  match read_key (config_mode sec) (settings_mode settings) with
  | None => settings
  | Some m =>
      let settings1 :=
        mkSettings m (settings_api_endpoint settings) (settings_dll_path settings) in
      match read_key (config_api_endpoint sec) (settings_api_endpoint settings1) with
      | None => settings1
      | Some e =>
          let settings2 := mkSettings m e (settings_dll_path settings1) in
          match read_key (config_dll_path sec) (settings_dll_path settings2) with
          | None => settings2
          | Some d => mkSettings m e d
          end
      end
  end.

(** [read_settings()]; [ini] and [json] are [settings.ini] and
    [settings.json], [None] for a file that does not exist.  Every exception
    is caught, and the dictionary is returned as it is by then. *)
Definition read_settings (ini json : option ConfigFile) : Settings :=
  let settings :=
    mkSettings DEFAULT_SEARCH_MODE DEFAULT_API_ENDPOINT DEFAULT_DLL_PATH in
  let from_file (f : ConfigFile) : Settings :=
    match f with
    | ConfigRaises _ => settings
    | ConfigRead None => settings
    | ConfigRead (Some sec) => apply_section sec settings
    end in
  match ini with
  | Some f => from_file f
  | None =>
      match json with
      | Some f => from_file f
      | None => settings
      end
  end.

(** What [ctypes.WinDLL(dll_path)] and the declarations of the argument
    types after it do. *)
Inductive DllLoad : Type :=
  (** the library loads and has every function *)
  | DllLoaded (dll : nat -> string -> Z -> DllReply)
  (** the library loads, a function is missing: the global is set already *)
  | DllLoadedUnbound (dll : nat -> string -> Z -> DllReply) (text : string)
  (** loading raises *)
  | DllLoadRaises (text : string).

(** The module body after [SETTINGS = read_settings()]: the settings and
    the global [everything_dll] it leaves.  [exists_] is [os.path.exists]
    and [load] is the loading, both on [SETTINGS['dll_path']] joined to the
    plugin directory. *)
Definition load_dll (settings : Settings) (exists_ : string -> bool)
    (load : string -> DllLoad)
  : Settings * option (nat -> string -> Z -> DllReply) :=
  let to_api := mkSettings "api" (settings_api_endpoint settings)
                           (settings_dll_path settings) in
  if String.eqb (settings_mode settings) "dll" then
    if negb (exists_ (settings_dll_path settings)) then (to_api, None)
    else
      match load (settings_dll_path settings) with
      | DllLoaded dll => (settings, Some dll)
      | DllLoadedUnbound dll _ => (to_api, Some dll)
      | DllLoadRaises _ => (to_api, None)
      end
  else (settings, None).

(** The world a start-up leaves, the rest of it taken from [w]. *)
Definition started_world (ini json : option ConfigFile) (exists_ : string -> bool)
    (load : string -> DllLoad) (w : World) : World :=
  let '(settings, dll) := load_dll (read_settings ini json) exists_ load in
  mkWorld (settings_mode settings) (settings_api_endpoint settings) dll
          (urlopen w) (quote w) (unquote w) (os_path_basename w) (os_path_dirname w)
          (os_path_isdir w) (fromtimestamp_isoformat w) (as_url w) (splitscheme w)
          (repr_list w).

(** *** The command Everything *)

(** [Everything.__call__]; [search_term] and [ok] are what [show_prompt]
    returns. *)
Definition Everything_call (w : World) (search_term : string) (ok : bool) : M unit :=
  if negb ok then ret tt
  else if (String.length search_term <? 3)%nat then ret tt
  else
    let encoded_search_term := quote w search_term in
    modify (log_host (SetPath ("everything:///" +:+ encoded_search_term))).

(** *** The columns Name, Path and Size *)

Definition get_default_columns (url_path : string) : list string :=
  ["everything.Name"; "everything.Path"; "everything.Size"; "everything.DateModified"].

(** The paths on which the extraction of the index raises: the last
    non-empty segment passes [isdigit], so [int] is called on it, and [int]
    rejects it. *)
Definition rejected_digits (url_path : string) : bool :=
  PyStr.contains "/" url_path &&
  match PyStr.last_nonempty (PyStr.split "/" url_path) with
  | Some index_str =>
      PyStr.isdigit index_str &&
      match PyStr.int index_str with
      | Some _ => false
      | None => true
      end
  | None => false
  end.

(** The character [²], code point 178, of which [isdigit] holds.  (A string
    literal would hold the two bytes of its UTF-8 encoding instead.) *)
Definition superscript_two : string := String "178" EmptyString.

Definition Name_get_str (w : World) (h : Host) (url : string) : M string :=
  '(scheme', url_path) ← lift_sum (splitscheme w url);
  if String.eqb scheme' "everything://" then
    if String.eqb url_path "placeholder"
    then ret "Search using 'Everything' from the command palette"
    else
      index ← general_index url_path;
      match index with
      | None => ret (basename h url)
      | Some index =>
          returned ←
            try_except
              (item ← get_item_at_index index;
               match item with
               | Some item =>
                   match filename item with
                   | Some name => ret (Some name)
                   | None => ret None
                   end
               | None => ret None
               end)
              value_index_key
              (fun _ => ret None);
          match returned with
          | Some r => ret r
          | None => ret (basename h url)
          end
      end
  else ret (basename h url).

Definition Path_get_str (w : World) (h : Host) (url : string) : M string :=
  '(scheme', url_path) ← lift_sum (splitscheme w url);
  if String.eqb scheme' "everything://" then
    if String.eqb url_path "placeholder" then ret EmptyString
    else
      index ← general_index url_path;
      match index with
      | None => ret (dirname h url)
      | Some index =>
          returned ←
            try_except
              (item ← get_item_at_index index;
               match item with
               | Some item =>
                   match path item with
                   | Some p => ret (Some (os_path_dirname w p))
                   | None => ret None
                   end
               | None => ret None
               end)
              value_index_key
              (fun _ => ret None);
          match returned with
          | Some r => ret r
          | None => ret (dirname h url)
          end
      end
  else ret (dirname h url).

(** Floating point, as far as [Size.get_str] needs it.  A size of 1024 or
    more is divided by a power of two, which gives the double nearest to
    the size, scaled; [{:.1f}] then prints that double rounded to one
    decimal, a tie going to the even digit. *)
Module Float.

(** [num / den] rounded to the nearest integer, a tie to the even one *)
Definition round_half_even (num den : Z) : Z :=
  let q := num / den in
  let r := num mod den in
  if 2 * r <? den then q
  else if den <? 2 * r then q + 1
  else if Z.even q then q else q + 1.

(** the integer value of the double nearest to a positive integer:
    53 significant bits *)
Definition nearest_double (n : Z) : Z :=
  let e := Z.log2 n - 52 in
  if e <=? 0 then n else round_half_even n (2 ^ e) * 2 ^ e.

(** ["{:.1f}".format(size / 2 ** k)] for [size >= 1]; [None] is the
    [OverflowError] of the division *)
Definition format_1f (size k : Z) : option string :=
  let m := nearest_double size in
  if 2 ^ (1024 + k) <=? m then None
  else
    let tenths := round_half_even (10 * m) (2 ^ k) in
    Some (PyStr.str (tenths / 10) +:+ "." +:+ PyStr.str (tenths mod 10)).

End Float.

(** The formatting of [Size.get_str] on the value of [item['size']].  The
    exception is Python's [OverflowError], which no handler of the module
    names. *)
Definition format_size (size : Z) : M string :=
  if size <? 1024 then ret (PyStr.str size +:+ " B")
  else if size <? 1024 * 1024 then
    t ← lift_option (Exception "integer division result too large for a float")
                    (Float.format_1f size 10);
    ret (t +:+ " KB")
  else if size <? 1024 * 1024 * 1024 then
    t ← lift_option (Exception "integer division result too large for a float")
                    (Float.format_1f size 20);
    ret (t +:+ " MB")
  else
    t ← lift_option (Exception "integer division result too large for a float")
                    (Float.format_1f size 30);
    ret (t +:+ " GB").

Definition Size_get_str (w : World) (url : string) : M string :=
  '(scheme', url_path) ← lift_sum (splitscheme w url);
  if String.eqb scheme' "everything://" then
    if String.eqb url_path "placeholder" then ret EmptyString
    else
      index ← shortcut_index url_path;
      match index with
      | None => ret EmptyString
      | Some index =>
          returned ←
            try_except
              (item ← get_item_at_index index;
               match item with
               | Some item =>
                   match size item with
                   | Some size => result ← format_size size; ret (Some result)
                   | None => ret None
                   end
               | None => ret None
               end)
              value_index_key
              (fun _ => ret None);
          match returned with
          | Some r => ret r
          | None => ret EmptyString
          end
      end
  else ret EmptyString.

(** *** Returning to the listing *)

(** [on_path_changed]; [current_path] is [self.pane.get_path()]. *)
Definition on_path_changed (w : World) (current_path : string) : M unit :=
  '(scheme', url_path) ← lift_sum (splitscheme w current_path);
  if String.eqb scheme' "everything://" then
    s ← get;
    match _last_selected_file s with
    | Some f =>
        if String.eqb f EmptyString then ret tt
        else
          let encoded_search_term := quote w (_current_search_term s) in
          let file_url := "everything:///" +:+ encoded_search_term +:+ "//"
                          +:+ PyStr.str (_last_selected_index s) in
          modify (log_host (PlaceCursorAt file_url))
    | None => ret tt
    end
  else ret tt.

(** *** Sessions *)

(** One call the host makes. *)
Inductive Call : Type :=
  | call_iterdir (url_path : string)
  | call_resolve (url_path : string)
  | call_is_dir (url_path : string)
  | call_get_item_at_index (index : Z)
  | call_Name (url : string)
  | call_Path (url : string)
  | call_Size (url : string)
  | call_DateModified (url : string)
  | call_Everything (search_term : string) (ok : bool)
  | call_on_doubleclicked (url : string)
  | call_on_command (command_name : string) (args_url : option string)
  | call_on_path_changed (current_path : string).

(** The state a call leaves, whether it returns or raises. *)
Definition after (w : World) (h : Host) (c : Call) (s : State) : State :=
  match c with
  | call_iterdir p => (iterdir w p s).2
  | call_resolve p => (resolve w p s).2
  | call_is_dir p => (is_dir w p s).2
  | call_get_item_at_index i => (get_item_at_index i s).2
  | call_Name u => (Name_get_str w h u s).2
  | call_Path u => (Path_get_str w h u s).2
  | call_Size u => (Size_get_str w u s).2
  | call_DateModified u => (DateModified_get_str w u s).2
  | call_Everything t ok => (Everything_call w t ok s).2
  | call_on_doubleclicked u => (on_doubleclicked w u s).2
  | call_on_command n a => (on_command w n a s).2
  | call_on_path_changed p => (on_path_changed w p s).2
  end.

(** The states of a session: any calls, in any order, from a fresh start. *)
Inductive reachable (w : World) (h : Host) : State -> Prop :=
  | reachable_initial : reachable w h initial_state
  | reachable_after (c : Call) (s : State) :
      reachable w h s -> reachable w h (after w h c s).

(** What holds of the cache and the log in every state of a session. *)
Record session_invariant (s : State) : Prop := mk_session_invariant {
  cached_terms_long :
    forall q v, _results_cache s !! q = Some v -> (3 <= String.length q)%nat;
  cached_lists_capped : cache_capped s;
  searched_terms_long :
    Forall (fun c => (3 <= String.length (call_query c))%nat) (backend_calls s);
  selected_index_natural : 0 <= _last_selected_index s
}.

(** Two states with the same current search term, cache and backend log. *)
Definition same_search_state (s s' : State) : Prop :=
  _current_search_term s' = _current_search_term s /\
  _results_cache s' = _results_cache s /\
  backend_calls s' = backend_calls s.

(** * Properties *)

(** ** Running a method *)

#[global] Arguments Nat.leb : simpl never.
#[global] Arguments Nat.ltb : simpl never.
#[global] Arguments Z.leb : simpl never.
#[global] Arguments Z.ltb : simpl never.
#[global] Arguments Z.eqb : simpl never.

Ltac run :=
  unfold mbind, M_bind, bind, mret, M_ret, ret, raise, get, modify, try_except,
    lift_option, lift_sum, show_alert, cache_store in *;
  simpl in *.

Lemma log_calls_nil s : log_calls [] s = s.
Proof. destruct s; unfold log_calls; simpl. by rewrite app_nil_r. Qed.

Lemma log_calls_app cs1 cs2 s : log_calls cs2 (log_calls cs1 s) = log_calls (cs1 ++ cs2) s.
Proof. unfold log_calls; simpl. by rewrite app_assoc. Qed.

Lemma log_call_log_calls c s : log_call c s = log_calls [c] s.
Proof. reflexivity. Qed.

(** ** Examples *)

Example split_ex : PyStr.split "/" "/foo//5" = [""; "foo"; ""; "5"].
Proof. reflexivity. Qed.

Example rsplit1_ex : PyStr.rsplit1 "/" "/foo/-1" = Some ("/foo", "-1").
Proof. reflexivity. Qed.

Example int_ex :
  PyStr.int " -1_0 " = Some (-10) /\ PyStr.int "1__0" = None /\
  PyStr.int "" = None /\ PyStr.int "007" = Some 7 /\ PyStr.int "- 1" = None.
Proof. repeat split; reflexivity. Qed.

Example strptime_ex :
  Datetime.strftime <$> Datetime.strptime "2024-2-29t1:3:7" = Some "2024-02-29 01:03:07" /\
  Datetime.strptime "2023-02-29T00:00:00" = None /\
  Datetime.strptime "2024-02-28T12:30:60" = None /\
  Datetime.strptime "2024-02-28T12:30:070" = None.
Proof. repeat split; reflexivity. Qed.

Example strip_zone_ex :
  strip_zone "2024-03-05T12:30:00Z" = "2024-03-05T12:30:00" /\
  strip_zone "2024-03-05T12:30:00+01:00" = "2024-03-05T12:30:00" /\
  strip_zone "2024-03-05T12:30:00-05:00" = "2024-03-05T12:30:00".
Proof. repeat split; reflexivity. Qed.

Example get_error_message_ex :
  Error.get_error_message 2 = "IPC is not available." /\
  Error.get_error_message 9 = "Unknown error code: 9".
Proof. split; reflexivity. Qed.

Example iterdir_fallback_ex :
  let w := Sample.world "dll" (Some Sample.dll_without_ipc)
                        (Sample.server_with 5 Sample.five_results) in
  (iterdir w "/a%20bc" initial_state).1 = inr ["/0"; "/1"; "/2"; "/3"; "/4"] /\
  backend_calls (iterdir w "/a%20bc" initial_state).2 =
    [CallDll "a bc" 84;
     CallApi "a bc" "http://localhost:5000/everything-search-api/search?q=a%20bc"].
Proof. split; reflexivity. Qed.

(** ** Strings *)

Section Strings.

Import PyStr.

Lemma contains_cons c a s :
  contains c (String a s) = Ascii.eqb a c || contains c s.
Proof. unfold contains; simpl. by destruct (Ascii.eqb a c). Qed.

Lemma rsplit1_contains c s p : rsplit1 c s = Some p -> contains c s = true.
Proof.
  revert p; induction s as [|a s IH]; intros p; simpl; [done|].
  rewrite contains_cons.
  destruct (rsplit1 c s) as [[h t]|].
  - intros _. rewrite (IH (h, t)); [apply orb_true_r | done].
  - destruct (Ascii.eqb a c); [done | discriminate].
Qed.

Lemma contains_split1 c s :
  contains c s = true -> exists h t, split1 c s = Some (h, t).
Proof.
  induction s as [|a s IH]; [done|].
  rewrite contains_cons; simpl.
  destruct (Ascii.eqb a c); [eauto|]; simpl.
  intros H. destruct (IH H) as (h & t & ->). eauto.
Qed.

Lemma contains_rsplit1 c s :
  contains c s = true -> exists h t, rsplit1 c s = Some (h, t).
Proof.
  induction s as [|a s IH]; [done|].
  rewrite contains_cons; simpl.
  destruct (rsplit1 c s) as [[h t]|]; [eauto|].
  destruct (Ascii.eqb a c); [eauto|]; simpl.
  intros H. by destruct (IH H) as (h & t & ?).
Qed.

Lemma all_digits_contains c s :
  is_digit c = false -> all_chars is_digit s = true -> contains c s = false.
Proof.
  intros Hc; induction s as [|a s IH]; [done|].
  simpl; rewrite contains_cons. intros [Ha Hs]%andb_true_iff.
  rewrite (IH Hs), orb_false_r.
  destruct (Ascii.eqb_spec a c); [congruence | done].
Qed.

Lemma startswith_slash s : startswith "/" s = true -> s = String "/" (tail s).
Proof.
  destruct s as [|a p]; [done|]. cbn [startswith tail].
  destruct (Ascii.eqb_spec "/" a) as [<-|]; done.
Qed.

Lemma isdigit_all s : isdigit s = true -> all_chars is_digit s = true.
Proof. by destruct s. Qed.

Lemma rsplit1_absent c s : contains c s = false -> rsplit1 c s = None.
Proof.
  induction s as [|a s IH]; [done|].
  rewrite contains_cons; simpl. intros [Ha Hs]%orb_false_iff.
  by rewrite (IH Hs), Ha.
Qed.

Lemma is_digit_not_space a : is_digit a = true -> is_space a = false.
Proof.
  destruct a as [[] [] [] [] [] [] [] []]; vm_compute; congruence.
Qed.

Lemma is_decimal_digit a : is_decimal a = true -> is_digit a = true.
Proof. unfold is_digit. by intros ->. Qed.

Lemma all_decimal_digits s : all_chars is_decimal s = true -> all_chars is_digit s = true.
Proof.
  induction s as [|a s IH]; [done|]; simpl.
  intros [Ha Hs]%andb_true_iff. by rewrite (is_decimal_digit a Ha), IH.
Qed.

Lemma isdecimal_all s : isdecimal s = true -> all_chars is_decimal s = true.
Proof. by destruct s. Qed.

(** A string of decimal digits passes [isdigit]. *)
Lemma isdecimal_isdigit s : isdecimal s = true -> isdigit s = true.
Proof.
  destruct s as [|a s]; [done|]. unfold isdecimal, isdigit. apply all_decimal_digits.
Qed.

Lemma digit_value_bounds a : is_decimal a = true -> 0 <= digit_value a <= 9.
Proof.
  destruct a as [[] [] [] [] [] [] [] []]; vm_compute; intuition congruence.
Qed.

Lemma lstrip_digits s : all_chars is_digit s = true -> lstrip s = s.
Proof.
  destruct s as [|a s]; [done|]; simpl.
  intros [Ha _]%andb_true_iff. by rewrite (is_digit_not_space a Ha).
Qed.

Lemma rstrip_digits s : all_chars is_digit s = true -> rstrip s = s.
Proof.
  induction s as [|a s IH]; [done|]; simpl.
  intros [Ha Hs]%andb_true_iff.
  by rewrite (IH Hs), (is_digit_not_space a Ha), andb_false_r.
Qed.

Lemma literal_value_digits s acc b :
  all_chars is_decimal s = true -> 0 <= acc -> (b = true \/ s <> EmptyString) ->
  exists n, literal_value acc b s = Some n /\ 0 <= n.
Proof.
  revert acc b; induction s as [|a s IH]; intros acc b Hs Hacc Hb; simpl.
  - destruct Hb as [-> | ?]; [eauto | done].
  - simpl in Hs. apply andb_true_iff in Hs as [Ha Hs]. rewrite Ha.
    apply IH; [done | | by left].
    pose proof (digit_value_bounds a Ha). lia.
Qed.

(** [int] of a string that passes [isdigit] is its literal. *)
Lemma int_literal s : isdigit s = true -> int s = literal_value 0 false s.
Proof.
  intros Hd. pose proof (isdigit_all s Hd) as Hall.
  unfold int, strip. rewrite (lstrip_digits s Hall), (rstrip_digits s Hall).
  destruct s as [|a s]; [done|].
  simpl in Hall. apply andb_true_iff in Hall as [Ha _].
  destruct (Ascii.eqb_spec a "-") as [->|]; [done|].
  destruct (Ascii.eqb_spec a "+") as [->|]; [done|].
  destruct a as [[] [] [] [] [] [] [] []]; try done.
Qed.

(** [int] of a string of decimal digits is a natural number. *)
Lemma int_isdecimal s :
  isdecimal s = true -> exists n, int s = Some n /\ 0 <= n.
Proof.
  intros Hd. rewrite (int_literal s (isdecimal_isdigit s Hd)).
  apply literal_value_digits; [by apply isdecimal_all | lia |].
  right. by destruct s.
Qed.

Lemma literal_value_decimal s acc b n :
  all_chars is_digit s = true -> literal_value acc b s = Some n -> 0 <= acc ->
  all_chars is_decimal s = true /\ 0 <= n.
Proof.
  revert acc b; induction s as [|a s IH]; intros acc b Hs Hn Hacc; simpl in *.
  - destruct b; [|done]. injection Hn as <-. done.
  - apply andb_true_iff in Hs as [Ha Hs].
    destruct (is_decimal a) eqn:Hdec.
    + pose proof (digit_value_bounds a Hdec).
      apply (IH _ _ Hs Hn). lia.
    + destruct (Ascii.eqb_spec a "_") as [->|]; [done|]. done.
Qed.

(** When [int] accepts a string that passes [isdigit], the string is made of
    decimal digits and the number is natural. *)
Lemma int_isdigit_decimal s n :
  isdigit s = true -> int s = Some n -> isdecimal s = true /\ 0 <= n.
Proof.
  intros Hd Hint. rewrite (int_literal s Hd) in Hint.
  destruct (literal_value_decimal s 0 false n (isdigit_all s Hd) Hint) as [Hall Hn]; [lia|].
  split; [|done]. destruct s; [done|]. exact Hall.
Qed.

(** [isdigit] holds of the superscript two, which [int] rejects. *)
Example isdigit_not_int :
  isdigit (String "178" EmptyString) = true /\ int (String "178" EmptyString) = None /\
  isdecimal (String "178" EmptyString) = false.
Proof. repeat split; reflexivity. Qed.

End Strings.

(** ** The backends *)

Section Backends.

Context (w : World).

(** The remote backend logs exactly one call and touches nothing else. *)
Lemma search_everything_api_calls query s :
  (search_everything_api w query s).2 = log_calls [CallApi query (api_url w query)] s.
Proof.
  unfold search_everything_api; run.
  destruct (urlopen w _ _) as [c r|code reason| | |]; try reflexivity.
  destruct (code =? 400); [reflexivity|]. by destruct (code =? 404).
Qed.

(** The native backend logs at most one call, none when the library is not
    loaded. *)
Lemma search_everything_dll_calls query s :
  (search_everything_dll w query s).2 =
    log_calls (match everything_dll w with
               | Some _ => [CallDll query 84]
               | None => []
               end) s.
Proof.
  unfold search_everything_dll; run.
  destruct (everything_dll w) as [dll|]; simpl.
  - destruct (dll _ _ _) as [a|]; [|reflexivity].
    by destruct (Everything_QueryW a).
  - by rewrite log_calls_nil.
Qed.

Lemma search_everything_dll_not_loaded query s :
  everything_dll w = None ->
  search_everything_dll w query s =
    (inl (Exception "Error searching Everything DLL: Everything DLL not loaded"), s).
Proof. intros H. unfold search_everything_dll; run. by rewrite H. Qed.

(** What a native search returns when the query succeeds. *)
Lemma search_everything_dll_success query s count results s1 :
  search_everything_dll w query s = (inr (count, results), s1) ->
  exists dll a,
    everything_dll w = Some dll /\
    dll (length (backend_calls s)) query 84 = DllAnswers a /\
    Everything_QueryW a = true /\
    count = Everything_GetNumResults a /\
    results = omap (dll_result w a) (range (Z.min count 100)).
Proof.
  unfold search_everything_dll; run.
  destruct (everything_dll w) as [dll|]; simpl; [|done].
  destruct (dll _ _ _) as [a|] eqn:Ha; [|done].
  destruct (Everything_QueryW a) eqn:Hq; simpl; [|done].
  intros [= <- <- <-]. by exists dll, a.
Qed.

Lemma length_omap_le {A B} (f : A -> option B) (l : list A) :
  (length (omap f l) <= length l)%nat.
Proof.
  induction l as [|x l IH]; csimpl; [lia|].
  destruct (f x); simpl; lia.
Qed.

Lemma length_omap_total {A B} (f : A -> option B) (l : list A) :
  Forall (fun x => is_Some (f x)) l -> length (omap f l) = length l.
Proof.
  induction 1 as [|x l [y Hy] _ IH]; csimpl; [done|].
  rewrite Hy; simpl. by rewrite IH.
Qed.

Lemma length_range n : length (range n) = Z.to_nat n.
Proof. unfold range. by rewrite length_fmap, length_seq. Qed.

Lemma elem_of_range n i : i ∈ range n -> 0 <= i < n.
Proof.
  unfold range. intros (k & -> & Hk)%list_elem_of_fmap.
  apply elem_of_seq in Hk. lia.
Qed.

(** The native backend never returns more entries than [min(count, 100)],
    and exactly that many when it skips none. *)
Lemma search_everything_dll_length query s count results s1 :
  search_everything_dll w query s = (inr (count, results), s1) ->
  (length results <= Z.to_nat (Z.min count 100))%nat /\
  ((forall dll a, everything_dll w = Some dll ->
      dll (length (backend_calls s)) query 84 = DllAnswers a ->
      forall i, 0 <= i < Z.min count 100 -> is_Some (dll_result w a i)) ->
   length results = Z.to_nat (Z.min count 100)).
Proof.
  intros (dll & a & Hdll & Ha & _ & _ & ->)%search_everything_dll_success.
  split.
  - rewrite <- length_range. apply length_omap_le.
  - intros Hall. rewrite <- length_range. apply length_omap_total.
    apply Forall_forall. intros i Hi%elem_of_range. by apply (Hall dll a).
Qed.

(** One search logs one or two backend calls, all with the query searched. *)
Lemma search_everything_calls query s :
  exists cs,
    (search_everything w query s).2 = log_calls cs s /\
    (1 <= length cs <= 2)%nat /\
    Forall (fun c => call_query c = query) cs.
Proof.
  unfold search_everything.
  destruct (String.eqb (mode w) "dll").
  - unfold try_except.
    pose proof (search_everything_dll_calls query s) as Hd.
    destruct (search_everything_dll w query s) as [[e|[count results]] s1] eqn:E;
      simpl in *; subst s1.
    + pose proof (search_everything_api_calls query
                    (log_calls match everything_dll w with
                               | Some _ => [CallDll query 84]
                               | None => []
                               end s)) as Ha.
      rewrite log_calls_app in Ha.
      eexists; split; [exact Ha|].
      destruct (everything_dll w); simpl; split; try lia; repeat constructor.
    + destruct (everything_dll w) eqn:Hdll.
      * eexists; split; [reflexivity|]. simpl; split; [lia|]. repeat constructor.
      * by rewrite (search_everything_dll_not_loaded query s Hdll) in E.
  - eexists; split; [apply search_everything_api_calls|].
    simpl; split; [lia|]. repeat constructor.
Qed.

(** How a search that succeeds came to its result.  The native backend
    answered; or the remote one was the only one asked, the mode not being
    [dll] or the library not being loaded, and answered; or the native one
    was asked and failed and the remote one answered. *)
Lemma search_everything_answers query s count results s1 :
  search_everything w query s = (inr (count, results), s1) ->
  (mode w = "dll" /\
   search_everything_dll w query s = (inr (count, results), s1) /\
   s1 = log_calls [CallDll query 84] s) \/
  ((mode w <> "dll" \/ everything_dll w = None) /\
   search_everything_api w query s = (inr (count, results), s1) /\
   s1 = log_calls [CallApi query (api_url w query)] s) \/
  (mode w = "dll" /\
   (exists e, search_everything_dll w query s = (inl e, log_calls [CallDll query 84] s)) /\
   search_everything_api w query (log_calls [CallDll query 84] s) = (inr (count, results), s1) /\
   s1 = log_calls [CallDll query 84; CallApi query (api_url w query)] s).
Proof.
  unfold search_everything.
  destruct (String.eqb_spec (mode w) "dll") as [Hm|Hm].
  - unfold try_except, any_exception.
    pose proof (search_everything_dll_calls query s) as Hd.
    destruct (everything_dll w) as [dll|] eqn:Hdll.
    + destruct (search_everything_dll w query s) as [[e|[c r]] s0] eqn:E;
        cbn [snd] in Hd; subst s0.
      * intros Ha. right; right. split; [done|]. split; [by eauto|]. split; [done|].
        pose proof (search_everything_api_calls query (log_calls [CallDll query 84] s)) as Hc.
        rewrite Ha in Hc. cbn [snd] in Hc. by rewrite Hc, log_calls_app.
      * intros [= <- <- <-]. by left.
    + rewrite (search_everything_dll_not_loaded query s Hdll).
      intros Ha. right; left. split; [by right|]. split; [done|].
      pose proof (search_everything_api_calls query s) as Hc. by rewrite Ha in Hc.
  - intros Ha. right; left. split; [by left|]. split; [done|].
    pose proof (search_everything_api_calls query s) as Hc. by rewrite Ha in Hc.
Qed.

End Backends.

(** C6.  With the native backend as the configured primary, whenever the
    native search fails, for whatever reason and also because the library
    is not loaded, [search_everything] runs the remote backend on the same
    query string and returns what it returns; in particular an exception of
    the remote backend is the exception of the search, and the one remote
    call is the last backend call made. *)
Theorem search_everything_falls_back_to_api (w : World) (query : string) (s : State) :
  mode w = "dll" ->
  (exists e, (search_everything_dll w query s).1 = inl e) \/ everything_dll w = None ->
  let s1 := (search_everything_dll w query s).2 in
  search_everything w query s = search_everything_api w query s1 /\
  (forall e', (search_everything_api w query s1).1 = inl e' ->
              (search_everything w query s).1 = inl e') /\
  backend_calls (search_everything w query s).2 =
    (backend_calls s1 ++ [CallApi query (api_url w query)])%list.
Proof.
  intros Hmode Hfail s1.
  assert (Hrun : search_everything w query s = search_everything_api w query s1).
  { assert (Hinl : exists e, (search_everything_dll w query s).1 = inl e).
    { destruct Hfail as [?|Hnone]; [done|].
      rewrite (search_everything_dll_not_loaded w query s Hnone). eauto. }
    destruct Hinl as [e He].
    unfold search_everything, try_except. rewrite Hmode; simpl.
    subst s1. destruct (search_everything_dll w query s) as [[e0|r] s0]; simpl in *; done. }
  split; [done|]. split.
  - intros e' He'. by rewrite Hrun.
  - rewrite Hrun, search_everything_api_calls. reflexivity.
Qed.

Lemma search_everything_falls_back_to_api_witness :
  let w := Sample.world "dll" (Some Sample.dll_without_ipc) Sample.server_down in
  let s1 := (search_everything_dll w "abc" initial_state).2 in
  search_everything w "abc" initial_state = search_everything_api w "abc" s1 /\
  (forall e', (search_everything_api w "abc" s1).1 = inl e' ->
              (search_everything w "abc" initial_state).1 = inl e') /\
  backend_calls (search_everything w "abc" initial_state).2 =
    (backend_calls s1 ++ [CallApi "abc" (api_url w "abc")])%list.
Proof.
  intros w.
  apply (search_everything_falls_back_to_api w "abc" initial_state).
  - reflexivity.
  - left. eexists. vm_compute. reflexivity.
Defined.

(** ** Looking an entry up *)

Lemma py_getitem_in_range {A} (l : list A) (i : Z) (s : State) :
  0 <= i < Z.of_nat (length l) ->
  exists x, l !! Z.to_nat i = Some x /\ py_getitem l i s = (inr x, s).
Proof.
  intros Hi. unfold py_getitem.
  destruct (Z.ltb_spec i 0); [lia|].
  destruct (Z.leb_spec 0 i); [|lia].
  destruct (Z.ltb_spec i (Z.of_nat (length l))); [|lia]. simpl.
  destruct (lookup_lt_is_Some_2 l (Z.to_nat i)) as [x Hx]; [lia|].
  exists x. by rewrite Hx.
Qed.

(** [get_item_at_index] is a lookup: it never raises and leaves the state
    as it is. *)
Lemma get_item_at_index_lookup (index : Z) (s : State) :
  get_item_at_index index s =
    (inr (if (String.length (_current_search_term s) <? 3)%nat then None
          else match _results_cache s !! _current_search_term s with
               | Some (count, results) =>
                   if (0 <=? index) && (index <? Z.of_nat (length results))
                   then results !! Z.to_nat index
                   else None
               | None => None
               end), s).
Proof.
  unfold get_item_at_index; run.
  destruct (_ <? 3)%nat; [done|].
  destruct (_results_cache s !! _current_search_term s) as [[count results]|]; [|done].
  destruct (Z.leb_spec 0 index); simpl; [|done].
  destruct (Z.ltb_spec index (Z.of_nat (length results))); simpl; [|done].
  destruct (py_getitem_in_range results index s) as (x & Hx & ->); [lia|].
  by rewrite Hx.
Qed.

(** C7.  [get_item_at_index] returns [None], without raising and without
    touching the state, whenever the current search term is shorter than
    three characters, or has no cached results, or the index lies outside
    the cached result list (negative, or at least its length). *)
Theorem get_item_at_index_absent (index : Z) (s : State) :
  (String.length (_current_search_term s) < 3)%nat \/
  _results_cache s !! _current_search_term s = None \/
  (exists count results,
      _results_cache s !! _current_search_term s = Some (count, results) /\
      (index < 0 \/ Z.of_nat (length results) <= index)) ->
  get_item_at_index index s = (inr None, s).
Proof.
  intros H. rewrite get_item_at_index_lookup. f_equal. f_equal.
  destruct (Nat.ltb_spec (String.length (_current_search_term s)) 3); [done|].
  destruct H as [H | [-> | (count & results & -> & H)]]; [lia | done |].
  destruct (Z.leb_spec 0 index); simpl; [|done].
  destruct (Z.ltb_spec index (Z.of_nat (length results))); [lia | done].
Qed.

Lemma get_item_at_index_absent_witness :
  get_item_at_index 9999 Sample.state_abc = (inr None, Sample.state_abc).
Proof.
  apply (get_item_at_index_absent 9999 Sample.state_abc).
  right; right. exists 5, Sample.five_results.
  split; [reflexivity | right; simpl; lia].
Defined.

(** An index outside the cached result list selects no entry in [resolve]
    and [is_dir]. *)
Lemma indexed_entry_path_out_of_range (url_path base seg : string) (z : Z) (s : State) :
  PyStr.rsplit1 "/" url_path = Some (base, seg) ->
  PyStr.int seg = Some z ->
  (forall count results,
      _results_cache s !! _current_search_term s = Some (count, results) ->
      z < 0 \/ Z.of_nat (length results) <= z) ->
  indexed_entry_path url_path s = (inr None, s).
Proof.
  intros Hsplit Hint Hrange. unfold indexed_entry_path; run.
  rewrite Hsplit; simpl. rewrite Hint; simpl.
  destruct (_results_cache s !! _current_search_term s) as [[count results]|]; [|done].
  destruct (Hrange count results eq_refl).
  - destruct (Z.leb_spec 0 z); [lia | done].
  - destruct (Z.ltb_spec z (Z.of_nat (length results))); [lia|].
    by rewrite andb_false_r.
Qed.

Lemma placeholder_no_slash (url_path : string) :
  PyStr.contains "/" url_path = true -> String.eqb url_path "placeholder" = false.
Proof.
  intros H. destruct (String.eqb_spec url_path "placeholder") as [->|]; done.
Qed.

(** C10.  When the text after the last [/] of a path is read by [int] as a
    negative number, then in every state [resolve] returns the scheme
    followed by the path, [is_dir] returns [False] and [get_item_at_index]
    returns [None] for that number: no entry is taken from the end of the
    cached list.  None of the three raises or changes the state. *)
Theorem negative_index_selects_nothing
    (w : World) (url_path base seg : string) (z : Z) (s : State) :
  PyStr.rsplit1 "/" url_path = Some (base, seg) ->
  PyStr.int seg = Some z ->
  z < 0 ->
  resolve w url_path s = (inr (scheme +:+ url_path), s) /\
  is_dir w url_path s = (inr false, s) /\
  get_item_at_index z s = (inr None, s).
Proof.
  intros Hsplit Hint Hneg.
  pose proof (rsplit1_contains _ _ _ Hsplit) as Hslash.
  pose proof (placeholder_no_slash _ Hslash) as Hph.
  assert (Hentry : indexed_entry_path url_path s = (inr None, s)).
  { apply (indexed_entry_path_out_of_range url_path base seg z); auto. }
  repeat split.
  - unfold resolve. rewrite Hph, Hslash. run. by rewrite Hentry.
  - unfold is_dir. rewrite Hph, Hslash. run. by rewrite Hentry.
  - rewrite get_item_at_index_lookup. f_equal. f_equal.
    destruct (_ <? 3)%nat; [done|].
    destruct (_results_cache s !! _current_search_term s) as [[count results]|]; [|done].
    destruct (Z.leb_spec 0 z); [lia | done].
Qed.

Lemma negative_index_selects_nothing_witness :
  let w := Sample.world "api" None Sample.server_down in
  resolve w "/abc/-1" Sample.state_abc = (inr "everything:///abc/-1", Sample.state_abc) /\
  is_dir w "/abc/-1" Sample.state_abc = (inr false, Sample.state_abc) /\
  get_item_at_index (-1) Sample.state_abc = (inr None, Sample.state_abc).
Proof.
  intros w.
  apply (negative_index_selects_nothing w "/abc/-1" "/abc" "-1" (-1) Sample.state_abc).
  - reflexivity.
  - reflexivity.
  - lia.
Defined.

(** ** The cache *)

Section Cache.

Context (w : World).

Lemma cache_contains_true q s :
  cache_contains q s = true <-> is_Some (_results_cache s !! q).
Proof. unfold cache_contains. apply bool_decide_eq_true. Qed.

Lemma cache_contains_false q s :
  cache_contains q s = false <-> _results_cache s !! q = None.
Proof.
  unfold cache_contains. rewrite bool_decide_eq_false.
  by rewrite eq_None_not_Some.
Qed.

(** A search leaves the current search term and the cache alone. *)
Lemma search_everything_frame query s :
  _current_search_term (search_everything w query s).2 = _current_search_term s /\
  _results_cache (search_everything w query s).2 = _results_cache s /\
  host_actions (search_everything w query s).2 = host_actions s.
Proof.
  destruct (search_everything_calls w query s) as (cs & -> & _). done.
Qed.

Lemma update_search_short q s :
  (String.length q < 3)%nat ->
  update_search w q s = (inr tt, set_current_search_term q s).
Proof.
  intros H. unfold update_search; run.
  destruct (Nat.leb_spec 3 (String.length q)); [lia | done].
Qed.

Lemma update_search_hit q s :
  (3 <= String.length q)%nat ->
  is_Some (_results_cache s !! q) ->
  update_search w q s = (inr tt, set_current_search_term q s).
Proof.
  intros H Hc. unfold update_search; run.
  destruct (Nat.leb_spec 3 (String.length q)); [|lia].
  assert (cache_contains q (set_current_search_term q s) = true) as ->; [|done].
  by apply cache_contains_true.
Qed.

(** A successful search is stored, cut to its first hundred entries. *)
Lemma update_search_miss_ok q s count results s1 :
  (3 <= String.length q)%nat ->
  _results_cache s !! q = None ->
  search_everything w q (set_current_search_term q s) = (inr (count, results), s1) ->
  update_search w q s =
    (inr tt, set_results_cache (<[q := (count, take 100 results)]> (_results_cache s1)) s1).
Proof.
  intros H Hc Hs. unfold update_search; run.
  destruct (Nat.leb_spec 3 (String.length q)); [|lia].
  assert (cache_contains q (set_current_search_term q s) = false) as ->.
  { by apply cache_contains_false. }
  rewrite Hs; simpl.
  destruct (Nat.ltb_spec 100 (length results)); simpl.
  - unfold set_results_cache; simpl. by rewrite insert_insert_eq.
  - by rewrite take_ge by lia.
Qed.

(** A failed search stores nothing: the state only gains the backend calls. *)
Lemma update_search_miss_fail q s e s1 :
  (3 <= String.length q)%nat ->
  _results_cache s !! q = None ->
  search_everything w q (set_current_search_term q s) = (inl e, s1) ->
  update_search w q s = (inr tt, s1).
Proof.
  intros H Hc Hs. unfold update_search; run.
  destruct (Nat.leb_spec 3 (String.length q)); [|lia].
  assert (cache_contains q (set_current_search_term q s) = false) as ->.
  { by apply cache_contains_false. }
  rewrite Hs; simpl.
  assert (cache_contains q s1 = false) as ->; [|done].
  apply cache_contains_false.
  destruct (search_everything_frame q (set_current_search_term q s)) as (_ & Hcache & _).
  rewrite Hs in Hcache; simpl in Hcache. by rewrite Hcache.
Qed.

(** [update_search] never raises, and the search term it is given is the
    current one afterwards. *)
Lemma update_search_returns q s :
  (update_search w q s).1 = inr tt /\
  _current_search_term (update_search w q s).2 = q.
Proof.
  destruct (Nat.ltb_spec (String.length q) 3) as [Hlen|Hlen].
  { by rewrite update_search_short. }
  destruct (_results_cache s !! q) as [v|] eqn:Hc.
  { by rewrite update_search_hit. }
  pose proof (search_everything_frame q (set_current_search_term q s)) as (Hcur & _).
  destruct (search_everything w q (set_current_search_term q s)) as [[e|[count results]] s1] eqn:Hs.
  - by rewrite (update_search_miss_fail q s e s1).
  - by rewrite (update_search_miss_ok q s count results s1).
Qed.

(** [iterdir] on a path that carries a search term. *)
Lemma iterdir_query url_path q s :
  decoded_query w url_path = Some q ->
  let s' := (update_search w q s).2 in
  iterdir w url_path s = (inr (current_listing s'), s').
Proof.
  intros Hq s'. unfold iterdir, decoded_query, current_listing in *.
  assert (Hrun : forall q0, q0 = q ->
            (update_search w q0;;
             s0 ← get;
             (if (String.length (_current_search_term s0) <? 3)%nat
              then ret ["placeholder"]
              else let search_term := _current_search_term s0 in
                   match _results_cache s0 !! search_term with
                   | Some (count, results) =>
                       ret ((fun i : nat => "/" +:+ PyStr.str (Z.of_nat i)) <$>
                              seq 0 (length results))
                   | None => ret ["placeholder"]
                   end)) s =
            (inr (if (String.length (_current_search_term s') <? 3)%nat
                  then ["placeholder"]
                  else match _results_cache s' !! _current_search_term s' with
                       | Some (_, results) => entries results
                       | None => ["placeholder"]
                       end), s')).
  { intros q0 ->. subst s'. run.
    pose proof (update_search_returns q s) as [Hr _].
    destruct (update_search w q s) as [[e|[]] s2]; simpl in *; [done|].
    destruct (_ <? 3)%nat; [done|].
    by destruct (_results_cache s2 !! _current_search_term s2) as [[c r]|]. }
  destruct (PyStr.contains "?" url_path).
  - destruct (PyStr.split1 "?" url_path) as [[b t]|]; [|done].
    injection Hq as Hq. rewrite <- (Hrun _ Hq). by run.
  - destruct (1 <=? PyStr.count "/" url_path)%nat.
    + destruct (PyStr.startswith "/" url_path).
      * destruct (PyStr.isdigit (PyStr.tail url_path)); [done|].
        injection Hq as Hq. by rewrite <- (Hrun _ Hq).
      * injection Hq as Hq. by rewrite <- (Hrun _ Hq).
    + injection Hq as Hq. by rewrite <- (Hrun _ Hq).
Qed.

(** [iterdir] on a result item path: a slash followed by digits only. *)
Lemma iterdir_item url_path s :
  PyStr.contains "?" url_path = false ->
  PyStr.startswith "/" url_path = true ->
  PyStr.isdigit (PyStr.tail url_path) = true ->
  iterdir w url_path s = (inr (current_listing s), s).
Proof.
  intros Hq Hs Hd. unfold iterdir, current_listing. rewrite Hq, Hs, Hd.
  assert ((1 <=? PyStr.count "/" url_path)%nat = true) as ->.
  { rewrite (startswith_slash _ Hs). apply Nat.leb_le. simpl. lia. }
  run. destruct (_ <? 3)%nat; [done|].
  by destruct (_results_cache s !! _current_search_term s) as [[c r]|].
Qed.

End Cache.

(** ** Listings *)

Lemma set_current_search_term_same s :
  set_current_search_term (_current_search_term s) s = s.
Proof. by destruct s. Qed.

Lemma decoded_query_none w url_path :
  decoded_query w url_path = None ->
  PyStr.contains "?" url_path = false /\
  PyStr.startswith "/" url_path = true /\
  PyStr.isdigit (PyStr.tail url_path) = true.
Proof.
  unfold decoded_query.
  destruct (PyStr.contains "?" url_path) eqn:Hq.
  { destruct (contains_split1 _ _ Hq) as (h & t & ->). done. }
  destruct (1 <=? PyStr.count "/" url_path)%nat; [|done].
  destruct (PyStr.startswith "/" url_path); [|done].
  by destruct (PyStr.isdigit (PyStr.tail url_path)).
Qed.

(** C5.  When the path of a listing carries a search term shorter than
    three characters, [iterdir] yields the single entry [placeholder]; the
    state afterwards differs from the one before in the current search term
    only, so no backend call was made and nothing was stored in the cache. *)
Theorem short_query_lists_placeholder (w : World) (url_path q : string) (s : State) :
  decoded_query w url_path = Some q ->
  (String.length q < 3)%nat ->
  iterdir w url_path s = (inr ["placeholder"], set_current_search_term q s) /\
  backend_calls (iterdir w url_path s).2 = backend_calls s /\
  _results_cache (iterdir w url_path s).2 = _results_cache s.
Proof.
  intros Hq Hlen.
  assert (H : iterdir w url_path s = (inr ["placeholder"], set_current_search_term q s)).
  { rewrite (iterdir_query w url_path q s Hq), update_search_short by done.
    unfold current_listing; simpl.
    by destruct (Nat.ltb_spec (String.length q) 3); [|lia]. }
  by rewrite H.
Qed.

Lemma short_query_lists_placeholder_witness :
  let w := Sample.world "dll" (Some Sample.dll_without_ipc) Sample.server_down in
  iterdir w "/ab" Sample.state_abc =
    (inr ["placeholder"], set_current_search_term "ab" Sample.state_abc) /\
  backend_calls (iterdir w "/ab" Sample.state_abc).2 = backend_calls Sample.state_abc /\
  _results_cache (iterdir w "/ab" Sample.state_abc).2 = _results_cache Sample.state_abc.
Proof.
  intros w.
  apply (short_query_lists_placeholder w "/ab" "ab" Sample.state_abc).
  - reflexivity.
  - simpl. lia.
Defined.

(** C2 as stated fails.  With the native backend as primary, its query
    failing and the server down, the first listing of [/abc] makes two
    backend calls and stores nothing. *)
Lemma one_call_then_cached_counterexample :
  ~ one_call_then_cached
      (Sample.world "dll" (Some Sample.dll_without_ipc) Sample.server_down)
      "/abc" "abc" initial_state.
Proof.
  intros H.
  destruct (H eq_refl ltac:(simpl; lia) eq_refl) as (Hcalls & _).
  vm_compute in Hcalls. discriminate.
Qed.

(** C2, amended.  When the path of a listing carries a search term [q] of
    three characters or more that has no cached results, and the one search
    the listing starts succeeds, then the listing stores the first hundred
    entries of the result under [q] and yields one entry for each.  The
    search made exactly one backend call, of the native backend when it
    answered and of the remote one when it was the only one asked, or
    exactly two, the native one first, and that only when the native
    backend was asked and failed and the remote one answered; every call
    carried [q].  A second listing of the same path then leaves the state as
    it is, so it makes no backend call, and yields the same entries. *)
Theorem first_listing_searches_second_reads_cache
    (w : World) (url_path q : string) (s : State)
    (count : Z) (results : list Item) (s1 : State) :
  decoded_query w url_path = Some q ->
  (3 <= String.length q)%nat ->
  _results_cache s !! q = None ->
  search_everything w q (set_current_search_term q s) = (inr (count, results), s1) ->
  let s' := set_results_cache (<[q := (count, take 100 results)]> (_results_cache s1)) s1 in
  iterdir w url_path s = (inr (entries (take 100 results)), s') /\
  iterdir w url_path s' = (inr (entries (take 100 results)), s') /\
  exists cs, backend_calls s' = (backend_calls s ++ cs)%list /\
             (1 <= length cs <= 2)%nat /\
             Forall (fun c => call_query c = q) cs /\
             ((cs = [CallDll q 84] /\ mode w = "dll" /\
               search_everything_dll w q (set_current_search_term q s)
                 = (inr (count, results), s1)) \/
              (cs = [CallApi q (api_url w q)] /\
               (mode w <> "dll" \/ everything_dll w = None) /\
               search_everything_api w q (set_current_search_term q s)
                 = (inr (count, results), s1)) \/
              (cs = [CallDll q 84; CallApi q (api_url w q)] /\ mode w = "dll" /\
               (exists e, (search_everything_dll w q (set_current_search_term q s)).1
                            = inl e) /\
               search_everything_api w q
                 (search_everything_dll w q (set_current_search_term q s)).2
                 = (inr (count, results), s1))).
Proof.
  intros Hq Hlen Hmiss Hsearch s'.
  assert (Hcalls : exists cs,
            s1 = log_calls cs (set_current_search_term q s) /\
            (1 <= length cs <= 2)%nat /\
            Forall (fun c => call_query c = q) cs /\
            ((cs = [CallDll q 84] /\ mode w = "dll" /\
              search_everything_dll w q (set_current_search_term q s)
                = (inr (count, results), s1)) \/
             (cs = [CallApi q (api_url w q)] /\
              (mode w <> "dll" \/ everything_dll w = None) /\
              search_everything_api w q (set_current_search_term q s)
                = (inr (count, results), s1)) \/
             (cs = [CallDll q 84; CallApi q (api_url w q)] /\ mode w = "dll" /\
              (exists e, (search_everything_dll w q (set_current_search_term q s)).1
                           = inl e) /\
              search_everything_api w q
                (search_everything_dll w q (set_current_search_term q s)).2
                = (inr (count, results), s1)))).
  { destruct (search_everything_answers w q _ count results s1 Hsearch)
      as [(Hm & Hd & Hs1) | [(Hm & Ha & Hs1) | (Hm & [e He] & Ha & Hs1)]].
    - exists [CallDll q 84]. split; [done|]. split; [simpl; lia|].
      split; [by repeat constructor|]. by left.
    - exists [CallApi q (api_url w q)]. split; [done|]. split; [simpl; lia|].
      split; [by repeat constructor|]. right; left. done.
    - exists [CallDll q 84; CallApi q (api_url w q)]. split; [done|].
      split; [simpl; lia|]. split; [by repeat constructor|]. right; right.
      rewrite He. cbn [fst snd]. by eauto. }
  destruct Hcalls as (cs & Hs1 & Hcs & Hall & Hhow).
  assert (Hcur : _current_search_term s' = q) by (subst s' s1; done).
  assert (Hlist : current_listing s' = entries (take 100 results)).
  { unfold current_listing. rewrite Hcur.
    destruct (Nat.ltb_spec (String.length q) 3); [lia|].
    subst s'; simpl. by rewrite lookup_insert_eq. }
  split; [|split].
  - rewrite (iterdir_query w url_path q s Hq).
    rewrite (update_search_miss_ok w q s count results s1) by done.
    cbn [snd]. fold s'. by rewrite Hlist.
  - rewrite (iterdir_query w url_path q s' Hq).
    rewrite update_search_hit; [|done|].
    + rewrite <- Hcur at 1 2. cbn [snd].
      by rewrite set_current_search_term_same, Hlist.
    + subst s'; simpl. rewrite lookup_insert_eq. eauto.
  - exists cs. subst s' s1. done.
Qed.

Lemma first_listing_searches_second_reads_cache_witness :
  let w := Sample.world "dll" (Some Sample.dll_without_ipc)
                        (Sample.server_with 5 Sample.five_results) in
  let s1 := (search_everything w "abc" (set_current_search_term "abc" initial_state)).2 in
  let s' := set_results_cache
              (<["abc" := (5, take 100 Sample.five_results)]> (_results_cache s1)) s1 in
  iterdir w "/abc" initial_state = (inr (entries (take 100 Sample.five_results)), s') /\
  iterdir w "/abc" s' = (inr (entries (take 100 Sample.five_results)), s') /\
  exists cs, backend_calls s' = (backend_calls initial_state ++ cs)%list /\
             (1 <= length cs <= 2)%nat /\
             Forall (fun c => call_query c = "abc") cs /\
             ((cs = [CallDll "abc" 84] /\ mode w = "dll" /\
               search_everything_dll w "abc" (set_current_search_term "abc" initial_state)
                 = (inr (5, Sample.five_results), s1)) \/
              (cs = [CallApi "abc" (api_url w "abc")] /\
               (mode w <> "dll" \/ everything_dll w = None) /\
               search_everything_api w "abc" (set_current_search_term "abc" initial_state)
                 = (inr (5, Sample.five_results), s1)) \/
              (cs = [CallDll "abc" 84; CallApi "abc" (api_url w "abc")] /\ mode w = "dll" /\
               (exists e, (search_everything_dll w "abc"
                             (set_current_search_term "abc" initial_state)).1 = inl e) /\
               search_everything_api w "abc"
                 (search_everything_dll w "abc"
                    (set_current_search_term "abc" initial_state)).2
                 = (inr (5, Sample.five_results), s1))).
Proof.
  intros w s1.
  apply (first_listing_searches_second_reads_cache w "/abc" "abc" initial_state
           5 Sample.five_results s1).
  - reflexivity.
  - simpl. lia.
  - reflexivity.
  - reflexivity.
Defined.

(** C4 as stated fails.  When the server answers the query [abc] with no
    results, the listing of [/abc] yields no entry at all. *)
Lemma yields_placeholder_counterexample :
  ~ yields_placeholder (Sample.world "api" None (Sample.server_with 0 []))
      "/abc" initial_state.
Proof.
  intros (l & Hl & Hin).
  vm_compute in Hl. injection Hl as <-.
  by apply elem_of_nil in Hin.
Qed.

(** A failed search on a cache miss leaves the placeholder as the listing. *)
Lemma iterdir_search_fails (w : World) (url_path q : string) (s : State) (e : exn) :
  decoded_query w url_path = Some q ->
  (3 <= String.length q)%nat ->
  _results_cache s !! q = None ->
  (search_everything w q (set_current_search_term q s)).1 = inl e ->
  (iterdir w url_path s).1 = inr ["placeholder"].
Proof.
  intros Hq Hlen Hmiss Hfail.
  rewrite (iterdir_query w url_path q s Hq).
  pose proof (search_everything_frame w q (set_current_search_term q s)) as (Hcur & Hcache & _).
  destruct (search_everything w q (set_current_search_term q s)) as [r s1] eqn:Hs.
  simpl in *; subst r.
  rewrite (update_search_miss_fail w q s e s1) by done.
  unfold current_listing; cbn [fst snd]. rewrite Hcur, Hcache; simpl.
  destruct (_ <? 3)%nat; [done|]. by rewrite Hmiss.
Qed.

(** C4, amended.  [iterdir] never raises, whatever the path, the cache and
    the backends do.  What it yields is read off the state it leaves: the
    single entry [placeholder] when the current search term is shorter than
    three characters or has no cached results, which is the case after a
    search that failed; otherwise one entry for each cached result and no
    placeholder, so nothing at all for an empty result list. *)
Theorem iterdir_never_raises (w : World) (url_path : string) (s : State) :
  let s' := (iterdir w url_path s).2 in
  (iterdir w url_path s).1 = inr (current_listing s') /\
  ((String.length (_current_search_term s') < 3)%nat \/
   _results_cache s' !! _current_search_term s' = None ->
   current_listing s' = ["placeholder"]) /\
  (forall count results,
     (3 <= String.length (_current_search_term s'))%nat ->
     _results_cache s' !! _current_search_term s' = Some (count, results) ->
     current_listing s' = entries results /\
     length (current_listing s') = length results /\
     "placeholder" ∉ current_listing s') /\
  (forall q e,
     decoded_query w url_path = Some q ->
     (3 <= String.length q)%nat ->
     _results_cache s !! q = None ->
     (search_everything w q (set_current_search_term q s)).1 = inl e ->
     (iterdir w url_path s).1 = inr ["placeholder"]).
Proof.
  intros s'. repeat split.
  - subst s'. destruct (decoded_query w url_path) as [q|] eqn:Hq.
    + by rewrite (iterdir_query w url_path q s Hq).
    + destruct (decoded_query_none w url_path Hq) as (H1 & H2 & H3).
      by rewrite (iterdir_item w url_path s H1 H2 H3).
  - unfold current_listing. intros [H | ->].
    + by destruct (Nat.ltb_spec (String.length (_current_search_term s')) 3); [|lia].
    + by destruct (_ <? 3)%nat.
  - unfold current_listing. rewrite H0.
    by destruct (Nat.ltb_spec (String.length (_current_search_term s')) 3); [lia|].
  - unfold current_listing. rewrite H0.
    destruct (Nat.ltb_spec (String.length (_current_search_term s')) 3); [lia|].
    unfold entries. by rewrite length_fmap, length_seq.
  - unfold current_listing. rewrite H0.
    destruct (Nat.ltb_spec (String.length (_current_search_term s')) 3); [lia|].
    unfold entries. intros (i & Hi & _)%list_elem_of_fmap. discriminate.
  - intros q e. apply iterdir_search_fails.
Qed.

Lemma iterdir_never_raises_witness :
  let w := Sample.world "api" None Sample.server_down in
  (iterdir w "/abc" initial_state).1 = inr ["placeholder"].
Proof.
  intros w.
  destruct (iterdir_never_raises w "/abc" initial_state) as (_ & _ & _ & H).
  apply (H "abc" (Exception ("Error connecting to Everything API: "
                              +:+ "<urlopen error [WinError 10061]>" +:+ newline
                              +:+ "Make sure the API server is running"))).
  - reflexivity.
  - simpl. lia.
  - reflexivity.
  - reflexivity.
Defined.

(** C3 as stated fails, for either backend.  A server that reports five
    matches and returns one leaves one entry cached with the count five; a
    DLL that reports two results and cannot read the path of the second
    leaves one entry cached with the count two. *)
Lemma entries_match_count_counterexample :
  ~ entries_match_count
      (iterdir (Sample.world "api" None
                  (Sample.server_with 5 [Sample.item "C:/docs/a.txt" None]))
               "/abc" initial_state).2 /\
  ~ entries_match_count
      (iterdir (Sample.world "dll" (Some Sample.dll_with_unreadable) Sample.server_down)
               "/abc" initial_state).2.
Proof.
  split; intros H.
  - specialize (H "abc" 5 [Sample.item "C:/docs/a.txt" None] eq_refl).
    vm_compute in H. discriminate.
  - specialize (H "abc" 2 [mkItem (Some "b.txt") (Some "C:/a/b.txt") (Some 512) (Some None)]
                  eq_refl).
    vm_compute in H. discriminate.
Qed.

(** Storing a successful search keeps the cache within a hundred entries
    for each search term. *)
Lemma update_search_stores_first_hundred
    (w : World) (q : string) (s : State) (count : Z) (results : list Item) (s1 : State) :
  (3 <= String.length q)%nat ->
  _results_cache s !! q = None ->
  search_everything w q (set_current_search_term q s) = (inr (count, results), s1) ->
  _results_cache (update_search w q s).2 !! q = Some (count, take 100 results) /\
  length (take 100 results) = Nat.min (length results) 100 /\
  (cache_capped s -> cache_capped (update_search w q s).2).
Proof.
  intros Hlen Hmiss Hsearch.
  rewrite (update_search_miss_ok w q s count results s1) by done. cbn [snd].
  pose proof (search_everything_frame w q (set_current_search_term q s)) as (_ & Hcache & _).
  rewrite Hsearch in Hcache; simpl in Hcache.
  repeat split.
  - simpl. by rewrite lookup_insert_eq.
  - rewrite length_take. lia.
  - intros Hcap q' count' results'. simpl. rewrite Hcache.
    destruct (decide (q = q')) as [<-|Hne].
    + rewrite lookup_insert_eq. intros [= <- <-]. rewrite length_take. lia.
    + rewrite lookup_insert_ne by done. apply Hcap.
Qed.

(** C3, amended.  What [update_search] stores for a search term of three
    characters or more without cached results, when the search returns
    [(count, results)], is [count] with the first hundred entries of
    [results]: their number is [min(len(results), 100)], whatever [count]
    is.  For a result of the native backend, [len(results)] is at most
    [min(count, 100)], and equal to it when no entry was skipped; the remote
    backend relates the two in no way.  Hence every cached result list has
    at most a hundred entries, and [update_search] keeps it so. *)
Theorem stored_entries_are_first_hundred
    (w : World) (q : string) (s : State) (count : Z) (results : list Item) (s1 : State) :
  (3 <= String.length q)%nat ->
  _results_cache s !! q = None ->
  search_everything w q (set_current_search_term q s) = (inr (count, results), s1) ->
  let s' := (update_search w q s).2 in
  _results_cache s' !! q = Some (count, take 100 results) /\
  length (take 100 results) = Nat.min (length results) 100 /\
  (forall s0 s2, search_everything_dll w q s0 = (inr (count, results), s2) ->
     (length results <= Z.to_nat (Z.min count 100))%nat /\
     length (take 100 results) = length results /\
     ((forall dll a, everything_dll w = Some dll ->
         dll (length (backend_calls s0)) q 84 = DllAnswers a ->
         forall i, 0 <= i < Z.min count 100 -> is_Some (dll_result w a i)) ->
      length results = Z.to_nat (Z.min count 100))) /\
  (cache_capped s -> cache_capped s').
Proof.
  intros Hlen Hmiss Hsearch s'. subst s'.
  destruct (update_search_stores_first_hundred w q s count results s1)
    as (Hstored & Htake & Hcap); [done..|].
  repeat split; try done.
  - by destruct (search_everything_dll_length w q s0 count results s2).
  - destruct (search_everything_dll_length w q s0 count results s2) as [Hle _]; [done|].
    rewrite length_take. lia.
  - by destruct (search_everything_dll_length w q s0 count results s2).
Qed.

Lemma stored_entries_are_first_hundred_witness :
  let w := Sample.world "dll" (Some Sample.dll_with_unreadable) Sample.server_down in
  let results := [mkItem (Some "b.txt") (Some "C:/a/b.txt") (Some 512) (Some None)] in
  let s' := (update_search w "abc" initial_state).2 in
  _results_cache s' !! "abc" = Some (2, take 100 results) /\
  length (take 100 results) = Nat.min (length results) 100 /\
  (forall s0 s2, search_everything_dll w "abc" s0 = (inr (2, results), s2) ->
     (length results <= Z.to_nat (Z.min 2 100))%nat /\
     length (take 100 results) = length results /\
     ((forall dll a, everything_dll w = Some dll ->
         dll (length (backend_calls s0)) "abc" 84 = DllAnswers a ->
         forall i, 0 <= i < Z.min 2 100 -> is_Some (dll_result w a i)) ->
      length results = Z.to_nat (Z.min 2 100))) /\
  (cache_capped initial_state -> cache_capped s').
Proof.
  intros w results.
  apply (stored_entries_are_first_hundred w "abc" initial_state 2 results
           (log_calls [CallDll "abc" 84] (set_current_search_term "abc" initial_state))).
  - simpl. lia.
  - reflexivity.
  - reflexivity.
Defined.

(** [iterdir] keeps every cached result list within a hundred entries,
    whatever the path and the backends. *)
Lemma iterdir_cache_capped (w : World) (url_path : string) (s : State) :
  cache_capped s -> cache_capped (iterdir w url_path s).2.
Proof.
  intros Hcap.
  destruct (decoded_query w url_path) as [q|] eqn:Hq.
  2:{ destruct (decoded_query_none w url_path Hq) as (H1 & H2 & H3).
      by rewrite (iterdir_item w url_path s H1 H2 H3). }
  rewrite (iterdir_query w url_path q s Hq). cbn [snd].
  destruct (Nat.ltb_spec (String.length q) 3) as [Hlen|Hlen].
  { by rewrite update_search_short. }
  destruct (_results_cache s !! q) as [v|] eqn:Hc.
  { by rewrite update_search_hit. }
  pose proof (search_everything_frame w q (set_current_search_term q s)) as (_ & Hcache & _).
  destruct (search_everything w q (set_current_search_term q s))
    as [[e|[count results]] s1] eqn:Hs; simpl in Hcache.
  - rewrite (update_search_miss_fail w q s e s1) by done.
    intros q' c r. cbn [snd]. rewrite Hcache. apply Hcap.
  - destruct (update_search_stores_first_hundred w q s count results s1)
      as (_ & _ & H); [done..|].
    by apply H.
Qed.

(** ** Result item paths *)

(** C1 as stated fails.  The last segment of [/foo/5] is all digits, yet
    listing it replaces the current search term [abc] by [foo/5]. *)
Lemma digit_segment_keeps_query_counterexample :
  ~ digit_segment_keeps_query (Sample.world "api" None Sample.server_down)
      "/foo/5" Sample.state_abc.
Proof.
  intros H.
  assert (Hcur : _current_search_term
                   (iterdir (Sample.world "api" None Sample.server_down)
                            "/foo/5" Sample.state_abc).2 = "abc").
  { apply H; [reflexivity|]. exists "5". split; reflexivity. }
  vm_compute in Hcur. discriminate.
Qed.

(** The entry [resolve] and [is_dir] select for a path whose text after the
    last [/] is a natural number. *)
Lemma indexed_entry_path_lookup (url_path base seg : string) (n : Z) (s : State) :
  PyStr.rsplit1 "/" url_path = Some (base, seg) ->
  PyStr.int seg = Some n ->
  0 <= n ->
  indexed_entry_path url_path s =
    (inr (match _results_cache s !! _current_search_term s with
          | Some (count, results) => results !! Z.to_nat n ≫= path
          | None => None
          end), s).
Proof.
  intros Hsplit Hint Hn. unfold indexed_entry_path; run.
  rewrite Hsplit; simpl. rewrite Hint; simpl.
  destruct (_results_cache s !! _current_search_term s) as [[count results]|]; [|done].
  destruct (Z.leb_spec 0 n); [|lia]. simpl.
  destruct (Z.ltb_spec n (Z.of_nat (length results))).
  - destruct (py_getitem_in_range results n s) as (x & Hx & ->); [lia|].
    rewrite Hx; simpl. by destruct (path x).
  - rewrite lookup_ge_None_2 by lia. done.
Qed.

(** C1, amended.  For a path made of one slash followed by decimal digits,
    [iterdir] decodes no search term: it leaves the whole state, the current
    search term included, as it is and lists the current search term.  The
    digits are read by [resolve] as the natural number they write, and
    [resolve] returns the URL of the entry with that index among the
    results cached for the current search term, or the scheme followed by
    the path when there is no such entry. *)
Theorem result_item_path_keeps_query (w : World) (digits : string) (s : State) :
  PyStr.isdecimal digits = true ->
  let url_path := String "/" digits in
  iterdir w url_path s = (inr (current_listing s), s) /\
  exists n, PyStr.int digits = Some n /\ 0 <= n /\
    resolve w url_path s =
      (inr (match _results_cache s !! _current_search_term s with
            | Some (count, results) =>
                match results !! Z.to_nat n ≫= path with
                | Some file_path => as_url w file_path
                | None => scheme +:+ url_path
                end
            | None => scheme +:+ url_path
            end), s).
Proof.
  intros Hdec url_path.
  pose proof (isdecimal_isdigit _ Hdec) as Hd.
  pose proof (isdigit_all _ Hd) as Hall.
  assert (Hnoq : PyStr.contains "?" url_path = false).
  { subst url_path. rewrite contains_cons. by rewrite (all_digits_contains "?" digits). }
  assert (Hsplit : PyStr.rsplit1 "/" url_path = Some (EmptyString, digits)).
  { subst url_path. cbn [PyStr.rsplit1].
    by rewrite (rsplit1_absent "/" digits (all_digits_contains "/" digits eq_refl Hall)). }
  split.
  - by apply iterdir_item.
  - destruct (int_isdecimal digits Hdec) as (n & Hint & Hn).
    exists n. repeat split; [done..|].
    pose proof (rsplit1_contains _ _ _ Hsplit) as Hslash.
    unfold resolve. rewrite (placeholder_no_slash _ Hslash), Hslash. run.
    rewrite (indexed_entry_path_lookup url_path EmptyString digits n s) by done.
    destruct (_results_cache s !! _current_search_term s) as [[count results]|]; [|done].
    destruct (results !! Z.to_nat n) as [x|]; simpl; [|done].
    by destruct (path x).
Qed.

Lemma result_item_path_keeps_query_witness :
  let w := Sample.world "api" None Sample.server_down in
  iterdir w "/1" Sample.state_abc = (inr (current_listing Sample.state_abc), Sample.state_abc) /\
  exists n, PyStr.int "1" = Some n /\ 0 <= n /\
    resolve w "/1" Sample.state_abc =
      (inr (match _results_cache Sample.state_abc !! _current_search_term Sample.state_abc with
            | Some (count, results) =>
                match results !! Z.to_nat n ≫= path with
                | Some file_path => as_url w file_path
                | None => scheme +:+ "/1"
                end
            | None => scheme +:+ "/1"
            end), Sample.state_abc).
Proof.
  intros w.
  apply (result_item_path_keeps_query w "1" Sample.state_abc).
  reflexivity.
Defined.

Example resolve_item_1 :
  resolve (Sample.world "api" None Sample.server_down) "/1" Sample.state_abc
  = (inr "file://C:/docs/a.txt", Sample.state_abc).
Proof. reflexivity. Qed.

(** ** The modified-time column *)

Lemma general_index_state (url_path : string) (s : State) :
  (general_index url_path s).2 = s.
Proof.
  unfold general_index; run.
  destruct (PyStr.contains "/" url_path); [|done].
  destruct (PyStr.last_nonempty _) as [t|]; [|done].
  destruct (PyStr.isdigit t); [|done].
  by destruct (PyStr.int t).
Qed.

Lemma shortcut_index_state (url_path : string) (s : State) :
  (shortcut_index url_path s).2 = s.
Proof.
  unfold shortcut_index.
  destruct (_ || _); [|apply general_index_state]. run.
  destruct (PyStr.last_char url_path) as [c|]; [|done]. simpl.
  by destruct (PyStr.int _).
Qed.

(** The inner [try] of the column: the reformatted time, or the value as
    it was when it does not parse. *)
Lemma format_date_modified_string (raw : string) (s : State) :
  format_date_modified (Some raw) s =
    (inr (Some (match Datetime.strptime (strip_zone raw) with
                | Some date => Datetime.strftime date
                | None => raw
                end)), s).
Proof.
  unfold format_date_modified; run.
  by destruct (Datetime.strptime (strip_zone raw)).
Qed.

Lemma get_item_at_index_state (index : Z) (s : State) :
  (get_item_at_index index s).2 = s.
Proof. by rewrite get_item_at_index_lookup. Qed.

(** What the column shows for an entry whose [date_modified] is a string. *)
Lemma DateModified_get_str_string
    (w : World) (url url_path : string) (index : Z) (item : Item) (raw : string)
    (s : State) :
  splitscheme w url = inr ("everything://", url_path) ->
  url_path <> "placeholder" ->
  (shortcut_index url_path s).1 = inr (Some index) ->
  (get_item_at_index index s).1 = inr (Some item) ->
  date_modified item = Some (Some raw) ->
  DateModified_get_str w url s =
    (inr (Some (match Datetime.strptime (strip_zone raw) with
                | Some date => Datetime.strftime date
                | None => raw
                end)), s).
Proof.
  intros Hurl Hph Hidx Hitem Hdate.
  pose proof (shortcut_index_state url_path s) as Hs1.
  pose proof (get_item_at_index_state index s) as Hs2.
  unfold DateModified_get_str.
  unfold mbind at 1, M_bind, bind, lift_sum. rewrite Hurl, String.eqb_refl.
  destruct (String.eqb_spec url_path "placeholder"); [done|].
  unfold mbind at 1, M_bind, bind.
  destruct (shortcut_index url_path s) as [r1 s1]; simpl in Hidx, Hs1; subst r1 s1.
  unfold mbind at 1, M_bind, bind, try_except.
  unfold mbind at 1, M_bind, bind.
  destruct (get_item_at_index index s) as [r2 s2]; simpl in Hitem, Hs2; subst r2 s2.
  rewrite Hdate.
  unfold mbind at 1, M_bind, bind.
  by rewrite format_date_modified_string.
Qed.

(** C8.  For an entry whose [date_modified] is the string
    [2024-03-05T12:30:00Z] the column shows [2024-03-05 12:30:00]; and for
    an entry whose [date_modified] is a string that, once its zone suffix
    is removed, [strptime] rejects, the column shows that string as it is. *)
Theorem date_modified_formats_or_returns_raw
    (w : World) (url url_path : string) (index : Z) (item : Item) (raw : string)
    (s : State) :
  splitscheme w url = inr ("everything://", url_path) ->
  url_path <> "placeholder" ->
  (shortcut_index url_path s).1 = inr (Some index) ->
  (get_item_at_index index s).1 = inr (Some item) ->
  date_modified item = Some (Some raw) ->
  (raw = "2024-03-05T12:30:00Z" ->
   DateModified_get_str w url s = (inr (Some "2024-03-05 12:30:00"), s)) /\
  (Datetime.strptime (strip_zone raw) = None ->
   DateModified_get_str w url s = (inr (Some raw), s)).
Proof.
  intros Hurl Hph Hidx Hitem Hdate.
  rewrite (DateModified_get_str_string w url url_path index item raw s) by done.
  split.
  - intros ->. reflexivity.
  - intros ->. reflexivity.
Qed.

Lemma date_modified_formats_or_returns_raw_witness :
  let w := Sample.world "api" None Sample.server_down in
  DateModified_get_str w "everything:///abc/1" Sample.state_abc
    = (inr (Some "2024-03-05 12:30:00"), Sample.state_abc) /\
  DateModified_get_str w "everything:///abc/2" Sample.state_abc
    = (inr (Some "yesterday"), Sample.state_abc).
Proof.
  intros w. split.
  - apply (date_modified_formats_or_returns_raw w "everything:///abc/1" "/abc/1" 1
             (Sample.item "C:/docs/a.txt" (Some "2024-03-05T12:30:00Z"))
             "2024-03-05T12:30:00Z" Sample.state_abc);
      [reflexivity | discriminate | reflexivity | reflexivity | reflexivity | reflexivity].
  - apply (date_modified_formats_or_returns_raw w "everything:///abc/2" "/abc/2" 2
             (Sample.item "C:/docs/b.txt" (Some "yesterday"))
             "yesterday" Sample.state_abc);
      [reflexivity | discriminate | reflexivity | reflexivity | reflexivity | reflexivity].
Defined.

(** ** Opening an entry *)

(** C9 as stated fails for both handlers.  For the file entry with index 1
    of the results of [abc], the double click opens the file and records
    nothing, and the command [open_file] records the entry and does not
    open the file. *)
Lemma opened_and_recorded_counterexample :
  let w := Sample.world "api" None Sample.server_down in
  ~ opened_and_recorded w "C:/docs/a.txt" 1
      (on_doubleclicked w "everything:///abc/1" Sample.state_abc).2 /\
  ~ opened_and_recorded w "C:/docs/a.txt" 1
      (on_command w "open_file" (Some "everything:///abc/1") Sample.state_abc).2.
Proof.
  intros w. split.
  - intros (_ & Hfile & _). vm_compute in Hfile. discriminate.
  - intros (Hopen & _). apply list_elem_of_In in Hopen.
    vm_compute in Hopen. intuition discriminate.
Qed.

Lemma get_item_at_index_log_host (a : HostAction) (index : Z) (s : State) :
  get_item_at_index index (log_host a s) =
    ((get_item_at_index index s).1, log_host a s).
Proof. by rewrite !get_item_at_index_lookup. Qed.

Lemma on_doubleclicked_file
    (w : World) (url url_path : string) (index : Z) (item : Item) (file_path : string)
    (s : State) :
  splitscheme w url = inr ("everything://", url_path) ->
  url_path <> "placeholder" ->
  (get_item_at_index index s).1 = inr (Some item) ->
  path item = Some file_path ->
  os_path_isdir w file_path = false ->
  (shortcut_index url_path s).1 = inr (Some index) ->
  on_doubleclicked w url s =
    (inr (Some true), log_host (RunCommand "open" (as_url w file_path)) s).
Proof.
  intros Hurl Hph Hitem Hpath Hdir Hidx.
  pose proof (shortcut_index_state url_path s) as Hs1.
  pose proof (get_item_at_index_state index s) as Hs2.
  unfold on_doubleclicked.
  unfold mbind at 1, M_bind, bind, lift_sum. rewrite Hurl, String.eqb_refl.
  cbn [negb].
  destruct (String.eqb_spec url_path "placeholder"); [done|].
  unfold mbind at 1, M_bind, bind.
  destruct (shortcut_index url_path s) as [r1 s1]; simpl in Hidx, Hs1; subst r1 s1.
  unfold mbind at 1, M_bind, bind, try_except.
  unfold mbind at 1, M_bind, bind.
  destruct (get_item_at_index index s) as [r2 s2]; simpl in Hitem, Hs2; subst r2 s2.
  rewrite Hpath, Hdir. reflexivity.
Qed.

Lemma open_file_at_file
    (w : World) (index : Z) (item : Item) (file_path : string) (s : State) :
  (get_item_at_index index s).1 = inr (Some item) ->
  path item = Some file_path ->
  os_path_isdir w file_path = false ->
  let parent_dir := os_path_dirname w file_path in
  open_file_at w index s =
    (inr (ReturnCommand "open_directory" (as_url w parent_dir)),
     log_host (ShowAlert ("Opening parent directory: " +:+ parent_dir))
       (log_host (SetPathWithCallback (as_url w parent_dir))
          (set_last_selected file_path index (set_file_path file_path s)))).
Proof.
  intros Hitem Hpath Hdir parent_dir.
  pose proof (get_item_at_index_state index s) as Hs2.
  unfold open_file_at.
  unfold mbind at 1, M_bind, bind, try_except.
  unfold mbind at 1, M_bind, bind.
  destruct (get_item_at_index index s) as [r2 s2]; simpl in Hitem, Hs2; subst r2 s2.
  rewrite Hpath, Hdir. reflexivity.
Qed.

Lemma on_command_file
    (w : World) (url url_path : string) (index : Z) (index_str : string)
    (item : Item) (file_path : string) (s : State) :
  splitscheme w url = inr ("everything://", url_path) ->
  url_path <> "placeholder" ->
  url_path <> "/placeholder" ->
  (get_item_at_index index s).1 = inr (Some item) ->
  path item = Some file_path ->
  os_path_isdir w file_path = false ->
  PyStr.contains "/" url_path = true ->
  PyStr.last_nonempty (PyStr.split "/" url_path) = Some index_str ->
  PyStr.isdigit index_str = true ->
  PyStr.int index_str = Some index ->
  let parent_dir := os_path_dirname w file_path in
  on_command w "open_file" (Some url) s =
    (inr (ReturnCommand "open_directory" (as_url w parent_dir)),
     log_host (ShowAlert ("Opening parent directory: " +:+ parent_dir))
       (log_host (SetPathWithCallback (as_url w parent_dir))
          (set_last_selected file_path index
             (set_file_path file_path
                (log_host (ShowAlert ("Extracted index: '" +:+ index_str +:+ "'"))
                   (log_host (ShowAlert ("parts: " +:+ repr_list w
                                           (PyStr.split "/" url_path))) s)))))).
Proof.
  intros Hurl Hph Hph' Hitem Hpath Hdir Hslash Hlast Hdigit Hint parent_dir.
  unfold on_command. rewrite String.eqb_refl.
  unfold mbind at 1, M_bind, bind, lift_sum. rewrite Hurl, String.eqb_refl.
  destruct (String.eqb_spec url_path "placeholder"); [done|].
  destruct (String.eqb_spec url_path "/placeholder"); [done|].
  cbn [orb]. rewrite Hslash.
  unfold mbind at 1, M_bind, bind, show_alert, modify. rewrite Hlast, Hdigit.
  unfold mbind at 1, M_bind, bind. rewrite Hint.
  unfold mbind at 1, M_bind, bind, lift_option, ret.
  set (s0 := log_host _ (log_host _ s)).
  assert (Hitem0 : (get_item_at_index index s0).1 = inr (Some item)).
  { subst s0. by rewrite !get_item_at_index_log_host. }
  by rewrite (open_file_at_file w index item file_path s0 Hitem0 Hpath Hdir).
Qed.

(** C9, amended.  Let an entry of the results cached for the current search
    term be a file, not a directory.  Activated by a double click,
    [on_doubleclicked] asks the host to run [open] on the URL of the file
    and returns [True], which keeps the host from its default behaviour; it
    changes nothing else, so the selection is not recorded.  Activated by
    the command [open_file], [on_command] records the path and the index of
    the entry as the last selection and sends the pane to the directory of
    the file, returning the command [open_directory]; it does not ask the
    host to open the file. *)
Theorem file_entry_is_opened_or_recorded
    (w : World) (url url_path : string) (index : Z) (item : Item) (file_path : string)
    (s : State) :
  splitscheme w url = inr ("everything://", url_path) ->
  url_path <> "placeholder" ->
  url_path <> "/placeholder" ->
  (get_item_at_index index s).1 = inr (Some item) ->
  path item = Some file_path ->
  os_path_isdir w file_path = false ->
  ((shortcut_index url_path s).1 = inr (Some index) ->
   on_doubleclicked w url s =
     (inr (Some true), log_host (RunCommand "open" (as_url w file_path)) s)) /\
  (forall index_str,
     PyStr.contains "/" url_path = true ->
     PyStr.last_nonempty (PyStr.split "/" url_path) = Some index_str ->
     PyStr.isdigit index_str = true ->
     PyStr.int index_str = Some index ->
     let parent_dir := os_path_dirname w file_path in
     let s' := (on_command w "open_file" (Some url) s).2 in
     (on_command w "open_file" (Some url) s).1 =
       inr (ReturnCommand "open_directory" (as_url w parent_dir)) /\
     _last_selected_file s' = Some file_path /\
     _last_selected_index s' = index /\
     host_actions s' =
       (host_actions s ++
        [ShowAlert ("parts: " +:+ repr_list w (PyStr.split "/" url_path));
         ShowAlert ("Extracted index: '" +:+ index_str +:+ "'");
         SetPathWithCallback (as_url w parent_dir);
         ShowAlert ("Opening parent directory: " +:+ parent_dir)])%list).
Proof.
  intros Hurl Hph Hph' Hitem Hpath Hdir. split.
  - by apply (on_doubleclicked_file w url url_path index item file_path s).
  - intros index_str Hslash Hlast Hdigit Hint parent_dir s'. subst s'.
    rewrite (on_command_file w url url_path index index_str item file_path s) by done.
    repeat split. simpl. by rewrite <- !app_assoc.
Qed.

Lemma file_entry_is_opened_or_recorded_witness :
  let w := Sample.world "api" None Sample.server_down in
  on_doubleclicked w "everything:///abc/1" Sample.state_abc =
    (inr (Some true), log_host (RunCommand "open" "file://C:/docs/a.txt") Sample.state_abc) /\
  _last_selected_file
    (on_command w "open_file" (Some "everything:///abc/1") Sample.state_abc).2
    = Some "C:/docs/a.txt".
Proof.
  intros w.
  destruct (file_entry_is_opened_or_recorded w "everything:///abc/1" "/abc/1" 1
              (Sample.item "C:/docs/a.txt" (Some "2024-03-05T12:30:00Z"))
              "C:/docs/a.txt" Sample.state_abc)
    as [Hclick Hcommand];
    [reflexivity | discriminate | discriminate | reflexivity | reflexivity | reflexivity |].
  split.
  - apply Hclick. reflexivity.
  - apply (Hcommand "1"); reflexivity.
Defined.

(** ** Paths that carry a search term *)

(** A path without [?] that starts with a slash and does not continue with
    digits only, such as [/foo/5], is listed as a search term: the text
    after the slash, unquoted, becomes the current search term. *)
Lemma iterdir_slash_query (w : World) (url_path : string) (s : State) :
  PyStr.contains "?" url_path = false ->
  PyStr.startswith "/" url_path = true ->
  PyStr.isdigit (PyStr.tail url_path) = false ->
  _current_search_term (iterdir w url_path s).2 = unquote w (PyStr.tail url_path).
Proof.
  intros Hq Hs Hd.
  rewrite (iterdir_query w url_path (unquote w (PyStr.tail url_path)) s).
  - cbn [snd]. apply update_search_returns.
  - unfold decoded_query. rewrite Hq, Hs, Hd.
    rewrite (startswith_slash _ Hs) at 1. cbn [PyStr.count].
    rewrite Ascii.eqb_refl. reflexivity.
Qed.

(** * Further properties *)

(** ** Decimal numbers *)

Section Decimal.

Import PyStr.

Lemma pretty_N_char_digit (r : N) :
  (r < 10)%N ->
  is_decimal (pretty_N_char r) = true /\ digit_value (pretty_N_char r) = Z.of_N r.
Proof.
  intros Hr.
  assert (r = 0 \/ r = 1 \/ r = 2 \/ r = 3 \/ r = 4 \/ r = 5 \/ r = 6 \/ r = 7
          \/ r = 8 \/ r = 9)%N as H by lia.
  repeat (destruct H as [-> | H]; [by vm_compute|]). subst r. by vm_compute.
Qed.

Lemma pretty_N_go_digits (x : N) (s : string) :
  all_chars is_decimal s = true -> all_chars is_decimal (pretty_N_go x s) = true.
Proof.
  revert s. induction (N.lt_wf_0 x) as [x _ IH]; intros s Hs.
  assert (x = 0 \/ 0 < x)%N as [->|Hx] by lia; [done|].
  rewrite pretty_N_go_step by done.
  apply IH; [by apply N.div_lt|].
  cbn [all_chars]. rewrite Hs.
  by destruct (pretty_N_char_digit (x `mod` 10)%N) as [-> _]; [apply N.mod_lt|].
Qed.

Lemma pretty_N_go_nonempty (x : N) (s : string) :
  (0 < x)%N -> pretty_N_go x s <> EmptyString.
Proof.
  revert s. induction (N.lt_wf_0 x) as [x _ IH]; intros s Hx.
  rewrite pretty_N_go_step by done.
  destruct (N.eq_0_gt_0_cases (x `div` 10)) as [->|Hd]; [done|].
  apply IH; [by apply N.div_lt | done].
Qed.

(** Reading the digits [pretty_N_go] writes in front of [s] adds the number
    written to the digits read before. *)
Lemma literal_value_pretty_N_go (x : N) :
  (0 < x)%N ->
  exists k, forall acc b s,
    literal_value acc b (pretty_N_go x s) = literal_value (acc * k + Z.of_N x) true s.
Proof.
  induction (N.lt_wf_0 x) as [x _ IH]; intros Hx.
  destruct (pretty_N_char_digit (x `mod` 10)%N) as [Hd Hv]; [by apply N.mod_lt|].
  pose proof (N.div_mod x 10 ltac:(done)) as Hdm.
  destruct (N.eq_0_gt_0_cases (x `div` 10)) as [H0|Hpos].
  - exists 10. intros acc b s.
    rewrite pretty_N_go_step, H0 by done. rewrite pretty_N_go_0.
    cbn [literal_value]. rewrite Hd, Hv. f_equal. lia.
  - destruct (IH (x `div` 10)%N) as [k Hk]; [by apply N.div_lt | done |].
    exists (10 * k). intros acc b s.
    rewrite pretty_N_go_step, Hk by done.
    cbn [literal_value]. rewrite Hd, Hv. f_equal. lia.
Qed.

Lemma str_nonneg_decimal (n : Z) : 0 <= n -> isdecimal (str n) = true.
Proof.
  intros Hn. unfold str, pretty, pretty_Z.
  destruct n as [|p|p]; [done| |lia].
  unfold pretty, pretty_positive, pretty, pretty_N.
  destruct (decide (N.pos p = 0)%N); [done|].
  pose proof (pretty_N_go_nonempty (N.pos p) EmptyString ltac:(lia)) as Hne.
  pose proof (pretty_N_go_digits (N.pos p) EmptyString eq_refl) as Hd.
  unfold isdecimal. by destruct (pretty_N_go (N.pos p) EmptyString).
Qed.

Lemma str_nonneg_digits (n : Z) : 0 <= n -> isdigit (str n) = true.
Proof. intros Hn. by apply isdecimal_isdigit, str_nonneg_decimal. Qed.

Lemma int_pretty_positive (p : positive) :
  literal_value 0 false (pretty (N.pos p)) = Some (Z.pos p).
Proof.
  unfold pretty, pretty_N. destruct (decide (N.pos p = 0)%N); [done|].
  destruct (literal_value_pretty_N_go (N.pos p)) as [k Hk]; [lia|].
  rewrite Hk. cbn [literal_value]. f_equal.
Qed.

(** [int(str(n)) == n] for every integer. *)
Lemma int_str (n : Z) : int (str n) = Some n.
Proof.
  destruct n as [|p|p]; [done| |].
  - rewrite int_literal by (by apply str_nonneg_digits).
    apply int_pretty_positive.
  - unfold str, pretty, pretty_Z.
    change ("-" +:+ pretty p) with (String "-" (pretty (N.pos p))).
    assert (Hd : isdigit (pretty (N.pos p)) = true).
    { apply (str_nonneg_digits (Z.pos p)). lia. }
    pose proof (isdigit_all _ Hd) as Hall.
    unfold int, strip. cbn [lstrip]. 
    replace (is_space "-") with false by reflexivity.
    cbn [rstrip]. rewrite (rstrip_digits _ Hall).
    destruct (pretty (N.pos p)) as [|a t] eqn:E; [done|].
    replace (String.eqb (String a t) EmptyString) with false by reflexivity.
    cbn [andb]. rewrite <- E, int_pretty_positive. reflexivity.
Qed.

End Decimal.

(** ** Paths and their segments *)

Section Segments.

Import PyStr.

Lemma append_nil_l (s : string) : EmptyString +:+ s = s.
Proof. reflexivity. Qed.

Lemma append_cons (a : ascii) (s t : string) : String a s +:+ t = String a (s +:+ t).
Proof. reflexivity. Qed.

Lemma append_assoc (a b c : string) : (a +:+ b) +:+ c = a +:+ (b +:+ c).
Proof. induction a as [|x a IH]; [done|]. by rewrite !append_cons, IH. Qed.

Lemma split_nonempty c s : split c s <> [].
Proof.
  destruct s as [|a s]; [done|]. cbn [split].
  destruct (Ascii.eqb a c); [done|]. by destruct (split c s).
Qed.

(** [(a + c + b).split(c) == a.split(c) + b.split(c)] *)
Lemma split_app c a b :
  split c (a +:+ String c b) = (split c a ++ split c b)%list.
Proof.
  induction a as [|x a IH].
  - rewrite append_nil_l. cbn [split]. by rewrite Ascii.eqb_refl.
  - rewrite append_cons. cbn [split]. rewrite IH.
    destruct (Ascii.eqb x c); [done|].
    pose proof (split_nonempty c a). by destruct (split c a).
Qed.

Lemma split_absent c s : contains c s = false -> split c s = [s].
Proof.
  induction s as [|a s IH]; [done|].
  rewrite contains_cons. intros [Ha Hs]%orb_false_iff.
  cbn [split]. by rewrite Ha, (IH Hs).
Qed.

Lemma last_nonempty_snoc l seg :
  seg <> EmptyString -> last_nonempty (l ++ [seg]) = Some seg.
Proof.
  intros Hne. unfold last_nonempty. rewrite rev_unit. cbn [find].
  by destruct (String.eqb_spec seg EmptyString).
Qed.

Lemma last_nonempty_snoc_empty l : last_nonempty (l ++ [EmptyString]) = last_nonempty l.
Proof. unfold last_nonempty. by rewrite rev_unit. Qed.

Lemma contains_app c a b : contains c (a +:+ String c b) = true.
Proof.
  induction a as [|x a IH].
  - by rewrite append_nil_l, contains_cons, Ascii.eqb_refl.
  - by rewrite append_cons, contains_cons, IH, orb_true_r.
Qed.

Lemma rsplit1_app c a b :
  contains c b = false -> rsplit1 c (a +:+ String c b) = Some (a, b).
Proof.
  intros Hb. induction a as [|x a IH].
  - rewrite append_nil_l. cbn [rsplit1].
    by rewrite (rsplit1_absent c b Hb), Ascii.eqb_refl.
  - rewrite append_cons. cbn [rsplit1]. by rewrite IH.
Qed.

Lemma rsplit1_inv c s h t :
  rsplit1 c s = Some (h, t) -> s = h +:+ String c t /\ contains c t = false.
Proof.
  revert h; induction s as [|a s IH]; intros h; [done|]. cbn [rsplit1].
  destruct (rsplit1 c s) as [[h' t']|] eqn:E.
  - intros [= <- <-]. destruct (IH h' eq_refl) as [-> Ht]. done.
  - destruct (Ascii.eqb_spec a c) as [->|]; [|done].
    intros [= <- <-]. split; [done|].
    destruct (contains c s) eqn:Hc; [|done].
    destruct (contains_rsplit1 c s Hc) as (? & ? & ?). congruence.
Qed.

Lemma endswith_inv p s : endswith p s = true -> exists pre, s = pre +:+ p.
Proof.
  induction s as [|a s IH]; cbn [endswith].
  - rewrite orb_false_r. intros ->%String.eqb_eq. by exists EmptyString.
  - intros [->%String.eqb_eq | H]%orb_true_iff; [by exists EmptyString|].
    destruct (IH H) as [pre ->]. by exists (String a pre).
Qed.

Lemma last_char_app a c : last_char (a +:+ String c EmptyString) = Some c.
Proof.
  induction a as [|x a IH]; [done|].
  rewrite append_cons. cbn [last_char]. rewrite IH.
  by destruct (a +:+ String c EmptyString) eqn:E; [destruct a|].
Qed.

Lemma isdigit_contains c s :
  is_digit c = false -> isdigit s = true -> contains c s = false.
Proof. intros Hc Hs. by apply all_digits_contains, isdigit_all. Qed.

Lemma isdigit_nonempty s : isdigit s = true -> s <> EmptyString.
Proof. by destruct s. Qed.

(** The index the columns and the listener read off a path that ends in a
    slash and digits. *)
Lemma general_index_digits (base seg : string) (s : State) :
  isdigit seg = true ->
  general_index (base +:+ String "/" seg) s =
    (match int seg with
     | Some n => inr (Some n)
     | None => inl (ValueError "invalid literal for int() with base 10")
     end, s).
Proof.
  intros Hd. unfold general_index.
  rewrite contains_app, split_app.
  rewrite (split_absent "/" seg) by (by apply isdigit_contains).
  rewrite last_nonempty_snoc by (by apply isdigit_nonempty).
  rewrite Hd. run. by destruct (int seg).
Qed.

End Segments.

Lemma shortcut_index_general (url_path : string) (s : State) :
  shortcut_index url_path s = general_index url_path s.
Proof.
  unfold shortcut_index.
  destruct (PyStr.endswith "/0" url_path) eqn:H0;
    [|destruct (PyStr.endswith "/1" url_path) eqn:H1;
      [|destruct (PyStr.endswith "/2" url_path) eqn:H2; [|done]]]; cbn [orb].
  - destruct (endswith_inv _ _ H0) as [pre ->].
    rewrite (general_index_digits pre "0") by done.
    assert (Hl : PyStr.last_char (pre +:+ "/0") = Some "0"%char).
    { change (pre +:+ "/0") with (pre +:+ ("/" +:+ "0")).
      rewrite <- append_assoc. apply last_char_app. }
    run. by rewrite Hl.
  - destruct (endswith_inv _ _ H1) as [pre ->].
    rewrite (general_index_digits pre "1") by done.
    assert (Hl : PyStr.last_char (pre +:+ "/1") = Some "1"%char).
    { change (pre +:+ "/1") with (pre +:+ ("/" +:+ "1")).
      rewrite <- append_assoc. apply last_char_app. }
    run. by rewrite Hl.
  - destruct (endswith_inv _ _ H2) as [pre ->].
    rewrite (general_index_digits pre "2") by done.
    assert (Hl : PyStr.last_char (pre +:+ "/2") = Some "2"%char).
    { change (pre +:+ "/2") with (pre +:+ ("/" +:+ "2")).
      rewrite <- append_assoc. apply last_char_app. }
    run. by rewrite Hl.
Qed.

(** X1.  The shortcut for paths ending in [/0], [/1] or [/2] that
    [Size.get_str], [DateModified.get_str] and [on_doubleclicked] take
    never changes the outcome: for every path and state it gives what the
    general extraction of [Name.get_str], [Path.get_str] and [on_command]
    gives. *)
Theorem shortcut_index_is_general_index (url_path : string) (s : State) :
  shortcut_index url_path s = general_index url_path s.
Proof. apply shortcut_index_general. Qed.

(** ** One index for every decoder *)

Lemma resolve_of_entry (w : World) (url_path : string) (found : option string) (s : State) :
  PyStr.contains "/" url_path = true ->
  indexed_entry_path url_path s = (inr found, s) ->
  resolve w url_path s =
    (inr (match found with
          | Some file_path => as_url w file_path
          | None => scheme +:+ url_path
          end), s) /\
  is_dir w url_path s =
    (inr (match found with
          | Some file_path => os_path_isdir w file_path
          | None => false
          end), s).
Proof.
  intros Hslash Hentry. unfold resolve, is_dir.
  rewrite (placeholder_no_slash _ Hslash), Hslash. run. rewrite Hentry.
  by destruct found.
Qed.

Lemma digit_suffix_decoding
    (w : World) (url_path base seg : string) (s : State) :
  PyStr.rsplit1 "/" url_path = Some (base, seg) ->
  PyStr.isdecimal seg = true ->
  (3 <= String.length (_current_search_term s))%nat ->
  exists n item,
    0 <= n /\ PyStr.int seg = Some n /\
    general_index url_path s = (inr (Some n), s) /\
    shortcut_index url_path s = (inr (Some n), s) /\
    get_item_at_index n s = (inr item, s) /\
    resolve w url_path s =
      (inr (match item ≫= path with
            | Some file_path => as_url w file_path
            | None => scheme +:+ url_path
            end), s) /\
    is_dir w url_path s =
      (inr (match item ≫= path with
            | Some file_path => os_path_isdir w file_path
            | None => false
            end), s).
Proof.
  intros Hsplit Hdec Hlen.
  pose proof (isdecimal_isdigit seg Hdec) as Hd.
  destruct (int_isdecimal seg Hdec) as (n & Hint & Hn).
  destruct (rsplit1_inv _ _ _ _ Hsplit) as [-> _].
  pose proof (general_index_digits base seg s Hd) as Hg. rewrite Hint in Hg.
  pose proof (indexed_entry_path_lookup _ base seg n s Hsplit Hint Hn) as He.
  exists n.
  exists (match _results_cache s !! _current_search_term s with
          | Some (_, results) => results !! Z.to_nat n
          | None => None
          end).
  assert (Hitem : get_item_at_index n s =
                  (inr (match _results_cache s !! _current_search_term s with
                        | Some (_, results) => results !! Z.to_nat n
                        | None => None
                        end), s)).
  { rewrite get_item_at_index_lookup.
    destruct (Nat.ltb_spec (String.length (_current_search_term s)) 3); [lia|].
    destruct (_results_cache s !! _current_search_term s) as [[c r]|]; [|done].
    destruct (Z.leb_spec 0 n); [|lia]. cbn [andb].
    destruct (Z.ltb_spec n (Z.of_nat (length r))); [done|].
    by rewrite lookup_ge_None_2 by lia. }
  assert (Hfound : indexed_entry_path (base +:+ String "/" seg) s =
                   (inr (match _results_cache s !! _current_search_term s with
                         | Some (_, results) => results !! Z.to_nat n
                         | None => None
                         end ≫= path), s)).
  { rewrite He. by destruct (_results_cache s !! _current_search_term s) as [[c r]|]. }
  destruct (resolve_of_entry w _ _ s (contains_app "/" base seg) Hfound) as [Hr Hi].
  repeat split; try done.
  by rewrite shortcut_index_general.
Qed.

(** X2.  For a path whose text after the last slash is decimal digits, every
    decoder of the module reads the same natural number: [resolve] and
    [is_dir] through [rsplit] and [int], the columns and the listener
    through the last non-empty segment, with or without the shortcut.  When
    the current search term has three characters or more, [resolve] and
    [is_dir] work on the [path] of the very entry [get_item_at_index]
    returns for that number. *)
Theorem decoders_agree_on_digit_suffix
    (w : World) (url_path base seg : string) (s : State) :
  PyStr.rsplit1 "/" url_path = Some (base, seg) ->
  PyStr.isdecimal seg = true ->
  (3 <= String.length (_current_search_term s))%nat ->
  exists n item,
    0 <= n /\ PyStr.int seg = Some n /\
    general_index url_path s = (inr (Some n), s) /\
    shortcut_index url_path s = (inr (Some n), s) /\
    get_item_at_index n s = (inr item, s) /\
    resolve w url_path s =
      (inr (match item ≫= path with
            | Some file_path => as_url w file_path
            | None => scheme +:+ url_path
            end), s) /\
    is_dir w url_path s =
      (inr (match item ≫= path with
            | Some file_path => os_path_isdir w file_path
            | None => false
            end), s).
Proof. apply digit_suffix_decoding. Qed.

Lemma decoders_agree_on_digit_suffix_witness :
  let w := Sample.world "api" None Sample.server_down in
  exists n item,
    0 <= n /\ PyStr.int "3" = Some n /\
    general_index "/abc//3" Sample.state_abc = (inr (Some n), Sample.state_abc) /\
    shortcut_index "/abc//3" Sample.state_abc = (inr (Some n), Sample.state_abc) /\
    get_item_at_index n Sample.state_abc = (inr item, Sample.state_abc) /\
    resolve w "/abc//3" Sample.state_abc =
      (inr (match item ≫= path with
            | Some file_path => as_url w file_path
            | None => scheme +:+ "/abc//3"
            end), Sample.state_abc) /\
    is_dir w "/abc//3" Sample.state_abc =
      (inr (match item ≫= path with
            | Some file_path => os_path_isdir w file_path
            | None => false
            end), Sample.state_abc).
Proof.
  intros w.
  apply (decoders_agree_on_digit_suffix w "/abc//3" "/abc/" "3" Sample.state_abc).
  - reflexivity.
  - reflexivity.
  - simpl. lia.
Defined.

(** A path that ends in a slash has no index for [resolve] and [is_dir]. *)
Lemma indexed_entry_path_trailing_slash (base : string) (s : State) :
  indexed_entry_path (base +:+ "/") s = (inr None, s).
Proof.
  unfold indexed_entry_path; run.
  by rewrite (rsplit1_app "/" base EmptyString eq_refl).
Qed.

(** X3.  A path that ends in a slash is never resolved: [resolve] returns
    the scheme followed by the path and [is_dir] returns [False], in every
    state.  The columns and the listener skip the empty last segment, so for
    a path ending in decimal digits and a slash they still read the digits
    as the index. *)
Theorem trailing_slash_is_not_resolved
    (w : World) (base digits : string) (s : State) :
  PyStr.isdecimal digits = true ->
  let url_path := base +:+ "/" +:+ digits +:+ "/" in
  resolve w url_path s = (inr (scheme +:+ url_path), s) /\
  is_dir w url_path s = (inr false, s) /\
  exists n, PyStr.int digits = Some n /\
            general_index url_path s = (inr (Some n), s).
Proof.
  intros Hdec url_path.
  pose proof (isdecimal_isdigit digits Hdec) as Hd.
  assert (Hp : url_path = (base +:+ "/" +:+ digits) +:+ "/").
  { subst url_path. by rewrite !append_assoc. }
  pose proof (indexed_entry_path_trailing_slash (base +:+ "/" +:+ digits) s) as He.
  rewrite <- Hp in He.
  assert (Hslash : PyStr.contains "/" url_path = true).
  { rewrite Hp. apply (contains_app "/" _ EmptyString). }
  destruct (resolve_of_entry w url_path None s Hslash He) as [Hr Hi].
  split; [done|]. split; [done|].
  destruct (int_isdecimal digits Hdec) as (n & Hint & _).
  exists n. split; [done|].
  unfold general_index. rewrite Hslash, Hp.
  rewrite (split_app "/" (base +:+ "/" +:+ digits) EmptyString).
  cbn [PyStr.split]. rewrite last_nonempty_snoc_empty.
  change (base +:+ "/" +:+ digits) with (base +:+ String "/" digits).
  rewrite split_app, (split_absent "/" digits) by (by apply isdigit_contains).
  rewrite last_nonempty_snoc by (by apply isdigit_nonempty).
  rewrite Hd, Hint. done.
Qed.

Lemma trailing_slash_is_not_resolved_witness :
  let w := Sample.world "api" None Sample.server_down in
  resolve w "/abc/1/" Sample.state_abc = (inr "everything:///abc/1/", Sample.state_abc) /\
  is_dir w "/abc/1/" Sample.state_abc = (inr false, Sample.state_abc) /\
  exists n, PyStr.int "1" = Some n /\
            general_index "/abc/1/" Sample.state_abc = (inr (Some n), Sample.state_abc).
Proof.
  intros w.
  apply (trailing_slash_is_not_resolved w "/abc" "1" Sample.state_abc).
  reflexivity.
Defined.

(** ** From a listing to its entries *)

Lemma entries_lookup (results : list Item) (i : nat) :
  (i < length results)%nat ->
  entries results !! i = Some ("/" +:+ PyStr.str (Z.of_nat i)).
Proof.
  intros Hi. unfold entries. rewrite list_lookup_fmap, lookup_seq_lt by done. done.
Qed.

(** The name [iterdir] yields for the result at position [i], under any
    prefix, is decoded to [i] and so to that result. *)
Lemma listed_entry_decoding
    (w : World) (s : State) (count : Z) (results : list Item) (i : nat) (item : Item)
    (base : string) :
  _results_cache s !! _current_search_term s = Some (count, results) ->
  (3 <= String.length (_current_search_term s))%nat ->
  results !! i = Some item ->
  let url_path := base +:+ "/" +:+ PyStr.str (Z.of_nat i) in
  current_listing s !! i = Some ("/" +:+ PyStr.str (Z.of_nat i)) /\
  general_index url_path s = (inr (Some (Z.of_nat i)), s) /\
  get_item_at_index (Z.of_nat i) s = (inr (Some item), s) /\
  resolve w url_path s =
    (inr (match path item with
          | Some file_path => as_url w file_path
          | None => scheme +:+ url_path
          end), s) /\
  is_dir w url_path s =
    (inr (match path item with
          | Some file_path => os_path_isdir w file_path
          | None => false
          end), s).
Proof.
  intros Hcache Hlen Hitem url_path.
  pose proof (lookup_lt_Some _ _ _ Hitem) as Hi.
  assert (Hd : PyStr.isdecimal (PyStr.str (Z.of_nat i)) = true).
  { apply str_nonneg_decimal. lia. }
  assert (Hsplit : PyStr.rsplit1 "/" url_path = Some (base, PyStr.str (Z.of_nat i))).
  { apply rsplit1_app. by apply isdigit_contains, isdecimal_isdigit. }
  destruct (digit_suffix_decoding w url_path base _ s Hsplit Hd Hlen)
    as (n & it & _ & Hint & Hg & _ & Hget & Hr & Hdir).
  rewrite int_str in Hint. injection Hint as <-.
  assert (it = Some item) as ->.
  { rewrite get_item_at_index_lookup in Hget.
    destruct (Nat.ltb_spec (String.length (_current_search_term s)) 3); [lia|].
    rewrite Hcache in Hget.
    destruct (Z.leb_spec 0 (Z.of_nat i)); [|lia].
    destruct (Z.ltb_spec (Z.of_nat i) (Z.of_nat (length results))); [|lia].
    cbn [andb] in Hget. rewrite Nat2Z.id, Hitem in Hget. congruence. }
  split; [|done].
  unfold current_listing.
  destruct (Nat.ltb_spec (String.length (_current_search_term s)) 3); [lia|].
  rewrite Hcache. by apply entries_lookup.
Qed.

(** X4.  Listing and resolving fit together.  When the current search term
    has cached results, the entry a listing yields at position [i] is the
    slash followed by [i] in decimal, and that name, after whatever prefix
    the host puts before it, is decoded back to [i] by the columns and
    selects the result at position [i]: [get_item_at_index] returns it,
    [resolve] returns the URL of its [path] and [is_dir] tells whether that
    path is a directory. *)
Theorem listed_entry_resolves_to_its_result
    (w : World) (s : State) (count : Z) (results : list Item) (i : nat) (item : Item)
    (base : string) :
  _results_cache s !! _current_search_term s = Some (count, results) ->
  (3 <= String.length (_current_search_term s))%nat ->
  results !! i = Some item ->
  let url_path := base +:+ "/" +:+ PyStr.str (Z.of_nat i) in
  current_listing s !! i = Some ("/" +:+ PyStr.str (Z.of_nat i)) /\
  general_index url_path s = (inr (Some (Z.of_nat i)), s) /\
  get_item_at_index (Z.of_nat i) s = (inr (Some item), s) /\
  resolve w url_path s =
    (inr (match path item with
          | Some file_path => as_url w file_path
          | None => scheme +:+ url_path
          end), s) /\
  is_dir w url_path s =
    (inr (match path item with
          | Some file_path => os_path_isdir w file_path
          | None => false
          end), s).
Proof. apply listed_entry_decoding. Qed.

Lemma listed_entry_resolves_to_its_result_witness :
  let w := Sample.world "api" None Sample.server_down in
  let s := Sample.state_abc in
  let url_path := "/abc/" +:+ "/" +:+ PyStr.str (Z.of_nat 4) in
  current_listing s !! 4%nat = Some ("/" +:+ PyStr.str (Z.of_nat 4)) /\
  general_index url_path s = (inr (Some (Z.of_nat 4)), s) /\
  get_item_at_index (Z.of_nat 4) s = (inr (Some (Sample.item "C:/docs/d.txt" None)), s) /\
  resolve w url_path s =
    (inr (match path (Sample.item "C:/docs/d.txt" None) with
          | Some file_path => as_url w file_path
          | None => scheme +:+ url_path
          end), s) /\
  is_dir w url_path s =
    (inr (match path (Sample.item "C:/docs/d.txt" None) with
          | Some file_path => os_path_isdir w file_path
          | None => false
          end), s).
Proof.
  intros w s.
  apply (listed_entry_resolves_to_its_result w s 5 Sample.five_results 4
           (Sample.item "C:/docs/d.txt" None) "/abc/").
  - reflexivity.
  - simpl. lia.
  - reflexivity.
Defined.

(** ** The columns Name and Path *)

(** The extraction of the index leaves the state alone.  It raises the
    [ValueError] of [int] on the paths of [rejected_digits] and on no other;
    otherwise it gives no index or a natural number. *)
Lemma general_index_cases (url_path : string) (s : State) :
  if rejected_digits url_path
  then general_index url_path s =
         (inl (ValueError "invalid literal for int() with base 10"), s)
  else exists o, general_index url_path s = (inr o, s) /\
                 forall n, o = Some n -> 0 <= n.
Proof.
  unfold general_index, rejected_digits.
  destruct (PyStr.contains "/" url_path); cbn [andb]; [|by exists None].
  destruct (PyStr.last_nonempty _) as [t|]; [|by exists None].
  destruct (PyStr.isdigit t) eqn:Hd; cbn [andb]; [|by exists None].
  run. destruct (PyStr.int t) as [n|] eqn:Hint; [|done].
  exists (Some n). split; [done|]. intros ? [= <-].
  by destruct (int_isdigit_decimal t n Hd Hint).
Qed.

(** The segments [int] rejects are not made of decimal digits. *)
Lemma rejected_digits_segment (url_path : string) :
  rejected_digits url_path = true ->
  PyStr.contains "/" url_path = true /\
  exists seg, PyStr.last_nonempty (PyStr.split "/" url_path) = Some seg /\
              PyStr.isdigit seg = true /\ PyStr.int seg = None /\
              PyStr.isdecimal seg = false.
Proof.
  unfold rejected_digits.
  destruct (PyStr.contains "/" url_path); [|done]. cbn [andb].
  destruct (PyStr.last_nonempty _) as [t|]; [|done].
  destruct (PyStr.isdigit t) eqn:Hd; [|done]. cbn [andb].
  destruct (PyStr.int t) as [n|] eqn:Hint; [done|]. intros _.
  split; [done|]. exists t. repeat split; try done.
  destruct (PyStr.isdecimal t) eqn:Hdec; [|done].
  destruct (int_isdecimal t Hdec) as (n & Hn & _). congruence.
Qed.

Example rejected_digits_ex :
  rejected_digits ("/abc/" +:+ superscript_two) = true /\
  rejected_digits "/abc/12" = false /\ rejected_digits "/abc/x" = false /\
  rejected_digits ("/abc/1" +:+ superscript_two +:+ "/") = true.
Proof. repeat split; reflexivity. Qed.

Lemma get_item_at_index_returns (index : Z) (s : State) :
  exists o, get_item_at_index index s = (inr o, s).
Proof. rewrite get_item_at_index_lookup. eauto. Qed.

(** What the column Name shows, case by case. *)
Lemma Name_get_str_cases (w : World) (h : Host) (url sch url_path : string)
    (o : option Z) (s : State) :
  splitscheme w url = inr (sch, url_path) ->
  general_index url_path s = (inr o, s) ->
  Name_get_str w h url s =
    (inr (if String.eqb sch "everything://" then
            if String.eqb url_path "placeholder"
            then "Search using 'Everything' from the command palette"
            else match o with
                 | Some n =>
                     match (get_item_at_index n s).1 with
                     | inr (Some item) => default (basename h url) (filename item)
                     | _ => basename h url
                     end
                 | None => basename h url
                 end
          else basename h url), s).
Proof.
  intros Hurl Hidx. unfold Name_get_str.
  unfold mbind at 1, M_bind, bind, lift_sum. rewrite Hurl.
  destruct (String.eqb sch "everything://"); [|done].
  destruct (String.eqb url_path "placeholder"); [done|].
  unfold mbind at 1, M_bind, bind. rewrite Hidx.
  destruct o as [n|]; [|done].
  unfold mbind at 1, M_bind, bind, try_except.
  unfold mbind at 1, M_bind, bind.
  destruct (get_item_at_index_returns n s) as [[item|] ->]; [|done].
  cbn [fst]. by destruct (filename item).
Qed.

(** What the column Path shows, case by case. *)
Lemma Path_get_str_cases (w : World) (h : Host) (url sch url_path : string)
    (o : option Z) (s : State) :
  splitscheme w url = inr (sch, url_path) ->
  general_index url_path s = (inr o, s) ->
  Path_get_str w h url s =
    (inr (if String.eqb sch "everything://" then
            if String.eqb url_path "placeholder" then EmptyString
            else match o with
                 | Some n =>
                     match (get_item_at_index n s).1 with
                     | inr (Some item) =>
                         default (dirname h url) (os_path_dirname w <$> path item)
                     | _ => dirname h url
                     end
                 | None => dirname h url
                 end
          else dirname h url), s).
Proof.
  intros Hurl Hidx. unfold Path_get_str.
  unfold mbind at 1, M_bind, bind, lift_sum. rewrite Hurl.
  destruct (String.eqb sch "everything://"); [|done].
  destruct (String.eqb url_path "placeholder"); [done|].
  unfold mbind at 1, M_bind, bind. rewrite Hidx.
  destruct o as [n|]; [|done].
  unfold mbind at 1, M_bind, bind, try_except.
  unfold mbind at 1, M_bind, bind.
  destruct (get_item_at_index_returns n s) as [[item|] ->]; [|done].
  cbn [fst]. by destruct (path item).
Qed.

(** X5.  For the URL of a listed entry, that is a path ending in the slash
    and decimal position [i] of a result cached for the current search term,
    the column Name shows the [filename] of that result and the column Path
    the directory of its [path]; a result without the key is shown by the
    base name or the directory name of the URL. *)
Theorem columns_show_listed_entry
    (w : World) (h : Host) (s : State) (count : Z) (results : list Item) (i : nat)
    (item : Item) (base url : string) :
  _results_cache s !! _current_search_term s = Some (count, results) ->
  (3 <= String.length (_current_search_term s))%nat ->
  results !! i = Some item ->
  splitscheme w url = inr ("everything://", base +:+ "/" +:+ PyStr.str (Z.of_nat i)) ->
  Name_get_str w h url s = (inr (default (basename h url) (filename item)), s) /\
  Path_get_str w h url s =
    (inr (default (dirname h url) (os_path_dirname w <$> path item)), s).
Proof.
  intros Hcache Hlen Hitem Hurl.
  destruct (listed_entry_decoding w s count results i item base Hcache Hlen Hitem)
    as (_ & Hg & Hget & _).
  assert (Hph : String.eqb (base +:+ "/" +:+ PyStr.str (Z.of_nat i)) "placeholder" = false).
  { apply placeholder_no_slash, contains_app. }
  rewrite (Name_get_str_cases w h url _ _ _ s Hurl Hg).
  rewrite (Path_get_str_cases w h url _ _ _ s Hurl Hg).
  by rewrite String.eqb_refl, Hph, Hget.
Qed.

Lemma columns_show_listed_entry_witness :
  let w := Sample.world "api" None Sample.server_down in
  let h := mkHost Sample.basename Sample.dirname in
  Name_get_str w h "everything:///abc//1" Sample.state_abc
    = (inr "a.txt", Sample.state_abc) /\
  Path_get_str w h "everything:///abc//1" Sample.state_abc
    = (inr "C:/docs", Sample.state_abc).
Proof.
  intros w h.
  apply (columns_show_listed_entry w h Sample.state_abc 5 Sample.five_results 1
           (Sample.item "C:/docs/a.txt" (Some "2024-03-05T12:30:00Z"))
           "/abc/" "everything:///abc//1").
  - reflexivity.
  - simpl. lia.
  - reflexivity.
  - reflexivity.
Defined.

(** The columns Name and Path let the exception of the extraction through:
    it is raised before their [try]. *)
Lemma Name_Path_get_str_raise (w : World) (h : Host) (url url_path : string)
    (e : exn) (s : State) :
  splitscheme w url = inr ("everything://", url_path) ->
  url_path <> "placeholder" ->
  general_index url_path s = (inl e, s) ->
  Name_get_str w h url s = (inl e, s) /\ Path_get_str w h url s = (inl e, s).
Proof.
  intros Hurl Hph Hidx. unfold Name_get_str, Path_get_str.
  unfold mbind at 1 5, M_bind, bind, lift_sum. rewrite Hurl.
  rewrite String.eqb_refl.
  destruct (String.eqb_spec url_path "placeholder"); [done|].
  unfold mbind at 1 4, M_bind, bind. by rewrite Hidx.
Qed.

(** X6.  Once [splitscheme] has split the URL, the columns Name and Path
    leave the state alone, and they raise on one kind of URL only: a URL of
    the scheme, other than the placeholder, whose last non-empty segment
    passes [isdigit] and is rejected by [int], as the superscript two is.
    [int] is called before the [try], so its [ValueError] leaves the column.
    On every other URL both columns return.  For a URL of another scheme,
    and for a path other than the placeholder that carries no index or
    whose index selects no entry, they show the base name and the directory
    name the host derives from the URL.  The path is taken to have at most
    4300 characters, so that no segment is longer than the literals every
    interpreter reads. *)
Theorem columns_raise_on_rejected_digits_only
    (w : World) (h : Host) (url sch url_path : string) (s : State) :
  splitscheme w url = inr (sch, url_path) ->
  (String.length url_path <= 4300)%nat ->
  (if String.eqb sch "everything://" && negb (String.eqb url_path "placeholder")
      && rejected_digits url_path
   then Name_get_str w h url s =
          (inl (ValueError "invalid literal for int() with base 10"), s) /\
        Path_get_str w h url s =
          (inl (ValueError "invalid literal for int() with base 10"), s)
   else exists name dir,
          Name_get_str w h url s = (inr name, s) /\
          Path_get_str w h url s = (inr dir, s)) /\
  (sch <> "everything://" \/
   (url_path <> "placeholder" /\
    exists o, (general_index url_path s).1 = inr o /\
              forall n, o = Some n -> (get_item_at_index n s).1 = inr None) ->
   Name_get_str w h url s = (inr (basename h url), s) /\
   Path_get_str w h url s = (inr (dirname h url), s)).
Proof.
  intros Hurl _.
  assert (Hother : sch <> "everything://" \/ url_path = "placeholder" ->
            exists name dir,
              Name_get_str w h url s = (inr name, s) /\
              Path_get_str w h url s = (inr dir, s)).
  { intros Hcase. unfold Name_get_str, Path_get_str.
    unfold mbind at 1 5, M_bind, bind, lift_sum. rewrite Hurl.
    destruct (String.eqb_spec sch "everything://") as [->|Hsch]; [|by eauto].
    destruct Hcase as [?| ->]; [done|]. rewrite String.eqb_refl. by eauto. }
  split.
  - destruct (String.eqb_spec sch "everything://") as [->|Hsch]; cbn [andb];
      [|by apply Hother; left].
    destruct (String.eqb_spec url_path "placeholder") as [->|Hph]; cbn [andb negb];
      [by apply Hother; right|].
    pose proof (general_index_cases url_path s) as Hg.
    destruct (rejected_digits url_path).
    + exact (Name_Path_get_str_raise w h url url_path _ s Hurl Hph Hg).
    + destruct Hg as (o & Hg & _).
      rewrite (Name_get_str_cases w h url _ _ _ s Hurl Hg).
      rewrite (Path_get_str_cases w h url _ _ _ s Hurl Hg). eauto.
  - intros [Hsch | [Hph (o & Hg & Hnone)]].
    + unfold Name_get_str, Path_get_str.
      unfold mbind at 1 5, M_bind, bind, lift_sum. rewrite Hurl.
      by destruct (String.eqb_spec sch "everything://").
    + assert (Hg' : general_index url_path s = (inr o, s)).
      { pose proof (general_index_state url_path s) as Hst.
        destruct (general_index url_path s) as [r s0]. cbn in *. congruence. }
      rewrite (Name_get_str_cases w h url _ _ _ s Hurl Hg').
      rewrite (Path_get_str_cases w h url _ _ _ s Hurl Hg').
      destruct (String.eqb sch "everything://"); [|done].
      destruct (String.eqb_spec url_path "placeholder"); [done|].
      destruct o as [k|]; [|done].
      by rewrite (Hnone k eq_refl).
Qed.

Lemma columns_raise_on_rejected_digits_only_witness :
  let w := Sample.world "api" None Sample.server_down in
  let h := mkHost Sample.basename Sample.dirname in
  let url := "everything:///abc/" +:+ superscript_two in
  (Name_get_str w h url Sample.state_abc =
     (inl (ValueError "invalid literal for int() with base 10"), Sample.state_abc) /\
   Path_get_str w h url Sample.state_abc =
     (inl (ValueError "invalid literal for int() with base 10"), Sample.state_abc)) /\
  (Name_get_str w h "everything:///abc//7" Sample.state_abc
     = (inr "7", Sample.state_abc) /\
   Path_get_str w h "everything:///abc//7" Sample.state_abc
     = (inr "everything:///abc/", Sample.state_abc)).
Proof.
  intros w h url. split.
  - destruct (columns_raise_on_rejected_digits_only w h url "everything://"
                ("/abc/" +:+ superscript_two) Sample.state_abc eq_refl) as [H _].
    + vm_compute. lia.
    + exact H.
  - destruct (columns_raise_on_rejected_digits_only w h "everything:///abc//7"
                "everything://" "/abc//7" Sample.state_abc eq_refl) as [_ H].
    { simpl. lia. }
    apply H. right. split; [discriminate|].
    exists (Some 7). split; [reflexivity|]. intros n [= <-]. reflexivity.
Defined.

(** ** The column Size *)

Lemma round_half_even_bound (num den : Z) :
  0 < den -> 2 * Z.abs (num - Float.round_half_even num den * den) <= den.
Proof.
  intros Hden. unfold Float.round_half_even.
  pose proof (Z.div_mod num den ltac:(lia)) as Hdm.
  pose proof (Z.mod_pos_bound num den Hden) as Hm.
  destruct (Z.ltb_spec (2 * (num mod den)) den); [nia|].
  destruct (Z.ltb_spec den (2 * (num mod den))); [nia|].
  destruct (Z.even (num / den)); nia.
Qed.

Lemma nearest_double_exact (n : Z) : 0 < n < 2 ^ 53 -> Float.nearest_double n = n.
Proof.
  intros Hn. unfold Float.nearest_double.
  assert (Z.log2 n < 53) by (apply Z.log2_lt_pow2; lia).
  by destruct (Z.leb_spec (Z.log2 n - 52) 0); [|lia].
Qed.

Lemma format_1f_exact (n k : Z) :
  0 < n < 2 ^ 53 -> 0 <= k ->
  Float.format_1f n k =
    Some (let tenths := Float.round_half_even (10 * n) (2 ^ k) in
          PyStr.str (tenths / 10) +:+ "." +:+ PyStr.str (tenths mod 10)).
Proof.
  intros Hn Hk. unfold Float.format_1f. rewrite nearest_double_exact by done.
  assert (2 ^ 53 <= 2 ^ (1024 + k)) by (apply Z.pow_le_mono_r; lia).
  by destruct (Z.leb_spec (2 ^ (1024 + k)) n); [lia|].
Qed.

(** What the column Size shows for an entry with a size. *)
Lemma Size_get_str_entry (w : World) (url url_path : string) (index : Z) (item : Item)
    (n : Z) (s : State) :
  splitscheme w url = inr ("everything://", url_path) ->
  url_path <> "placeholder" ->
  shortcut_index url_path s = (inr (Some index), s) ->
  get_item_at_index index s = (inr (Some item), s) ->
  size item = Some n ->
  Size_get_str w url s =
    match (format_size n s).1 with
    | inr text => (inr text, s)
    | inl e => (inl e, s)
    end.
Proof.
  intros Hurl Hph Hidx Hitem Hsize. unfold Size_get_str.
  unfold mbind at 1, M_bind, bind, lift_sum. rewrite Hurl, String.eqb_refl.
  destruct (String.eqb_spec url_path "placeholder"); [done|].
  unfold mbind at 1, M_bind, bind. rewrite Hidx.
  unfold mbind at 1, M_bind, bind, try_except.
  unfold mbind at 1, M_bind, bind. rewrite Hitem, Hsize.
  unfold format_size.
  destruct (n <? 1024); [done|].
  destruct (n <? 1024 * 1024); [|destruct (n <? 1024 * 1024 * 1024)]; run;
    by destruct (Float.format_1f n _).
Qed.

(** X7.  For an entry whose size is below [2 ** 53] the column Size never
    raises.  Below 1024 it shows the size itself followed by [B].  From
    1024 on it shows a number with one decimal followed by [KB], [MB] or
    [GB], the unit being 1024, 1024 squared or 1024 cubed according to
    which of these thresholds the size has reached, and the number shown is
    the size in that unit to within half a tenth. *)
Theorem size_column_rounds_to_a_tenth
    (w : World) (url url_path : string) (index : Z) (item : Item) (n : Z) (s : State) :
  splitscheme w url = inr ("everything://", url_path) ->
  url_path <> "placeholder" ->
  shortcut_index url_path s = (inr (Some index), s) ->
  get_item_at_index index s = (inr (Some item), s) ->
  size item = Some n ->
  n < 2 ^ 53 ->
  exists text,
    Size_get_str w url s = (inr text, s) /\
    (n < 1024 -> text = PyStr.str n +:+ " B") /\
    (1024 <= n ->
     exists tenths,
       let '(k, unit) :=
         if n <? 1024 * 1024 then (10, " KB")
         else if n <? 1024 * 1024 * 1024 then (20, " MB")
         else (30, " GB") in
       text = PyStr.str (tenths / 10) +:+ "." +:+ PyStr.str (tenths mod 10) +:+ unit /\
       2 * Z.abs (10 * n - tenths * 2 ^ k) <= 2 ^ k).
Proof.
  intros Hurl Hph Hidx Hitem Hsize Hn.
  rewrite (Size_get_str_entry w url url_path index item n s) by done.
  unfold format_size.
  destruct (Z.ltb_spec n 1024) as [Hs|Hs].
  { eexists; split; [reflexivity|]. split; [done | lia]. }
  assert (Hf : forall k, 0 <= k ->
            Float.format_1f n k =
              Some (PyStr.str (Float.round_half_even (10 * n) (2 ^ k) / 10) +:+ "."
                    +:+ PyStr.str (Float.round_half_even (10 * n) (2 ^ k) mod 10))).
  { intros k Hk. by rewrite format_1f_exact by lia. }
  assert (Hb : forall k, 0 <= k ->
            2 * Z.abs (10 * n - Float.round_half_even (10 * n) (2 ^ k) * 2 ^ k) <= 2 ^ k).
  { intros k Hk. apply round_half_even_bound. by apply Z.pow_pos_nonneg. }
  destruct (n <? 1024 * 1024); [|destruct (n <? 1024 * 1024 * 1024)]; run;
    rewrite Hf by lia; cbn [fst];
    (eexists; split; [reflexivity|]; split; [lia|]; intros _;
     eexists; split; [|apply Hb; lia]; by rewrite !append_assoc).
Qed.

Lemma size_column_rounds_to_a_tenth_witness :
  let w := Sample.world "api" None Sample.server_down in
  exists text,
    Size_get_str w "everything:///abc//1" Sample.state_abc = (inr text, Sample.state_abc) /\
    (512 < 1024 -> text = PyStr.str 512 +:+ " B") /\
    (1024 <= 512 ->
     exists tenths,
       let '(k, unit) :=
         if 512 <? 1024 * 1024 then (10, " KB")
         else if 512 <? 1024 * 1024 * 1024 then (20, " MB")
         else (30, " GB") in
       text = PyStr.str (tenths / 10) +:+ "." +:+ PyStr.str (tenths mod 10) +:+ unit /\
       2 * Z.abs (10 * 512 - tenths * 2 ^ k) <= 2 ^ k).
Proof.
  intros w.
  apply (size_column_rounds_to_a_tenth w "everything:///abc//1" "/abc//1" 1
           (Sample.item "C:/docs/a.txt" (Some "2024-03-05T12:30:00Z")) 512
           Sample.state_abc);
    [reflexivity | discriminate | reflexivity | reflexivity | reflexivity | lia].
Defined.

Example format_size_ex :
  (format_size 512 initial_state).1 = inr "512 B" /\
  (format_size 2048 initial_state).1 = inr "2.0 KB" /\
  (format_size (5 * 1024 * 1024) initial_state).1 = inr "5.0 MB" /\
  (format_size (3 * 1024 * 1024 * 1024) initial_state).1 = inr "3.0 GB" /\
  (format_size 1280 initial_state).1 = inr "1.2 KB" /\
  (format_size 1048575 initial_state).1 = inr "1024.0 KB" /\
  (format_size (2 ^ 64 - 1) initial_state).1 = inr "17179869184.0 GB".
Proof. repeat split; vm_compute; reflexivity. Qed.

(** ** What a listing does to the cache *)

(** [update_search] changes the cache at the search term it is given at
    most, there only when it had no results, and then only for a search
    term of three characters or more. *)
Lemma update_search_cache (w : World) (q : string) (s : State) :
  (forall q', q' <> q ->
     _results_cache (update_search w q s).2 !! q' = _results_cache s !! q') /\
  (forall v, _results_cache s !! q = Some v ->
     _results_cache (update_search w q s).2 !! q = Some v) /\
  (_results_cache s !! q = None ->
   forall v, _results_cache (update_search w q s).2 !! q = Some v ->
     (3 <= String.length q)%nat).
Proof.
  destruct (Nat.ltb_spec (String.length q) 3) as [Hlen|Hlen].
  { rewrite update_search_short by done. cbn [snd]. simpl.
    repeat split; try done. intros ->. done. }
  destruct (_results_cache s !! q) as [v0|] eqn:Hc.
  { rewrite update_search_hit by (rewrite ?Hc; eauto). cbn [snd]. simpl.
    repeat split; try done. by intros v <-. }
  pose proof (search_everything_frame w q (set_current_search_term q s)) as (_ & Hcache & _).
  destruct (search_everything w q (set_current_search_term q s))
    as [[e|[count results]] s1] eqn:Hs; cbn [snd] in Hcache.
  - rewrite (update_search_miss_fail w q s e s1) by done. cbn [snd].
    rewrite Hcache. simpl. by repeat split.
  - rewrite (update_search_miss_ok w q s count results s1) by done. cbn [snd].
    simpl. rewrite Hcache. simpl. repeat split; try done.
    intros q' Hne. by rewrite lookup_insert_ne.
Qed.

(** What [iterdir] does to the state, through [update_search] or not. *)
Lemma iterdir_state (w : World) (url_path : string) (s : State) :
  (iterdir w url_path s).2 =
    match decoded_query w url_path with
    | Some q => (update_search w q s).2
    | None => s
    end.
Proof.
  destruct (decoded_query w url_path) as [q|] eqn:Hq.
  - by rewrite (iterdir_query w url_path q s Hq).
  - destruct (decoded_query_none w url_path Hq) as (H1 & H2 & H3).
    by rewrite (iterdir_item w url_path s H1 H2 H3).
Qed.

(** X8.  A listing never evicts or replaces cached results: whatever was
    cached for a search term before [iterdir] is cached for it afterwards.
    The only search term whose cache entry a listing can change is the one
    that is current when it ends. *)
Theorem iterdir_keeps_cached_results (w : World) (url_path : string) (s : State) :
  let s' := (iterdir w url_path s).2 in
  (forall q v, _results_cache s !! q = Some v -> _results_cache s' !! q = Some v) /\
  (forall q, q <> _current_search_term s' ->
     _results_cache s' !! q = _results_cache s !! q).
Proof.
  intros s'. subst s'. rewrite iterdir_state.
  destruct (decoded_query w url_path) as [q|]; [|done].
  destruct (update_search_cache w q s) as (Hother & Hkeep & _).
  destruct (update_search_returns w q s) as [_ Hcur].
  split.
  - intros q' v Hv. destruct (decide (q' = q)) as [->|Hne]; [by apply Hkeep|].
    by rewrite Hother.
  - intros q' Hne. rewrite Hcur in Hne. by apply Hother.
Qed.


(** A listing that decodes an uncached search term of three characters or
    more and whose search succeeds. *)
Lemma iterdir_miss_ok (w : World) (url_path q : string) (s : State)
    (count : Z) (results : list Item) (s1 : State) :
  decoded_query w url_path = Some q ->
  (3 <= String.length q)%nat ->
  _results_cache s !! q = None ->
  search_everything w q (set_current_search_term q s) = (inr (count, results), s1) ->
  iterdir w url_path s =
    (inr (entries (take 100 results)),
     set_results_cache (<[q := (count, take 100 results)]> (_results_cache s1)) s1).
Proof.
  intros Hq Hlen Hmiss Hsearch.
  pose proof (search_everything_frame w q (set_current_search_term q s)) as (Hcur & _).
  rewrite Hsearch in Hcur. cbn [snd] in Hcur. simpl in Hcur.
  rewrite (iterdir_query w url_path q s Hq).
  rewrite (update_search_miss_ok w q s count results s1) by done. cbn [snd].
  f_equal. f_equal. unfold current_listing. simpl. rewrite Hcur.
  destruct (Nat.ltb_spec (String.length q) 3); [lia|].
  by rewrite lookup_insert_eq.
Qed.

(** A listing that decodes an uncached search term of three characters or
    more and whose search fails. *)
Lemma iterdir_miss_fail (w : World) (url_path q : string) (s : State) (e : exn)
    (s1 : State) :
  decoded_query w url_path = Some q ->
  (3 <= String.length q)%nat ->
  _results_cache s !! q = None ->
  search_everything w q (set_current_search_term q s) = (inl e, s1) ->
  iterdir w url_path s = (inr ["placeholder"], s1) /\
  _results_cache s1 !! q = None /\
  _current_search_term s1 = q /\
  (length (backend_calls s) < length (backend_calls s1))%nat.
Proof.
  intros Hq Hlen Hmiss Hsearch.
  pose proof (search_everything_frame w q (set_current_search_term q s)) as (Hcur & Hcache & _).
  destruct (search_everything_calls w q (set_current_search_term q s)) as (cs & Hs1 & Hcs & _).
  rewrite Hsearch in Hcur, Hcache, Hs1. cbn [snd] in *. simpl in Hcur, Hcache.
  rewrite (iterdir_query w url_path q s Hq).
  rewrite (update_search_miss_fail w q s e s1) by done. cbn [snd].
  assert (Hnone : _results_cache s1 !! q = None) by (by rewrite Hcache).
  repeat split; try done.
  - f_equal. unfold current_listing. rewrite Hcur, Hnone.
    by destruct (_ <? 3)%nat.
  - rewrite Hs1. simpl. rewrite length_app. lia.
Qed.

(** X9.  A failed search leaves the query to be tried again.  When the
    search a listing starts for an uncached search term fails, the listing
    yields the placeholder and nothing is cached for the term; the next
    listing of the same path then asks a backend again, and when that
    search succeeds it caches and lists the results as a first listing
    would. *)
Theorem failed_search_is_retried
    (w : World) (url_path q : string) (s : State) (e : exn) :
  decoded_query w url_path = Some q ->
  (3 <= String.length q)%nat ->
  _results_cache s !! q = None ->
  (search_everything w q (set_current_search_term q s)).1 = inl e ->
  let s1 := (iterdir w url_path s).2 in
  (iterdir w url_path s).1 = inr ["placeholder"] /\
  _results_cache s1 !! q = None /\
  (length (backend_calls s1) < length (backend_calls (iterdir w url_path s1).2))%nat /\
  (forall count results s2,
     search_everything w q s1 = (inr (count, results), s2) ->
     (iterdir w url_path s1).1 = inr (entries (take 100 results)) /\
     _results_cache (iterdir w url_path s1).2 !! q = Some (count, take 100 results)).
Proof.
  intros Hq Hlen Hmiss Hfail s1.
  destruct (search_everything w q (set_current_search_term q s)) as [r s1'] eqn:Hs.
  cbn [fst] in Hfail. subst r.
  destruct (iterdir_miss_fail w url_path q s e s1' Hq Hlen Hmiss Hs)
    as (Hit & Hnone & Hcur & Hcalls).
  subst s1. rewrite Hit. cbn [fst snd].
  assert (Hsame : set_current_search_term q s1' = s1').
  { rewrite <- Hcur. apply set_current_search_term_same. }
  split; [done|]. split; [done|]. split.
  - destruct (search_everything w q (set_current_search_term q s1'))
      as [[e2|[count results]] s2] eqn:Hs2.
    + destruct (iterdir_miss_fail w url_path q s1' e2 s2 Hq Hlen Hnone Hs2)
        as (-> & _ & _ & H). done.
    + rewrite (iterdir_miss_ok w url_path q s1' count results s2) by done.
      destruct (search_everything_calls w q (set_current_search_term q s1'))
        as (cs & Hcs1 & Hcs & _).
      rewrite Hs2 in Hcs1. cbn [snd] in *. subst s2. simpl.
      rewrite length_app. lia.
  - intros count results s2 Hs2. rewrite <- Hsame in Hs2.
    rewrite (iterdir_miss_ok w url_path q s1' count results s2) by done.
    cbn [fst snd]. simpl. by rewrite lookup_insert_eq.
Qed.

Lemma failed_search_is_retried_witness :
  let server := fun (n : nat) (_ : string) =>
                  if (n =? 0)%nat then URLError "timed out"
                  else HttpJson (Some 5) (Some Sample.five_results) in
  let w := Sample.world "api" None server in
  let s1 := (iterdir w "/abc" initial_state).2 in
  (iterdir w "/abc" initial_state).1 = inr ["placeholder"] /\
  _results_cache s1 !! "abc" = None /\
  (length (backend_calls s1) < length (backend_calls (iterdir w "/abc" s1).2))%nat /\
  (forall count results s2,
     search_everything w "abc" s1 = (inr (count, results), s2) ->
     (iterdir w "/abc" s1).1 = inr (entries (take 100 results)) /\
     _results_cache (iterdir w "/abc" s1).2 !! "abc" = Some (count, take 100 results)).
Proof.
  intros server w.
  apply (failed_search_is_retried w "/abc" "abc" initial_state
           (Exception ("Error connecting to Everything API: timed out" +:+ newline
                       +:+ "Make sure the API server is running"))).
  - reflexivity.
  - simpl. lia.
  - reflexivity.
  - reflexivity.
Defined.

(** ** What only a listing does *)

Lemma same_search_state_refl (s : State) : same_search_state s s.
Proof. by repeat split. Qed.

Lemma resolve_state (w : World) (url_path : string) (s : State) :
  (exists u, resolve w url_path s = (inr u, s)) /\
  (exists b, is_dir w url_path s = (inr b, s)).
Proof.
  unfold resolve, is_dir.
  destruct (String.eqb url_path "placeholder"); [by eauto|].
  destruct (PyStr.contains "/" url_path) eqn:Hslash.
  - assert (He : exists found, indexed_entry_path url_path s = (inr found, s)).
    { destruct (contains_rsplit1 _ _ Hslash) as (base & seg & Hsplit).
      unfold indexed_entry_path; run. rewrite Hsplit. simpl.
      destruct (PyStr.int seg) as [n|]; simpl; [|by eauto].
      destruct (_results_cache s !! _current_search_term s) as [[c r]|]; [|by eauto].
      destruct (Z.leb_spec 0 n); simpl; [|by eauto].
      destruct (Z.ltb_spec n (Z.of_nat (length r))); simpl; [|by eauto].
      destruct (py_getitem_in_range r n s) as (x & _ & ->); [lia|].
      destruct (path x); simpl; by eauto. }
    destruct He as [found He]. run. rewrite He. destruct found; by eauto.
  - run. by eauto.
Qed.

Lemma DateModified_get_str_state (w : World) (url : string) (s : State) :
  (DateModified_get_str w url s).2 = s.
Proof.
  unfold DateModified_get_str.
  unfold mbind at 1, M_bind, bind, lift_sum.
  destruct (splitscheme w url) as [e|[sch p]]; [done|].
  destruct (String.eqb sch "everything://"); [|done].
  destruct (String.eqb p "placeholder"); [done|].
  unfold mbind at 1, M_bind, bind. rewrite shortcut_index_general.
  pose proof (general_index_cases p s) as Hg.
  destruct (rejected_digits p); [by rewrite Hg|].
  destruct Hg as ([n|] & -> & _); [|done].
  unfold mbind at 1, M_bind, bind, try_except.
  unfold mbind at 1, M_bind, bind.
  destruct (get_item_at_index_returns n s) as [[item|] ->]; [|done].
  destruct (date_modified item) as [raw|]; [|done].
  unfold mbind at 1, M_bind, bind.
  destruct raw as [raw|].
  - by rewrite format_date_modified_string.
  - reflexivity.
Qed.

Lemma format_size_state (n : Z) (s : State) : (format_size n s).2 = s.
Proof.
  unfold format_size.
  destruct (n <? 1024); [done|].
  destruct (n <? 1024 * 1024); [|destruct (n <? 1024 * 1024 * 1024)]; run;
    by destruct (Float.format_1f n _).
Qed.

Lemma Size_get_str_state (w : World) (url : string) (s : State) :
  (Size_get_str w url s).2 = s.
Proof.
  unfold Size_get_str.
  unfold mbind at 1, M_bind, bind, lift_sum.
  destruct (splitscheme w url) as [e|[sch p]]; [done|].
  destruct (String.eqb sch "everything://"); [|done].
  destruct (String.eqb p "placeholder"); [done|].
  unfold mbind at 1, M_bind, bind. rewrite shortcut_index_general.
  pose proof (general_index_cases p s) as Hg.
  destruct (rejected_digits p); [by rewrite Hg|].
  destruct Hg as ([n|] & -> & _); [|done].
  unfold mbind at 1, M_bind, bind, try_except.
  unfold mbind at 1, M_bind, bind.
  destruct (get_item_at_index_returns n s) as [[item|] ->]; [|done].
  destruct (size item) as [sz|]; [|done].
  unfold mbind at 1, M_bind, bind.
  pose proof (format_size_state sz s) as Hf.
  destruct (format_size sz s) as [[e|t] s']; cbn [snd] in Hf; subst s'; [|done].
  by destruct (value_index_key e).
Qed.

Lemma Name_Path_get_str_state (w : World) (h : Host) (url : string) (s : State) :
  (Name_get_str w h url s).2 = s /\ (Path_get_str w h url s).2 = s.
Proof.
  destruct (splitscheme w url) as [e|[sch p]] eqn:Hurl.
  - unfold Name_get_str, Path_get_str.
    unfold mbind at 1 3, M_bind, bind, lift_sum. by rewrite Hurl.
  - pose proof (general_index_cases p s) as Hg.
    destruct (rejected_digits p).
    + unfold Name_get_str, Path_get_str.
      unfold mbind at 1 5, M_bind, bind, lift_sum. rewrite Hurl.
      destruct (String.eqb sch "everything://"); [|done].
      destruct (String.eqb p "placeholder"); [done|].
      unfold mbind at 1 4, M_bind, bind. by rewrite Hg.
    + destruct Hg as (o & Hg & _).
      by rewrite (Name_get_str_cases w h url sch p o s),
                 (Path_get_str_cases w h url sch p o s).
Qed.

(** ** The listener and the command *)

(** What a double click does.  On a URL of the scheme, other than the
    placeholder, whose index [int] rejects, it raises and has done nothing;
    on every other URL it returns after at most one request to the host. *)
Lemma on_doubleclicked_effect (w : World) (url sch url_path : string) (s : State) :
  splitscheme w url = inr (sch, url_path) ->
  if String.eqb sch "everything://" && negb (String.eqb url_path "placeholder")
     && rejected_digits url_path
  then on_doubleclicked w url s =
         (inl (ValueError "invalid literal for int() with base 10"), s)
  else
    exists r acts,
      on_doubleclicked w url s =
        (inr r, mkState (_current_search_term s) (_results_cache s)
                        (_last_selected_file s) (_last_selected_index s) (file_path s)
                        (backend_calls s) (host_actions s ++ acts)) /\
      (length acts <= 1)%nat /\
      (r = None \/ r = Some true) /\
      (sch = "everything://" -> url_path <> "placeholder" ->
       (exists n, (general_index url_path s).1 = inr (Some n)) -> r = Some true).
Proof.
  intros Hurl.
  assert (Hrun : on_doubleclicked w url s =
            (if negb (String.eqb sch "everything://") then ret None
             else if String.eqb url_path "placeholder" then ret None
             else
               index ← shortcut_index url_path;
               match index with
               | None => ret None
               | Some index =>
                   returned ←
                     try_except
                       (item ← get_item_at_index index;
                        match item with
                        | Some item =>
                            match path item with
                            | Some file_path =>
                                if os_path_isdir w file_path then
                                  modify (log_host (SetPath (as_url w file_path)));;
                                  ret None
                                else
                                  modify (log_host (RunCommand "open" (as_url w file_path)));;
                                  ret (Some true)
                            | None => ret None
                            end
                        | None => ret None
                        end)
                       value_index_key
                       (fun _ => ret None);
                   match returned with
                   | Some r => ret (Some r)
                   | None =>
                       if String.eqb sch "everything://" then ret (Some true) else ret None
                   end
               end) s).
  { unfold on_doubleclicked. unfold mbind at 1, M_bind, bind, lift_sum. by rewrite Hurl. }
  rewrite Hrun. clear Hrun.
  assert (Hsame : mkState (_current_search_term s) (_results_cache s)
                    (_last_selected_file s) (_last_selected_index s) (file_path s)
                    (backend_calls s) (host_actions s ++ []) = s).
  { destruct s; simpl. by rewrite app_nil_r. }
  destruct (String.eqb_spec sch "everything://") as [->|Hsch]; cbn [negb andb].
  2:{ exists None, []. rewrite Hsame. repeat split; auto. done. }
  destruct (String.eqb_spec url_path "placeholder") as [->|Hph]; cbn [negb andb].
  { exists None, []. rewrite Hsame. repeat split; auto. done. }
  pose proof (general_index_cases url_path s) as Hg.
  destruct (rejected_digits url_path).
  { unfold mbind at 1, M_bind, bind. by rewrite shortcut_index_general, Hg. }
  unfold mbind at 1, M_bind, bind. rewrite shortcut_index_general.
  destruct Hg as ([n|] & Hg & _); rewrite Hg.
  2:{ exists None, []. rewrite Hsame. repeat split; auto.
      intros _ _ [k Hk]. done. }
  unfold mbind at 1, M_bind, bind, try_except.
  unfold mbind at 1, M_bind, bind.
  destruct (get_item_at_index_returns n s) as [[item|] ->].
  2:{ exists (Some true), []. rewrite Hsame. by repeat split; auto. }
  destruct (path item) as [fp|].
  2:{ exists (Some true), []. rewrite Hsame. by repeat split; auto. }
  destruct (os_path_isdir w fp).
  - exists (Some true), [SetPath (as_url w fp)]. run. by repeat split; auto.
  - exists (Some true), [RunCommand "open" (as_url w fp)]. run. by repeat split; auto.
Qed.

(** A double click changes the requests to the host only, whether it
    returns or raises. *)
Lemma on_doubleclicked_state (w : World) (url : string) (s : State) :
  exists acts,
    (on_doubleclicked w url s).2 =
      mkState (_current_search_term s) (_results_cache s)
              (_last_selected_file s) (_last_selected_index s) (file_path s)
              (backend_calls s) (host_actions s ++ acts).
Proof.
  assert (Hsame : mkState (_current_search_term s) (_results_cache s)
                    (_last_selected_file s) (_last_selected_index s) (file_path s)
                    (backend_calls s) (host_actions s ++ []) = s).
  { destruct s; simpl. by rewrite app_nil_r. }
  destruct (splitscheme w url) as [e|[sch p]] eqn:Hurl.
  - exists []. unfold on_doubleclicked. unfold mbind at 1, M_bind, bind, lift_sum.
    by rewrite Hurl, Hsame.
  - pose proof (on_doubleclicked_effect w url sch p s Hurl) as H.
    destruct (_ && _).
    + exists []. by rewrite H, Hsame.
    + destruct H as (r & acts & -> & _). by exists acts.
Qed.

Lemma on_command_other (w : World) (command_name : string) (args_url : option string)
    (s : State) :
  command_name <> "open_file" ->
  on_command w command_name args_url s = (inr ReturnNone, s).
Proof.
  intros Hname. unfold on_command.
  by destruct (String.eqb_spec command_name "open_file").
Qed.

(** What [on_command] changes: the host log, the listener's [file_path]
    and the selection, the index of which is never negative. *)
Lemma on_command_effect (w : World) (command_name : string) (args_url : option string)
    (s : State) :
  let s' := (on_command w command_name args_url s).2 in
  same_search_state s s' /\
  (0 <= _last_selected_index s -> 0 <= _last_selected_index s').
Proof.
  intros s'. subst s'.
  set (r := on_command w command_name args_url s).
  assert (Hr : r = on_command w command_name args_url s) by done.
  clearbody r. unfold on_command in Hr.
  assert (Hnone : forall x, r = (x, s) ->
            same_search_state s r.2 /\
            (0 <= _last_selected_index s -> 0 <= _last_selected_index r.2)).
  { intros x ->. split; [apply same_search_state_refl | done]. }
  destruct (String.eqb command_name "open_file"); [|by eapply Hnone].
  destruct args_url as [url|]; [|by eapply Hnone].
  unfold mbind at 1, M_bind, bind, lift_sum in Hr.
  destruct (splitscheme w url) as [e|[sch p]]; [by eapply Hnone|].
  destruct (String.eqb sch "everything://"); [|by eapply Hnone].
  destruct (String.eqb p "placeholder" || String.eqb p "/placeholder");
    [by eapply Hnone|].
  destruct (PyStr.contains "/" p); [|by eapply Hnone].
  unfold mbind at 1, M_bind, bind, show_alert, modify in Hr.
  destruct (PyStr.last_nonempty (PyStr.split "/" p)) as [t|];
    [|subst r; by repeat split].
  destruct (PyStr.isdigit t) eqn:Hd; [|subst r; by repeat split].
  unfold mbind at 1, M_bind, bind in Hr.
  unfold mbind at 1, M_bind, bind, lift_option, ret, raise in Hr.
  destruct (PyStr.int t) as [n|] eqn:Hint; [|subst r; by repeat split].
  destruct (int_isdigit_decimal t n Hd Hint) as [_ Hn].
  set (s0 := log_host _ (log_host _ s)) in Hr.
  unfold open_file_at in Hr.
  unfold mbind at 1, M_bind, bind, try_except in Hr.
  unfold mbind at 1, M_bind, bind in Hr.
  destruct (get_item_at_index_returns n s0) as [[item|] Hget]; rewrite Hget in Hr;
    [|subst r; by repeat split].
  destruct (path item) as [fp|]; [|subst r; by repeat split].
  destruct (os_path_isdir w fp); run; subst r; by repeat split.
Qed.

Lemma on_path_changed_effect (w : World) (current_path : string) (s : State) :
  exists acts,
    (on_path_changed w current_path s).2 =
      mkState (_current_search_term s) (_results_cache s)
              (_last_selected_file s) (_last_selected_index s) (file_path s)
              (backend_calls s) (host_actions s ++ acts).
Proof.
  assert (Hsame : mkState (_current_search_term s) (_results_cache s)
                    (_last_selected_file s) (_last_selected_index s) (file_path s)
                    (backend_calls s) (host_actions s ++ []) = s).
  { destruct s; simpl. by rewrite app_nil_r. }
  unfold on_path_changed.
  unfold mbind at 1, M_bind, bind, lift_sum.
  destruct (splitscheme w current_path) as [e|[sch p]]; [by exists []|].
  destruct (String.eqb sch "everything://"); [|by exists []].
  run. destruct (_last_selected_file s) as [f|] eqn:E; [|by exists []].
  destruct (String.eqb f EmptyString); [by exists []|].
  eexists [_]. unfold log_host. cbn [snd]. by rewrite E.
Qed.

Lemma Everything_call_effect (w : World) (search_term : string) (ok : bool) (s : State) :
  Everything_call w search_term ok s =
    (inr tt,
     if ok && (3 <=? String.length search_term)%nat
     then log_host (SetPath ("everything:///" +:+ quote w search_term)) s
     else s).
Proof.
  unfold Everything_call. destruct ok; [|done]. cbn [negb andb].
  destruct (Nat.ltb_spec (String.length search_term) 3);
    destruct (Nat.leb_spec 3 (String.length search_term)); try lia; done.
Qed.

(** A call other than a listing leaves the search state as it is and keeps
    a selected index that is not negative so. *)
Lemma after_other_call (w : World) (h : Host) (c : Call) (s : State) :
  (forall p, c <> call_iterdir p) ->
  same_search_state s (after w h c s) /\
  (0 <= _last_selected_index s -> 0 <= _last_selected_index (after w h c s)).
Proof.
  intros Hc. destruct c; cbn [after].
  - by destruct (Hc url_path).
  - destruct (resolve_state w url_path s) as [[u ->] _].
    split; [apply same_search_state_refl | done].
  - destruct (resolve_state w url_path s) as [_ [b ->]].
    split; [apply same_search_state_refl | done].
  - rewrite get_item_at_index_state. split; [apply same_search_state_refl | done].
  - destruct (Name_Path_get_str_state w h url s) as [-> _].
    split; [apply same_search_state_refl | done].
  - destruct (Name_Path_get_str_state w h url s) as [_ ->].
    split; [apply same_search_state_refl | done].
  - rewrite Size_get_str_state. split; [apply same_search_state_refl | done].
  - rewrite DateModified_get_str_state. split; [apply same_search_state_refl | done].
  - rewrite Everything_call_effect. cbn [snd].
    by destruct (ok && _); split.
  - destruct (on_doubleclicked_state w url s) as [acts ->]. by split.
  - destruct (on_command_effect w command_name args_url s) as (H1 & H2). by split.
  - destruct (on_path_changed_effect w current_path s) as [acts ->]. by split.
Qed.

(** X10.  Only a listing searches.  Every other call of the host, that is
    [resolve], [is_dir], [get_item_at_index], the four columns, the command
    Everything and the three handlers of the listener, leaves the current
    search term, the cache and the log of backend calls exactly as they
    were, whether it returns or raises. *)
Theorem only_iterdir_searches (w : World) (h : Host) (c : Call) (s : State) :
  (forall p, c <> call_iterdir p) ->
  same_search_state s (after w h c s).
Proof. intros Hc. by destruct (after_other_call w h c s Hc). Qed.

Lemma only_iterdir_searches_witness :
  let w := Sample.world "dll" (Some Sample.dll_without_ipc) Sample.server_down in
  let h := mkHost Sample.basename Sample.dirname in
  same_search_state Sample.state_abc
    (after w h (call_on_command "open_file" (Some "everything:///abc//1")) Sample.state_abc).
Proof.
  intros w h.
  apply (only_iterdir_searches w h
           (call_on_command "open_file" (Some "everything:///abc//1")) Sample.state_abc).
  intros p. discriminate.
Defined.

(** ** Sessions *)

(** The shape of the state [update_search] leaves: backend calls are added
    only for a search term of three characters or more without cached
    results, and all of them carry that search term. *)
Lemma update_search_shape (w : World) (q : string) (s : State) :
  exists cs cache',
    (update_search w q s).2 =
      mkState q cache' (_last_selected_file s) (_last_selected_index s) (file_path s)
              (backend_calls s ++ cs) (host_actions s) /\
    Forall (fun c => call_query c = q) cs /\
    (cs <> [] -> (3 <= String.length q)%nat /\ _results_cache s !! q = None).
Proof.
  destruct (Nat.ltb_spec (String.length q) 3) as [Hlen|Hlen].
  { rewrite update_search_short by done. exists [], (_results_cache s).
    cbn [snd]. unfold set_current_search_term. rewrite app_nil_r. by repeat split. }
  destruct (_results_cache s !! q) as [v0|] eqn:Hc.
  { rewrite update_search_hit by (rewrite ?Hc; eauto). exists [], (_results_cache s).
    cbn [snd]. unfold set_current_search_term. rewrite app_nil_r. by repeat split. }
  destruct (search_everything_calls w q (set_current_search_term q s))
    as (cs & Hs1 & _ & Hall).
  destruct (search_everything w q (set_current_search_term q s))
    as [[e|[count results]] s1] eqn:Hs; cbn [snd] in Hs1; subst s1.
  - rewrite (update_search_miss_fail w q s e _ Hlen Hc Hs). cbn [snd].
    exists cs, (_results_cache s). by repeat split.
  - rewrite (update_search_miss_ok w q s count results _ Hlen Hc Hs). cbn [snd].
    exists cs, (<[q := (count, take 100 results)]> (_results_cache s)).
    by repeat split.
Qed.

Lemma iterdir_session_invariant (w : World) (url_path : string) (s : State) :
  session_invariant s -> session_invariant (iterdir w url_path s).2.
Proof.
  intros [Hkeys Hcap Hcalls Hidx]. split.
  - intros q v. rewrite iterdir_state.
    destruct (decoded_query w url_path) as [q0|]; [|apply Hkeys].
    destruct (update_search_cache w q0 s) as (Hother & _ & Hnew).
    destruct (decide (q = q0)) as [->|Hne].
    + destruct (_results_cache s !! q0) as [v0|] eqn:Hc.
      * intros _. by apply (Hkeys q0 v0).
      * by apply Hnew.
    + rewrite Hother by done. apply Hkeys.
  - by apply iterdir_cache_capped.
  - rewrite iterdir_state.
    destruct (decoded_query w url_path) as [q0|]; [|done].
    destruct (update_search_shape w q0 s) as (cs & cache' & -> & Hall & Hne).
    simpl. apply Forall_app. split; [done|].
    destruct cs as [|c cs]; [done|].
    destruct Hne as [Hlen _]; [done|].
    eapply Forall_impl; [exact Hall|]. by intros c' ->.
  - rewrite iterdir_state.
    destruct (decoded_query w url_path) as [q0|]; [|done].
    by destruct (update_search_shape w q0 s) as (cs & cache' & -> & _).
Qed.

Lemma session_invariant_same (s s' : State) :
  same_search_state s s' ->
  (0 <= _last_selected_index s -> 0 <= _last_selected_index s') ->
  session_invariant s -> session_invariant s'.
Proof.
  intros (Hcur & Hcache & Hcalls) Hidx' [Hkeys Hcap Hlong Hidx]. split.
  - intros q v. rewrite Hcache. apply Hkeys.
  - intros q c r. rewrite Hcache. apply Hcap.
  - by rewrite Hcalls.
  - by apply Hidx'.
Qed.

Lemma after_session_invariant (w : World) (h : Host) (c : Call) (s : State) :
  session_invariant s -> session_invariant (after w h c s).
Proof.
  intros Hinv.
  assert ((exists p, c = call_iterdir p) \/ forall p, c <> call_iterdir p)
    as [[p ->]|Hno] by (destruct c; eauto).
  - by apply iterdir_session_invariant.
  - destruct (after_other_call w h c s Hno) as [Hsame Hidx].
    by apply (session_invariant_same s).
Qed.

(** X11.  In every state of a session, however the host orders its calls
    and whatever the backends answer: only search terms of three characters
    or more have cached results; every cached result list has at most a
    hundred entries; every backend call made so far carried a search term
    of three characters or more; and the selected index is not negative. *)
Theorem session_keeps_invariant (w : World) (h : Host) (s : State) :
  reachable w h s -> session_invariant s.
Proof.
  induction 1 as [|c s _ IH].
  - split; [done | done | constructor | done].
  - by apply after_session_invariant.
Qed.

Lemma session_keeps_invariant_witness :
  let w := Sample.world "dll" (Some Sample.dll_with_unreadable) Sample.server_down in
  let h := mkHost Sample.basename Sample.dirname in
  session_invariant
    (after w h (call_on_command "open_file" (Some "everything:///abc//0"))
       (after w h (call_iterdir "/abc") initial_state)).
Proof.
  intros w h.
  apply (session_keeps_invariant w h).
  apply reachable_after, reachable_after, reachable_initial.
Defined.

(** ** Double click *)

(** X12.  Once [splitscheme] has split the URL, [on_doubleclicked] raises
    on one kind of URL only: a URL of the scheme, other than the
    placeholder, whose last non-empty segment passes [isdigit] and is
    rejected by [int], as the superscript two is.  [int] is called before
    the [try], so its [ValueError] leaves the handler, which has asked
    nothing of the host by then.  On every other URL the handler returns,
    asks at most one thing of the host and changes nothing else in the
    state, the selection included.  It returns [None] or [True]; for a URL
    of the scheme whose path is not the placeholder and carries an index it
    returns [True], so the host's default is suppressed, also when the index
    selects no entry and nothing was asked of the host.  The path is taken to
    have at most 4300 characters, so that no segment is longer than the
    literals every interpreter reads. *)
Theorem on_doubleclicked_asks_at_most_once
    (w : World) (url sch url_path : string) (s : State) :
  splitscheme w url = inr (sch, url_path) ->
  (String.length url_path <= 4300)%nat ->
  if String.eqb sch "everything://" && negb (String.eqb url_path "placeholder")
     && rejected_digits url_path
  then on_doubleclicked w url s =
         (inl (ValueError "invalid literal for int() with base 10"), s)
  else
    exists r acts,
      on_doubleclicked w url s =
        (inr r, mkState (_current_search_term s) (_results_cache s)
                        (_last_selected_file s) (_last_selected_index s) (file_path s)
                        (backend_calls s) (host_actions s ++ acts)) /\
      (length acts <= 1)%nat /\
      (r = None \/ r = Some true) /\
      (sch = "everything://" -> url_path <> "placeholder" ->
       (exists n, (general_index url_path s).1 = inr (Some n)) -> r = Some true).
Proof. intros Hurl _. by apply on_doubleclicked_effect. Qed.

Lemma on_doubleclicked_asks_at_most_once_witness :
  let w := Sample.world "api" None Sample.server_down in
  on_doubleclicked w ("everything:///abc/" +:+ superscript_two) Sample.state_abc =
    (inl (ValueError "invalid literal for int() with base 10"), Sample.state_abc) /\
  exists r acts,
    on_doubleclicked w "everything:///abc//9" Sample.state_abc =
      (inr r, mkState (_current_search_term Sample.state_abc)
                      (_results_cache Sample.state_abc)
                      (_last_selected_file Sample.state_abc)
                      (_last_selected_index Sample.state_abc)
                      (file_path Sample.state_abc)
                      (backend_calls Sample.state_abc)
                      (host_actions Sample.state_abc ++ acts)) /\
    (length acts <= 1)%nat /\
    (r = None \/ r = Some true) /\
    ("everything://" = "everything://" -> "/abc//9" <> "placeholder" ->
     (exists n, (general_index "/abc//9" Sample.state_abc).1 = inr (Some n)) ->
     r = Some true).
Proof.
  intros w. split.
  - apply (on_doubleclicked_asks_at_most_once w ("everything:///abc/" +:+ superscript_two)
             "everything://" ("/abc/" +:+ superscript_two) Sample.state_abc eq_refl).
    vm_compute. lia.
  - apply (on_doubleclicked_asks_at_most_once w "everything:///abc//9" "everything://"
             "/abc//9" Sample.state_abc eq_refl).
    simpl. lia.
Defined.

(** ** Returning to the listing *)

(** What [on_path_changed] asks of the host. *)
Lemma on_path_changed_places_cursor
    (w : World) (current_path url_path f : string) (s : State) :
  splitscheme w current_path = inr ("everything://", url_path) ->
  _last_selected_file s = Some f ->
  f <> EmptyString ->
  on_path_changed w current_path s =
    (inr tt,
     log_host (PlaceCursorAt
                 (scheme +:+ "/" +:+ quote w (_current_search_term s) +:+ "//"
                  +:+ PyStr.str (_last_selected_index s))) s).
Proof.
  intros Hurl Hf Hne. unfold on_path_changed.
  unfold mbind at 1, M_bind, bind, lift_sum. rewrite Hurl, String.eqb_refl.
  run. rewrite Hf. by destruct (String.eqb_spec f EmptyString).
Qed.

Lemma get_item_at_index_found (index : Z) (item : Item) (s : State) :
  get_item_at_index index s = (inr (Some item), s) ->
  (3 <= String.length (_current_search_term s))%nat /\
  0 <= index /\
  exists count results,
    _results_cache s !! _current_search_term s = Some (count, results) /\
    results !! Z.to_nat index = Some item.
Proof.
  rewrite get_item_at_index_lookup.
  destruct (Nat.ltb_spec (String.length (_current_search_term s)) 3); [done|].
  destruct (_results_cache s !! _current_search_term s) as [[c r]|]; [|done].
  destruct (Z.leb_spec 0 index); [|done].
  destruct (index <? Z.of_nat (length r)); [|done]. cbn [andb].
  intros [= Hitem]. eauto 10.
Qed.

(** X13.  Opening a file through the command [open_file] and returning to
    a path of the scheme fit together: [on_path_changed] then places the
    cursor at the URL made of the current search term, quoted, two slashes
    and the recorded index; every decoder reads that index back from the
    path of this URL, and [resolve] maps it to the URL of the file that was
    opened. *)
Theorem cursor_returns_to_opened_file
    (w : World) (url url_path : string) (index : Z) (index_str : string)
    (item : Item) (opened : string) (current_path current_url_path : string) (s : State) :
  splitscheme w url = inr ("everything://", url_path) ->
  url_path <> "placeholder" ->
  url_path <> "/placeholder" ->
  get_item_at_index index s = (inr (Some item), s) ->
  path item = Some opened ->
  os_path_isdir w opened = false ->
  opened <> EmptyString ->
  PyStr.contains "/" url_path = true ->
  PyStr.last_nonempty (PyStr.split "/" url_path) = Some index_str ->
  PyStr.isdigit index_str = true ->
  PyStr.int index_str = Some index ->
  splitscheme w current_path = inr ("everything://", current_url_path) ->
  let s1 := (on_command w "open_file" (Some url) s).2 in
  let cursor_path :=
    "/" +:+ quote w (_current_search_term s) +:+ "//" +:+ PyStr.str index in
  on_path_changed w current_path s1 =
    (inr tt, log_host (PlaceCursorAt (scheme +:+ cursor_path)) s1) /\
  general_index cursor_path s1 = (inr (Some index), s1) /\
  resolve w cursor_path s1 = (inr (as_url w opened), s1).
Proof.
  intros Hurl Hph Hph' Hget Hpath Hdir Hne Hslash Hlast Hdigit Hint Hcur s1 cursor_path.
  assert (Hitem : (get_item_at_index index s).1 = inr (Some item)) by (by rewrite Hget).
  pose proof (on_command_file w url url_path index index_str item opened s
                Hurl Hph Hph' Hitem Hpath Hdir Hslash Hlast Hdigit Hint) as Hcmd.
  cbv zeta in Hcmd.
  destruct (get_item_at_index_found index item s Hget)
    as (Hlen & Hidx & count & results & Hcache & Hres).
  assert (Hs1 : _current_search_term s1 = _current_search_term s /\
                _results_cache s1 = _results_cache s /\
                _last_selected_file s1 = Some opened /\
                _last_selected_index s1 = index).
  { subst s1. rewrite Hcmd. by repeat split. }
  destruct Hs1 as (Hc1 & Hc2 & Hf1 & Hi1).
  split.
  - rewrite (on_path_changed_places_cursor w current_path current_url_path opened s1)
      by done.
    subst cursor_path. by rewrite Hc1, Hi1.
  - assert (Hdec := listed_entry_decoding w s1 count results (Z.to_nat index) item
                      ("/" +:+ quote w (_current_search_term s) +:+ "/")).
    rewrite Hc1, Hc2, Z2Nat.id in Hdec by done.
    destruct (Hdec Hcache Hlen Hres) as (_ & Hg & _ & Hr & _).
    assert (Hp : ("/" +:+ quote w (_current_search_term s) +:+ "/") +:+ "/"
                 +:+ PyStr.str index = cursor_path).
    { subst cursor_path. by rewrite !append_assoc. }
    rewrite Hp in Hg, Hr. split; [done|]. by rewrite Hr, Hpath.
Qed.

Lemma cursor_returns_to_opened_file_witness :
  let w := Sample.world "api" None Sample.server_down in
  let s1 := (on_command w "open_file" (Some "everything:///abc//1") Sample.state_abc).2 in
  let cursor_path :=
    "/" +:+ quote w (_current_search_term Sample.state_abc) +:+ "//" +:+ PyStr.str 1 in
  on_path_changed w "everything:///abc" s1 =
    (inr tt, log_host (PlaceCursorAt (scheme +:+ cursor_path)) s1) /\
  general_index cursor_path s1 = (inr (Some 1), s1) /\
  resolve w cursor_path s1 = (inr (as_url w "C:/docs/a.txt"), s1).
Proof.
  intros w.
  apply (cursor_returns_to_opened_file w "everything:///abc//1" "/abc//1" 1 "1"
           (Sample.item "C:/docs/a.txt" (Some "2024-03-05T12:30:00Z")) "C:/docs/a.txt"
           "everything:///abc" "/abc" Sample.state_abc);
    [reflexivity | discriminate | discriminate | reflexivity | reflexivity | reflexivity
    | discriminate | reflexivity | reflexivity | reflexivity | reflexivity | reflexivity].
Defined.

(** X14.  The selection is not tied to the search term it was made under.
    After a listing that makes another search term current,
    [on_path_changed] still places the cursor, at the recorded index under
    the new search term. *)
Theorem selection_survives_a_new_search
    (w : World) (url_path q current_path current_url_path f : string) (s : State) :
  decoded_query w url_path = Some q ->
  _last_selected_file s = Some f ->
  f <> EmptyString ->
  splitscheme w current_path = inr ("everything://", current_url_path) ->
  let s1 := (iterdir w url_path s).2 in
  on_path_changed w current_path s1 =
    (inr tt,
     log_host (PlaceCursorAt
                 (scheme +:+ "/" +:+ quote w q +:+ "//"
                  +:+ PyStr.str (_last_selected_index s))) s1).
Proof.
  intros Hq Hf Hne Hcur s1.
  assert (Hs1 : _current_search_term s1 = q /\
                _last_selected_file s1 = Some f /\
                _last_selected_index s1 = _last_selected_index s).
  { subst s1. rewrite iterdir_state, Hq.
    by destruct (update_search_shape w q s) as (cs & cache' & -> & _). }
  destruct Hs1 as (Hc & Hf1 & Hi).
  rewrite (on_path_changed_places_cursor w current_path current_url_path f s1) by done.
  by rewrite Hc, Hi.
Qed.

Lemma selection_survives_a_new_search_witness :
  let w := Sample.world "api" None Sample.server_down in
  let s := set_last_selected "C:/docs/a.txt" 1 Sample.state_abc in
  let s1 := (iterdir w "/xyz" s).2 in
  on_path_changed w "everything:///xyz" s1 =
    (inr tt,
     log_host (PlaceCursorAt
                 (scheme +:+ "/" +:+ quote w "xyz" +:+ "//"
                  +:+ PyStr.str (_last_selected_index s))) s1).
Proof.
  intros w s.
  apply (selection_survives_a_new_search w "/xyz" "xyz" "everything:///xyz" "/xyz"
           "C:/docs/a.txt" s);
    [reflexivity | reflexivity | discriminate | reflexivity].
Defined.

(** ** From the command to the listing *)

Lemma decoded_query_slash (w : World) (t : string) :
  PyStr.contains "?" t = false ->
  decoded_query w ("/" +:+ t) =
    if PyStr.isdigit t then None else Some (unquote w t).
Proof.
  intros Hq. unfold decoded_query.
  change ("/" +:+ t) with (String "/" t).
  rewrite contains_cons, Hq.
  replace (Ascii.eqb "/" "?") with false by reflexivity. cbn [orb].
  cbn [PyStr.count PyStr.startswith PyStr.tail].
  rewrite Ascii.eqb_refl. cbn [andb]. done.
Qed.

(** X15.  The command and the listing fit together.  For a search term of
    three characters or more that the user confirms, the command sends the
    pane to the scheme followed by a slash and the quoted term; when
    [unquote] undoes [quote] on the term and the quoted term has no [?] and
    is not all digits, the listing of that path makes the term the current
    search term, and every backend call it adds carries exactly the term
    the user typed. *)
Theorem command_then_listing_searches_the_term
    (w : World) (search_term : string) (s : State) :
  (3 <= String.length search_term)%nat ->
  unquote w (quote w search_term) = search_term ->
  PyStr.contains "?" (quote w search_term) = false ->
  PyStr.isdigit (quote w search_term) = false ->
  let url_path := "/" +:+ quote w search_term in
  let s1 := (Everything_call w search_term true s).2 in
  let s2 := (iterdir w url_path s1).2 in
  Everything_call w search_term true s =
    (inr tt, log_host (SetPath (scheme +:+ url_path)) s) /\
  _current_search_term s2 = search_term /\
  exists cs, backend_calls s2 = (backend_calls s ++ cs)%list /\
             Forall (fun c => call_query c = search_term) cs.
Proof.
  intros Hlen Hround Hq Hd url_path s1 s2.
  assert (Hcall : Everything_call w search_term true s =
                  (inr tt, log_host (SetPath (scheme +:+ url_path)) s)).
  { rewrite Everything_call_effect. cbn [andb].
    by destruct (Nat.leb_spec 3 (String.length search_term)); [|lia]. }
  split; [done|].
  assert (Hdq : decoded_query w url_path = Some search_term).
  { subst url_path. by rewrite decoded_query_slash, Hd, Hround. }
  subst s2. rewrite iterdir_state, Hdq.
  destruct (update_search_shape w search_term s1) as (cs & cache' & -> & Hall & _).
  split; [done|]. exists cs. subst s1. by rewrite Hcall.
Qed.

Lemma command_then_listing_searches_the_term_witness :
  let w := Sample.world "api" None (Sample.server_with 5 Sample.five_results) in
  let url_path := "/" +:+ quote w "a b?c" in
  let s1 := (Everything_call w "a b?c" true initial_state).2 in
  let s2 := (iterdir w url_path s1).2 in
  Everything_call w "a b?c" true initial_state =
    (inr tt, log_host (SetPath (scheme +:+ url_path)) initial_state) /\
  _current_search_term s2 = "a b?c" /\
  exists cs, backend_calls s2 = (backend_calls initial_state ++ cs)%list /\
             Forall (fun c => call_query c = "a b?c") cs.
Proof.
  intros w.
  apply (command_then_listing_searches_the_term w "a b?c" initial_state);
    [simpl; lia | reflexivity | reflexivity | reflexivity].
Defined.

(** X16.  A search term made of digits only is never searched.  When
    [quote] leaves such a term as it is, the path the command sets for it
    is a result item path for the listing: [iterdir] makes no backend call
    and leaves the current search term and the cache untouched, and lists
    what the previous search term has. *)
Theorem digit_term_is_not_searched (w : World) (search_term : string) (s : State) :
  PyStr.isdigit search_term = true ->
  quote w search_term = search_term ->
  let url_path := "/" +:+ quote w search_term in
  iterdir w url_path s = (inr (current_listing s), s).
Proof.
  intros Hd Hquote url_path. subst url_path. rewrite Hquote.
  change ("/" +:+ search_term) with (String "/" search_term).
  apply iterdir_item; [|done|done].
  rewrite contains_cons. by rewrite (isdigit_contains "?" search_term).
Qed.

Lemma digit_term_is_not_searched_witness :
  let w := Sample.world "api" None (Sample.server_with 5 Sample.five_results) in
  iterdir w ("/" +:+ quote w "2024") Sample.state_abc =
    (inr (current_listing Sample.state_abc), Sample.state_abc).
Proof.
  intros w.
  apply (digit_term_is_not_searched w "2024" Sample.state_abc); reflexivity.
Defined.

(** ** Other shapes of path *)

(** X17.  The old form with a question mark comes first.  For a path with
    a [?], whatever stands before it, slashes and digits included, a
    listing makes the unquoted text after the first [?] the current search
    term. *)
Theorem question_mark_form_comes_first (w : World) (base t : string) (s : State) :
  PyStr.contains "?" base = false ->
  _current_search_term (iterdir w (base +:+ "?" +:+ t) s).2 = unquote w t.
Proof.
  intros Hbase.
  assert (Hdq : decoded_query w (base +:+ "?" +:+ t) = Some (unquote w t)).
  { unfold decoded_query.
    change (base +:+ "?" +:+ t) with (base +:+ String "?" t).
    rewrite contains_app.
    assert (PyStr.split1 "?" (base +:+ String "?" t) = Some (base, t)) as ->; [|done].
    clear s. induction base as [|a base IH].
    - rewrite append_nil_l. cbn [PyStr.split1]. by rewrite Ascii.eqb_refl.
    - rewrite append_cons. cbn [PyStr.split1].
      rewrite contains_cons in Hbase. apply orb_false_iff in Hbase as [Ha Hb].
      by rewrite Ha, (IH Hb). }
  rewrite iterdir_state, Hdq. apply update_search_returns.
Qed.

Lemma question_mark_form_comes_first_witness :
  let w := Sample.world "api" None Sample.server_down in
  _current_search_term (iterdir w ("/5" +:+ "?" +:+ "a%20b") Sample.state_abc).2
    = unquote w "a%20b".
Proof.
  intros w.
  apply (question_mark_form_comes_first w "/5" "a%20b" Sample.state_abc).
  reflexivity.
Defined.

(** X18.  A path without a slash and without a question mark carries no
    search term for a listing, whatever its text: [iterdir] resets the
    current search term to the empty string, yields the placeholder and
    neither searches nor touches the cache. *)
Theorem bare_path_resets_the_search (w : World) (url_path : string) (s : State) :
  PyStr.contains "?" url_path = false ->
  PyStr.contains "/" url_path = false ->
  iterdir w url_path s = (inr ["placeholder"], set_current_search_term EmptyString s).
Proof.
  intros Hq Hslash.
  assert (Hdq : decoded_query w url_path = Some EmptyString).
  { unfold decoded_query. rewrite Hq.
    unfold PyStr.contains in Hslash. apply Nat.ltb_ge in Hslash.
    by destruct (Nat.leb_spec 1 (PyStr.count "/" url_path)); [lia|]. }
  rewrite (iterdir_query w url_path EmptyString s Hdq).
  rewrite update_search_short by (simpl; lia). done.
Qed.

Lemma bare_path_resets_the_search_witness :
  iterdir (Sample.world "api" None Sample.server_down) "abcdef" Sample.state_abc
    = (inr ["placeholder"], set_current_search_term EmptyString Sample.state_abc).
Proof.
  apply (bare_path_resets_the_search (Sample.world "api" None Sample.server_down)
           "abcdef" Sample.state_abc); reflexivity.
Defined.

(** ** What the native backend returns *)

Lemma dll_result_shape (w : World) (a : DllAnswer) (i : Z) (item : Item) :
  dll_result w a i = Some item ->
  exists p,
    p <> EmptyString /\
    (Everything_GetResultFullPathNameW a i).2 = p /\
    (Everything_GetResultFullPathNameW a i).1 <> 0 /\
    path item = Some p /\
    filename item = Some (os_path_basename w p) /\
    size item = Some (default 0 (Everything_GetResultSize a i)) /\
    is_Some (date_modified item).
Proof.
  unfold dll_result.
  destruct (Everything_GetResultFullPathNameW a i) as [written buffer].
  destruct (Z.eqb_spec written 0); [done|].
  destruct (String.eqb_spec buffer EmptyString); [done|].
  intros [= <-]. exists buffer. cbn. by repeat split; eauto.
Qed.

(** An index whose path the DLL can give is not skipped. *)
Lemma dll_result_readable (w : World) (a : DllAnswer) (i : Z) :
  (Everything_GetResultFullPathNameW a i).1 <> 0 ->
  (Everything_GetResultFullPathNameW a i).2 <> EmptyString ->
  exists item, dll_result w a i = Some item /\
               path item = Some (Everything_GetResultFullPathNameW a i).2.
Proof.
  unfold dll_result.
  destruct (Everything_GetResultFullPathNameW a i) as [written buffer]. cbn [fst snd].
  intros Hw Hb.
  destruct (Z.eqb_spec written 0); [done|].
  destruct (String.eqb_spec buffer EmptyString); [done|].
  by eexists.
Qed.

Lemma elem_of_range_2 (n i : Z) : 0 <= i < n -> i ∈ range n.
Proof.
  intros Hi. unfold range. apply list_elem_of_fmap.
  exists (Z.to_nat i). split; [lia|]. apply elem_of_seq. lia.
Qed.

(** X19.  What a native search returns is what the loaded DLL answered to
    this query, asked with the three request flags (84) as the one backend
    call the search logs: the count is the DLL's number of results, and
    every entry returned is complete.  It has the four keys, its [path] is
    the non-empty text the DLL left in the buffer for some result index
    below [min(count, 100)] for which the DLL returned a length other than
    zero, its [filename] is the base name of that path, and its [size] is
    what the DLL reports, zero when the DLL cannot tell.  No readable result
    is left out: every index below [min(count, 100)] for which the DLL
    returned a length other than zero and a non-empty text has its entry. *)
Theorem native_entries_are_complete
    (w : World) (query : string) (s : State) (count : Z) (results : list Item)
    (s1 : State) :
  search_everything_dll w query s = (inr (count, results), s1) ->
  exists dll a,
    everything_dll w = Some dll /\
    dll (length (backend_calls s)) query 84 = DllAnswers a /\
    Everything_QueryW a = true /\
    s1 = log_calls [CallDll query 84] s /\
    count = Everything_GetNumResults a /\
    Forall (fun item =>
              exists i p,
                0 <= i < Z.min count 100 /\
                (Everything_GetResultFullPathNameW a i).2 = p /\
                (Everything_GetResultFullPathNameW a i).1 <> 0 /\
                p <> EmptyString /\
                path item = Some p /\
                filename item = Some (os_path_basename w p) /\
                size item = Some (default 0 (Everything_GetResultSize a i)) /\
                is_Some (date_modified item))
           results /\
    (forall i, 0 <= i < Z.min count 100 ->
               (Everything_GetResultFullPathNameW a i).1 <> 0 ->
               (Everything_GetResultFullPathNameW a i).2 <> EmptyString ->
               exists item, item ∈ results /\
                            path item = Some (Everything_GetResultFullPathNameW a i).2).
Proof.
  intros Hrun.
  pose proof (search_everything_dll_calls w query s) as Hcalls.
  rewrite Hrun in Hcalls. cbn [snd] in Hcalls.
  destruct (search_everything_dll_success w query s count results s1 Hrun)
    as (dll & a & Hdll & Ha & Hq & Hcount & ->).
  rewrite Hdll in Hcalls.
  exists dll, a. repeat split; try done.
  - apply Forall_forall. intros item (i & Hi & Hres)%list_elem_of_omap.
    apply elem_of_range in Hi.
    destruct (dll_result_shape w a i item Hres) as (p & Hne & Hb & Hw & Hp & Hf & Hs & Hd).
    exists i, p. repeat split; try done; lia.
  - intros i Hi Hw Hb.
    destruct (dll_result_readable w a i Hw Hb) as (item & Hres & Hp).
    exists item. split; [|done].
    apply list_elem_of_omap. exists i. split; [|done]. by apply elem_of_range_2.
Qed.

Lemma native_entries_are_complete_witness :
  let w := Sample.world "dll" (Some Sample.dll_with_unreadable) Sample.server_down in
  let results := [mkItem (Some "b.txt") (Some "C:/a/b.txt") (Some 512) (Some None)] in
  exists dll a,
    everything_dll w = Some dll /\
    dll (length (backend_calls initial_state)) "abc" 84 = DllAnswers a /\
    Everything_QueryW a = true /\
    log_calls [CallDll "abc" 84] initial_state = log_calls [CallDll "abc" 84] initial_state /\
    2 = Everything_GetNumResults a /\
    Forall (fun item =>
              exists i p,
                0 <= i < Z.min 2 100 /\
                (Everything_GetResultFullPathNameW a i).2 = p /\
                (Everything_GetResultFullPathNameW a i).1 <> 0 /\
                p <> EmptyString /\
                path item = Some p /\
                filename item = Some (os_path_basename w p) /\
                size item = Some (default 0 (Everything_GetResultSize a i)) /\
                is_Some (date_modified item))
           results /\
    (forall i, 0 <= i < Z.min 2 100 ->
               (Everything_GetResultFullPathNameW a i).1 <> 0 ->
               (Everything_GetResultFullPathNameW a i).2 <> EmptyString ->
               exists item, item ∈ results /\
                            path item = Some (Everything_GetResultFullPathNameW a i).2).
Proof.
  intros w results.
  apply (native_entries_are_complete w "abc" initial_state 2 results
           (log_calls [CallDll "abc" 84] initial_state)).
  reflexivity.
Defined.

(** ** Start-up *)

Example read_settings_ex :
  read_settings
    (Some (ConfigRead (Some (mkSearchSection (KeyValue "api") (KeyRaises "bad %")
                                              (KeyValue "x.dll")))))
    (Some (ConfigRead (Some (mkSearchSection (KeyValue "dll") KeyAbsent KeyAbsent))))
  = mkSettings "api" DEFAULT_API_ENDPOINT DEFAULT_DLL_PATH.
Proof. reflexivity. Qed.

Example load_dll_ex :
  (load_dll (read_settings None None) (fun _ => true)
            (fun _ => DllLoadedUnbound Sample.dll_without_ipc "function not found")).1
  = mkSettings "api" DEFAULT_API_ENDPOINT DEFAULT_DLL_PATH.
Proof. reflexivity. Qed.

Lemma load_dll_mode (settings : Settings) (exists_ : string -> bool)
    (load : string -> DllLoad) :
  let '(settings', dll) := load_dll settings exists_ load in
  (settings_mode settings' = "dll" ->
   settings_mode settings = "dll" /\
   exists_ (settings_dll_path settings) = true /\
   exists d, load (settings_dll_path settings) = DllLoaded d /\ dll = Some d) /\
  (settings_mode settings' <> "dll" ->
   settings_mode settings <> "dll" \/ settings_mode settings' = "api") /\
  settings_api_endpoint settings' = settings_api_endpoint settings.
Proof.
  unfold load_dll.
  destruct (String.eqb_spec (settings_mode settings) "dll") as [Hm|Hm].
  - destruct (exists_ (settings_dll_path settings)) eqn:He; cbn [negb].
    + destruct (load (settings_dll_path settings)) as [d|d t|t] eqn:Hl; cbn;
        repeat split; try done; try (by right); eauto.
    + cbn. repeat split; try done. by right.
  - cbn. repeat split; try done. by left.
Qed.

(** X20.  After start-up the mode is [dll] only when the settings asked for
    it, the library file exists and loaded with all its functions; then the
    global [everything_dll] is set.  In every other case, a missing file, a
    load that raises, a library without one of the functions, or any other
    mode in the settings, every search is one call of the remote backend
    and the DLL is never called. *)
Theorem startup_mode_matches_the_library
    (ini json : option ConfigFile) (exists_ : string -> bool) (load : string -> DllLoad)
    (w0 : World) (query : string) (s : State) :
  let w := started_world ini json exists_ load w0 in
  (mode w = "dll" ->
   settings_mode (read_settings ini json) = "dll" /\
   exists_ (settings_dll_path (read_settings ini json)) = true /\
   exists d, everything_dll w = Some d /\
             load (settings_dll_path (read_settings ini json)) = DllLoaded d) /\
  (mode w <> "dll" ->
   search_everything w query s = search_everything_api w query s /\
   backend_calls (search_everything w query s).2 =
     (backend_calls s ++ [CallApi query (api_url w query)])%list).
Proof.
  intros w. subst w. unfold started_world.
  pose proof (load_dll_mode (read_settings ini json) exists_ load) as H.
  destruct (load_dll (read_settings ini json) exists_ load) as [settings' dll].
  destruct H as (Hdll & _ & _). cbn [mode everything_dll]. split.
  - intros Hm. destruct (Hdll Hm) as (Hs & He & d & Hl & ->). eauto 10.
  - intros Hm. unfold search_everything. cbn [mode].
    destruct (String.eqb_spec (settings_mode settings') "dll"); [done|].
    split; [done|]. by rewrite search_everything_api_calls.
Qed.

Lemma startup_mode_matches_the_library_witness :
  let w := started_world None None (fun _ => false) (fun _ => DllLoadRaises "no")
             (Sample.world "" None Sample.server_down) in
  (mode w = "dll" ->
   settings_mode (read_settings None None) = "dll" /\
   (fun _ : string => false) (settings_dll_path (read_settings None None)) = true /\
   exists d, everything_dll w = Some d /\
             (fun _ : string => DllLoadRaises "no")
               (settings_dll_path (read_settings None None)) = DllLoaded d) /\
  (mode w <> "dll" ->
   search_everything w "abc" initial_state = search_everything_api w "abc" initial_state /\
   backend_calls (search_everything w "abc" initial_state).2 =
     (backend_calls initial_state ++ [CallApi "abc" (api_url w "abc")])%list).
Proof.
  intros w.
  apply (startup_mode_matches_the_library None None (fun _ => false)
           (fun _ => DllLoadRaises "no") (Sample.world "" None Sample.server_down)
           "abc" initial_state).
Defined.

(** X21.  Settings are read from [settings.ini] when it exists and from
    [settings.json] only when it does not, and the one file read is treated
    alike in both cases; a file that cannot be read, or has no section
    [search], leaves the defaults.  A key that is absent keeps its default.
    The keys are read in the order [mode], [api_endpoint], [dll_path], and
    when reading one of them raises, whichever it is, the keys read before
    it keep the values of the file while it and the later ones keep their
    defaults. *)
Theorem settings_come_from_one_file
    (ini json : option ConfigFile) :
  let defaults :=
    mkSettings DEFAULT_SEARCH_MODE DEFAULT_API_ENDPOINT DEFAULT_DLL_PATH in
  (forall f, ini = Some f -> read_settings ini json = read_settings ini None) /\
  (forall f, ini = None -> json = Some f -> read_settings ini json = read_settings json None) /\
  (forall t, read_settings (Some (ConfigRaises t)) json = defaults) /\
  read_settings (Some (ConfigRead None)) json = defaults /\
  read_settings None None = defaults /\
  (forall sec m e d,
     read_key (config_mode sec) DEFAULT_SEARCH_MODE = Some m ->
     read_key (config_api_endpoint sec) DEFAULT_API_ENDPOINT = Some e ->
     read_key (config_dll_path sec) DEFAULT_DLL_PATH = Some d ->
     read_settings (Some (ConfigRead (Some sec))) json = mkSettings m e d) /\
  (forall sec t,
     config_mode sec = KeyRaises t ->
     read_settings (Some (ConfigRead (Some sec))) json = defaults) /\
  (forall sec m t,
     read_key (config_mode sec) DEFAULT_SEARCH_MODE = Some m ->
     config_api_endpoint sec = KeyRaises t ->
     read_settings (Some (ConfigRead (Some sec))) json =
       mkSettings m DEFAULT_API_ENDPOINT DEFAULT_DLL_PATH) /\
  (forall sec m e t,
     read_key (config_mode sec) DEFAULT_SEARCH_MODE = Some m ->
     read_key (config_api_endpoint sec) DEFAULT_API_ENDPOINT = Some e ->
     config_dll_path sec = KeyRaises t ->
     read_settings (Some (ConfigRead (Some sec))) json =
       mkSettings m e DEFAULT_DLL_PATH) /\
  (forall k current v,
     read_key k current = Some v <->
     (k = KeyAbsent /\ v = current) \/ k = KeyValue v).
Proof.
  intros defaults. repeat split.
  - by intros f ->.
  - by intros f -> ->.
  - intros sec m e d Hm He Hd. cbn. unfold apply_section. cbn.
    by rewrite Hm, He, Hd.
  - intros sec t Hm. cbn. unfold apply_section. cbn. by rewrite Hm.
  - intros sec m t Hm He. cbn. unfold apply_section. cbn.
    by rewrite Hm, He.
  - intros sec m e t Hm He Hd. cbn. unfold apply_section. cbn.
    by rewrite Hm, He, Hd.
  - destruct k; cbn; intros H; [left | right | done]; by injection H as <-.
  - intros [[-> ->] | ->]; reflexivity.
Qed.

(** ** More on the modified-time column *)

(** What the column DateModified shows for an entry, by the value of its
    [date_modified]. *)
Lemma DateModified_get_str_entry
    (w : World) (url url_path : string) (index : Z) (item : Item) (s : State) :
  splitscheme w url = inr ("everything://", url_path) ->
  url_path <> "placeholder" ->
  general_index url_path s = (inr (Some index), s) ->
  get_item_at_index index s = (inr (Some item), s) ->
  DateModified_get_str w url s =
    (inr (match date_modified item with
          | None => Some EmptyString
          | Some None => None
          | Some (Some raw) =>
              Some (match Datetime.strptime (strip_zone raw) with
                    | Some date => Datetime.strftime date
                    | None => raw
                    end)
          end), s).
Proof.
  intros Hurl Hph Hidx Hitem. unfold DateModified_get_str.
  unfold mbind at 1, M_bind, bind, lift_sum. rewrite Hurl, String.eqb_refl.
  destruct (String.eqb_spec url_path "placeholder"); [done|].
  unfold mbind at 1, M_bind, bind. rewrite shortcut_index_general, Hidx.
  unfold mbind at 1, M_bind, bind, try_except.
  unfold mbind at 1, M_bind, bind. rewrite Hitem.
  destruct (date_modified item) as [[raw|]|]; [| |done].
  - unfold mbind at 1, M_bind, bind. by rewrite format_date_modified_string.
  - reflexivity.
Qed.

(** X22.  The column DateModified tells an absent time from a null one.
    For an entry without the key [date_modified] it shows the empty string;
    for an entry whose [date_modified] is [None], as the native backend
    writes it when it cannot read or convert the time, the column returns
    [None] itself and no string. *)
Theorem date_modified_absent_or_null
    (w : World) (url url_path : string) (index : Z) (item : Item) (s : State) :
  splitscheme w url = inr ("everything://", url_path) ->
  url_path <> "placeholder" ->
  general_index url_path s = (inr (Some index), s) ->
  get_item_at_index index s = (inr (Some item), s) ->
  (date_modified item = None ->
   DateModified_get_str w url s = (inr (Some EmptyString), s)) /\
  (date_modified item = Some None ->
   DateModified_get_str w url s = (inr None, s)).
Proof.
  intros Hurl Hph Hidx Hitem.
  rewrite (DateModified_get_str_entry w url url_path index item s) by done.
  by split; intros ->.
Qed.

Lemma date_modified_absent_or_null_witness :
  let w := Sample.world "api" None Sample.server_down in
  DateModified_get_str w "everything:///abc//3" Sample.state_abc
    = (inr None, Sample.state_abc).
Proof.
  intros w.
  destruct (date_modified_absent_or_null w "everything:///abc//3" "/abc//3" 3
              (Sample.item "C:/docs/c.txt" None) Sample.state_abc)
    as [_ H]; [reflexivity | discriminate | reflexivity | reflexivity |].
  apply H. reflexivity.
Defined.

Section Zones.

Import PyStr.

Lemma count_app c a b : count c (a +:+ b) = (count c a + count c b)%nat.
Proof.
  induction a as [|x a IH]; [done|].
  rewrite append_cons. cbn [count]. rewrite IH. lia.
Qed.

Lemma contains_append c a b : contains c (a +:+ b) = contains c a || contains c b.
Proof.
  unfold contains. rewrite count_app.
  destruct (count c a), (count c b); done.
Qed.

Lemma remove_absent c s : contains c s = false -> remove c s = s.
Proof.
  induction s as [|a s IH]; [done|].
  rewrite contains_cons. intros [Ha Hs]%orb_false_iff.
  cbn [remove]. by rewrite Ha, (IH Hs).
Qed.

Lemma remove_app c a b : remove c (a +:+ b) = remove c a +:+ remove c b.
Proof.
  induction a as [|x a IH]; [done|].
  rewrite append_cons. cbn [remove]. rewrite IH. by destruct (Ascii.eqb x c).
Qed.

Lemma split1_app c a b :
  contains c a = false -> split1 c (a +:+ String c b) = Some (a, b).
Proof.
  intros Ha. induction a as [|x a IH].
  - rewrite append_nil_l. cbn [split1]. by rewrite Ascii.eqb_refl.
  - rewrite append_cons. cbn [split1].
    rewrite contains_cons in Ha. apply orb_false_iff in Ha as [Hx Ha].
    by rewrite Hx, (IH Ha).
Qed.

Lemma append_empty_r (s : string) : s +:+ EmptyString = s.
Proof. induction s as [|a s IH]; [done|]. by rewrite append_cons, IH. Qed.

(** The three zone suffixes come off a time that has none of [Z], [+] and
    more than two [-] in it. *)
Lemma strip_zone_suffixes (body offset : string) :
  contains "Z" body = false ->
  contains "+" body = false ->
  count "-" body = 2%nat ->
  contains "Z" offset = false ->
  contains "+" offset = false ->
  contains "-" offset = false ->
  strip_zone body = body /\
  strip_zone (body +:+ "Z") = body /\
  strip_zone (body +:+ "+" +:+ offset) = body /\
  strip_zone (body +:+ "-" +:+ offset) = body.
Proof.
  intros HZ Hp Hm HoZ Hop Hom. unfold strip_zone. repeat split.
  - rewrite HZ, Hp, Hm. by rewrite andb_false_r.
  - rewrite contains_append, HZ. cbn [orb].
    replace (contains "Z" "Z") with true by reflexivity.
    rewrite remove_app, (remove_absent "Z" body HZ).
    apply append_empty_r.
  - change (body +:+ "+" +:+ offset) with (body +:+ String "+" offset).
    rewrite contains_append, contains_cons, HZ, HoZ.
    replace (Ascii.eqb "+" "Z") with false by reflexivity. cbn [orb].
    by rewrite contains_app, split1_app.
  - change (body +:+ "-" +:+ offset) with (body +:+ String "-" offset).
    rewrite !contains_append, !contains_cons, HZ, HoZ, Hp, Hop.
    replace (Ascii.eqb "-" "Z") with false by reflexivity.
    replace (Ascii.eqb "-" "+") with false by reflexivity. cbn [orb].
    rewrite Ascii.eqb_refl, orb_true_r. cbn [orb andb].
    rewrite count_app, Hm. cbn [count]. rewrite Ascii.eqb_refl.
    replace (2 <? 2 + (1 + count "-" offset))%nat with true
      by (symmetry; apply Nat.ltb_lt; lia).
    by rewrite rsplit1_app.
Qed.

End Zones.

(** X23.  The zone of a time is dropped, not applied.  For a time text with
    no [Z], no [+] and just the two [-] of its date, the column DateModified
    shows the same for the text alone, with [Z] after it, with [+] and an
    offset after it, and with [-] and an offset after it: the time is
    reformatted as written, whatever the offset says. *)
Theorem zone_suffix_is_dropped
    (w : World) (url url_path : string) (index : Z) (body offset suffix : string)
    (item : Item) (s : State) :
  PyStr.contains "Z" body = false ->
  PyStr.contains "+" body = false ->
  PyStr.count "-" body = 2%nat ->
  PyStr.contains "Z" offset = false ->
  PyStr.contains "+" offset = false ->
  PyStr.contains "-" offset = false ->
  suffix = EmptyString \/ suffix = "Z" \/ suffix = "+" +:+ offset \/ suffix = "-" +:+ offset ->
  splitscheme w url = inr ("everything://", url_path) ->
  url_path <> "placeholder" ->
  general_index url_path s = (inr (Some index), s) ->
  get_item_at_index index s = (inr (Some item), s) ->
  date_modified item = Some (Some (body +:+ suffix)) ->
  DateModified_get_str w url s =
    (inr (Some (match Datetime.strptime body with
                | Some date => Datetime.strftime date
                | None => body +:+ suffix
                end)), s).
Proof.
  intros HZ Hp Hm HoZ Hop Hom Hsuffix Hurl Hph Hidx Hitem Hdate.
  rewrite (DateModified_get_str_entry w url url_path index item s) by done.
  rewrite Hdate.
  destruct (strip_zone_suffixes body offset HZ Hp Hm HoZ Hop Hom) as (H0 & H1 & H2 & H3).
  destruct Hsuffix as [-> | [-> | [-> | ->]]].
  - by rewrite append_empty_r, H0.
  - by rewrite H1.
  - by rewrite H2.
  - by rewrite H3.
Qed.

Lemma zone_suffix_is_dropped_witness :
  let w := Sample.world "api" None Sample.server_down in
  let item := Sample.item "C:/docs/a.txt" (Some "2024-03-05T12:30:00-05:00") in
  let s := mkState "abc" {[ "abc" := (1, [item]) ]} None 0 None [] [] in
  DateModified_get_str w "everything:///abc//0" s =
    (inr (Some (match Datetime.strptime "2024-03-05T12:30:00" with
                | Some date => Datetime.strftime date
                | None => "2024-03-05T12:30:00" +:+ "-" +:+ "05:00"
                end)), s).
Proof.
  intros w item s.
  apply (zone_suffix_is_dropped w "everything:///abc//0" "/abc//0" 0
           "2024-03-05T12:30:00" "05:00" ("-" +:+ "05:00") item s);
    [reflexivity | reflexivity | reflexivity | reflexivity | reflexivity | reflexivity
    | right; right; right; reflexivity
    | reflexivity | discriminate | reflexivity | reflexivity | reflexivity].
Defined.

(** ** Empty answers *)

(** A listing of a search term that has cached results. *)
Lemma iterdir_hit (w : World) (url_path q : string) (s : State) (count : Z)
    (results : list Item) :
  decoded_query w url_path = Some q ->
  (3 <= String.length q)%nat ->
  _results_cache s !! q = Some (count, results) ->
  iterdir w url_path s = (inr (entries results), set_current_search_term q s).
Proof.
  intros Hq Hlen Hc.
  rewrite (iterdir_query w url_path q s Hq).
  rewrite update_search_hit by (rewrite ?Hc; eauto). cbn [snd].
  f_equal. f_equal. unfold current_listing. simpl.
  destruct (Nat.ltb_spec (String.length q) 3); [lia|]. by rewrite Hc.
Qed.

(** X24.  An answer without results is cached like any other.  When the
    remote backend is the only one and its response has no key [results],
    or an empty list, the first listing of the search term caches the empty
    list and yields no entry, not even the placeholder; every later listing
    of the term finds it cached, makes no backend call and again yields no
    entry. *)
Theorem empty_answer_is_cached
    (w : World) (url_path q : string) (s : State) (count : option Z) :
  mode w <> "dll" ->
  decoded_query w url_path = Some q ->
  (3 <= String.length q)%nat ->
  _results_cache s !! q = None ->
  (urlopen w (length (backend_calls s)) (api_url w q) = HttpJson count None \/
   urlopen w (length (backend_calls s)) (api_url w q) = HttpJson count (Some [])) ->
  let s1 := (iterdir w url_path s).2 in
  (iterdir w url_path s).1 = inr [] /\
  _results_cache s1 !! q = Some (default 0 count, []) /\
  iterdir w url_path s1 = (inr [], s1).
Proof.
  intros Hmode Hq Hlen Hmiss Hreply s1.
  assert (Hsearch : search_everything w q (set_current_search_term q s) =
                    (inr (default 0 count, []),
                     log_call (CallApi q (api_url w q)) (set_current_search_term q s))).
  { unfold search_everything.
    destruct (String.eqb_spec (mode w) "dll"); [done|].
    unfold search_everything_api; run. fold (api_url w q).
    by destruct Hreply as [-> | ->]. }
  pose proof (iterdir_miss_ok w url_path q s _ _ _ Hq Hlen Hmiss Hsearch) as H1.
  subst s1. rewrite H1. cbn [fst snd].
  split; [done|]. split.
  - simpl. by rewrite lookup_insert_eq.
  - rewrite (iterdir_hit w url_path q _ (default 0 count) []); [|done|done|].
    + done.
    + simpl. by rewrite lookup_insert_eq.
Qed.

Lemma empty_answer_is_cached_witness :
  let w := Sample.world "api" None (fun _ _ => HttpJson (Some 7) None) in
  let s1 := (iterdir w "/abc" initial_state).2 in
  (iterdir w "/abc" initial_state).1 = inr [] /\
  _results_cache s1 !! "abc" = Some (default 0 (Some 7), []) /\
  iterdir w "/abc" s1 = (inr [], s1).
Proof.
  intros w.
  apply (empty_answer_is_cached w "/abc" "abc" initial_state (Some 7));
    [discriminate | reflexivity | simpl; lia | reflexivity | left; reflexivity].
Defined.
